(** * ai-production: forecasting pipeline and portfolio risk engine

    A shallow embedding of [services/portfolio_analyzer.py] and
    [services/stock_predictor.py], the properties their specification
    states about them (Part II), and further properties of the code
    itself (Part III).

    Numbers.  The Python code computes on IEEE doubles (Python floats, numpy
    and pandas).  Finite values are embedded as exact rationals [Q]; the
    results of the operations that leave the finite range by a division
    (x/0, 0/0) are the IEEE specials [PInf], [NInf] and [NaN], with the
    propagation rules numpy applies to them.  Rounding and signed zeros are
    not represented.

    Library calls whose value is not a rational function of their arguments
    ([np.sqrt], [scipy.stats.skew], [scipy.stats.kurtosis], the fitted
    regressors of scikit-learn, Python's [hash] and the draws of
    [np.random]) are Section variables. *)

From Stdlib Require Import QArith Qabs Qminmax Qround Lqa Lia List String Sorted.
From stdpp Require Import gmap strings.
Import ListNotations.

Set Default Proof Using "Type*".

(* ===================================================================== *)
(** * Part I: the embedded program                                        *)
(* ===================================================================== *)

(** ** Extended rationals: a finite value, an infinity or NaN *)

Module Num.

Local Open Scope Q_scope.

Inductive num : Type :=
| Fin (q : Q)
| PInf
| NInf
| NaN.

Definition inf_of_sign (c : comparison) : num :=
  match c with
  | Gt => PInf
  | Lt => NInf
  | Eq => NaN
  end.

Definition is_nan (a : num) : bool :=
  match a with
  | NaN => true
  | _ => false
  end.

Definition neg (a : num) : num :=
  match a with
  | Fin x => Fin (- x)
  | PInf => NInf
  | NInf => PInf
  | NaN => NaN
  end.

Definition add (a b : num) : num :=
  match a, b with
  | NaN, _ | _, NaN => NaN
  | Fin x, Fin y => Fin (x + y)
  | PInf, NInf | NInf, PInf => NaN
  | PInf, _ | _, PInf => PInf
  | NInf, _ | _, NInf => NInf
  end.

Definition sub (a b : num) : num := add a (neg b).

Definition mul (a b : num) : num :=
  match a, b with
  | NaN, _ | _, NaN => NaN
  | Fin x, Fin y => Fin (x * y)
  | Fin x, PInf | PInf, Fin x => inf_of_sign (x ?= 0)
  | Fin x, NInf | NInf, Fin x => inf_of_sign (0 ?= x)
  | PInf, PInf | NInf, NInf => PInf
  | PInf, NInf | NInf, PInf => NInf
  end.

(** Division of two finite values: numpy does not raise on a zero
    divisor, it returns an infinity of the sign of the dividend, or NaN
    for 0/0. *)
Definition qdiv (x y : Q) : num :=
  if Qeq_bool y 0 then inf_of_sign (x ?= 0) else Fin (x / y).

Definition div (a b : num) : num :=
  match a, b with
  | NaN, _ | _, NaN => NaN
  | Fin x, Fin y => qdiv x y
  | Fin _, PInf | Fin _, NInf => Fin 0
  | PInf, Fin y => if Qle_bool 0 y then PInf else NInf
  | NInf, Fin y => if Qle_bool 0 y then NInf else PInf
  | PInf, PInf | PInf, NInf | NInf, PInf | NInf, NInf => NaN
  end.

Definition abs (a : num) : num :=
  match a with
  | Fin x => Fin (Qabs x)
  | PInf | NInf => PInf
  | NaN => NaN
  end.

(** Comparisons: every comparison with NaN is false. *)
Definition ltb (a b : num) : bool :=
  match a, b with
  | NaN, _ | _, NaN => false
  | Fin x, Fin y => negb (Qle_bool y x)
  | NInf, NInf | PInf, _ | _, NInf => false
  | NInf, _ | _, PInf => true
  end.

Definition leb (a b : num) : bool :=
  match a, b with
  | NaN, _ | _, NaN => false
  | Fin x, Fin y => Qle_bool x y
  | NInf, _ | _, PInf => true
  | PInf, _ | _, NInf => false
  end.

Definition gtb (a b : num) : bool := ltb b a.
Definition geb (a b : num) : bool := leb b a.

(** Equality of values up to the representation of the rational. *)
Definition eqv (a b : num) : Prop :=
  match a, b with
  | Fin x, Fin y => x == y
  | PInf, PInf | NInf, NInf | NaN, NaN => True
  | _, _ => False
  end.

(** [min] and [max] of a pandas reduction: NaN entries are skipped
    ([skipna=True]); without any other entry the result is NaN. *)
Definition min_skipna (a b : num) : num :=
  match a, b with
  | NaN, c | c, NaN => c
  | _, _ => if leb a b then a else b
  end.

Definition max_skipna (a b : num) : num :=
  match a, b with
  | NaN, c | c, NaN => c
  | _, _ => if leb a b then b else a
  end.

End Num.

Export Num (num, Fin, PInf, NInf, NaN).

Declare Scope num_scope.
Delimit Scope num_scope with num.
Bind Scope num_scope with num.
Infix "+" := Num.add : num_scope.
Infix "-" := Num.sub : num_scope.
Infix "*" := Num.mul : num_scope.
Infix "/" := Num.div : num_scope.
Infix ">?" := Num.gtb (at level 70, no associativity) : num_scope.
Infix "<?" := Num.ltb (at level 70, no associativity) : num_scope.
Infix "<=?" := Num.leb (at level 70, no associativity) : num_scope.
Infix ">=?" := Num.geb (at level 70, no associativity) : num_scope.
Infix "≃" := Num.eqv (at level 70, no associativity) : num_scope.

(** ** Python values used by both services *)

Module Py.

(** The outcome of a call: a value, or the exception it raised. *)
Inductive result (E A : Type) : Type :=
| Ok (a : A)
| Raise (e : E).
Arguments Ok {E A} a.
Arguments Raise {E A} e.

#[global] Instance result_ret {E} : MRet (result E) := λ A a, Ok a.

#[global] Instance result_bind {E} : MBind (result E) := λ A B k r,
  match r with
  | Ok a => k a
  | Raise e => Raise e
  end.

(** A [dict] with string keys, in insertion order. *)
Definition dict (V : Type) : Type := list (string * V).

Fixpoint dict_get {V} (d : dict V) (key : string) (default : V) : V :=
  match d with
  | [] => default
  | (k, v) :: d' => if String.eqb k key then v else dict_get d' key default
  end.

Fixpoint dict_set {V} (d : dict V) (key : string) (v : V) : dict V :=
  match d with
  | [] => [(key, v)]
  | (k, w) :: d' =>
      if String.eqb k key then (k, v) :: d' else (k, w) :: dict_set d' key v
  end.

Definition dict_keys {V} (d : dict V) : list string := map fst d.
Definition dict_values {V} (d : dict V) : list V := map snd d.

(** [needle in haystack] on strings. *)
Fixpoint contains (needle haystack : string) : bool :=
  String.prefix needle haystack
  || match haystack with
     | EmptyString => false
     | String _ rest => contains needle rest
     end.

(** [str(l)] for a list of strings without quote characters. *)
Definition str_of_list (l : list string) : string :=
  ("[" +:+ String.concat ", " (map (λ s, "'" +:+ s +:+ "'") l) +:+ "]")%string.

End Py.

Export Py (result, Ok, Raise, dict).


(** ** Series reductions (pandas, numpy) *)

Module Series.

Local Open Scope Q_scope.

Definition list_max (xs : list Q) : Q :=
  match xs with
  | [] => 0
  | x :: xs' => fold_left Qmax xs' x
  end.

Definition list_sum (xs : list Q) : Q := fold_left Qplus xs 0.

Definition qlen {A} (xs : list A) : Q := inject_Z (Z.of_nat (length xs)).

(** [Series.mean()]: NaN on an empty series. *)
Definition series_mean (xs : list Q) : num := Num.qdiv (list_sum xs) (qlen xs).

Definition sum_sq_dev (xs : list Q) : Q :=
  let m := list_sum xs / qlen xs in
  list_sum (map (λ x, (x - m) * (x - m)) xs).

(** [Series.var()], with pandas' default [ddof=1]: NaN below two
    observations. *)
Definition series_var (xs : list Q) : num :=
  if (length xs <=? 1)%nat then NaN
  else Fin (sum_sq_dev xs / (qlen xs - 1)).

Fixpoint cumprod_from (acc : Q) (xs : list Q) : list Q :=
  match xs with
  | [] => []
  | x :: xs' => acc * x :: cumprod_from (acc * x) xs'
  end.

Definition cumprod (xs : list Q) : list Q := cumprod_from 1 xs.

Fixpoint expanding_max_from (m : Q) (xs : list Q) : list Q :=
  match xs with
  | [] => []
  | x :: xs' => Qmax m x :: expanding_max_from (Qmax m x) xs'
  end.

(** [Series.expanding().max()]. *)
Definition expanding_max (xs : list Q) : list Q :=
  match xs with
  | [] => []
  | x :: xs' => x :: expanding_max_from x xs'
  end.

(** [Series.min()]: NaN entries are skipped. *)
Definition series_min (xs : list num) : num := fold_left Num.min_skipna xs NaN.

Fixpoint insert_sorted (x : Q) (xs : list Q) : list Q :=
  match xs with
  | [] => [x]
  | y :: ys => if Qle_bool x y then x :: y :: ys else y :: insert_sorted x ys
  end.

Definition sort (xs : list Q) : list Q := fold_right insert_sorted [] xs.

(** [np.percentile(xs, q)] with numpy's default linear interpolation
    between the two order statistics around the index (n-1)*q/100. *)
Definition np_percentile (xs : list Q) (q : Q) : num :=
  match xs with
  | [] => NaN
  | _ =>
      let sorted := sort xs in
      let virtual_index := (qlen xs - 1) * (q / 100) in
      let previous := Z.to_nat (Qfloor virtual_index) in
      let next := Nat.min (S previous) (length xs - 1) in
      let gamma := virtual_index - inject_Z (Qfloor virtual_index) in
      let a := nth previous sorted 0 in
      let b := nth next sorted 0 in
      Fin (a + (b - a) * gamma)
  end.

Section Sqrt.

(** [np.sqrt] on a non-negative rational. *)
Variable np_sqrt : Q → Q.

Definition num_sqrt (a : num) : num :=
  match a with
  | Fin x => if Qle_bool 0 x then Fin (np_sqrt x) else NaN
  | PInf => PInf
  | NInf | NaN => NaN
  end.

(** [Series.std()]. *)
Definition series_std (xs : list Q) : num := num_sqrt (series_var xs).

(** [(1 + returns).cumprod()]. *)
Definition cumulative_returns_of (returns : list Q) : list Q :=
  cumprod (map (λ r, 1 + r) returns).

End Sqrt.

End Series.

Export Series.

(** ** services/portfolio_analyzer.py *)

Module PortfolioAnalyzer.

Local Open Scope Q_scope.
Local Open Scope string_scope.

Inductive RiskLevel : Type :=
| conservative
| moderate
| aggressive.

Inductive Error : Type :=
| ZeroDivisionError
| ValueError (msg : string).

(** *** [assess_portfolio_risk] *)

(** The three locals the factor checks update in turn. *)
Record Locals : Type := mkLocals {
  l_risk_score : nat;
  l_risk_level : RiskLevel;
  l_risk_factors : list string
}.

Definition add_factor (n : nat) (text : string) (l : Locals) : Locals :=
  mkLocals (l_risk_score l + n) (l_risk_level l) (l_risk_factors l ++ [text]).

Definition set_level (lvl : RiskLevel) (l : Locals) : Locals :=
  mkLocals (l_risk_score l) lvl (l_risk_factors l).

Definition assess_volatility (volatility : num) (l : Locals) : Locals :=
  if (volatility >? Fin 0.4)%num then
    set_level aggressive (add_factor 3 "High volatility (>40%)" l)
  else if (volatility >? Fin 0.25)%num then
    add_factor 2 "Moderate-high volatility (25-40%)" l
  else if (volatility >? Fin 0.15)%num then
    add_factor 1 "Moderate volatility (15-25%)" l
  else
    add_factor 0 "Low volatility (<15%)" l.

Definition assess_drawdown (max_drawdown : num) (l : Locals) : Locals :=
  if (max_drawdown >? Fin 0.35)%num then
    set_level aggressive (add_factor 3 "Very high maximum drawdown (>35%)" l)
  else if (max_drawdown >? Fin 0.20)%num then
    add_factor 2 "High maximum drawdown (20-35%)" l
  else if (max_drawdown >? Fin 0.10)%num then
    add_factor 1 "Moderate maximum drawdown (10-20%)" l
  else
    add_factor 0 "Low maximum drawdown (<10%)" l.

(** [max(values) / sum(values) if sector_allocation else 0]: the values
    are Python numbers, whose division raises on a zero divisor. *)
Definition max_sector_weight (sector_allocation : dict Q) : result Error Q :=
  match sector_allocation with
  | [] => Ok 0
  | _ =>
      let total := list_sum (Py.dict_values sector_allocation) in
      if Qeq_bool total 0 then Raise ZeroDivisionError
      else Ok (list_max (Py.dict_values sector_allocation) / total)
  end.

Definition assess_sector (max_sector_weight : Q) (l : Locals) : Locals :=
  if negb (Qle_bool max_sector_weight 0.5) then
    add_factor 2 "High sector concentration (>50% in one sector)" l
  else if negb (Qle_bool max_sector_weight 0.3) then
    add_factor 1 "Moderate sector concentration (30-50% in one sector)" l
  else
    add_factor 0 "Well-diversified across sectors" l.

(** The entries above the diagonal, row by row
    ([values[np.triu_indices_from(values, k=1)]]). *)
Fixpoint triu_from (i : nat) (rows : list (list num)) : list num :=
  match rows with
  | [] => []
  | row :: rows' => skipn (S i) row ++ triu_from (S i) rows'
  end.

Definition upper_triangle (m : list (list num)) : list num := triu_from 0 m.

(** [ndarray.mean()]: NaN for an empty array and when an entry is NaN. *)
Definition np_mean (xs : list num) : num :=
  (fold_left Num.add xs (Fin 0) / Fin (inject_Z (Z.of_nat (length xs))))%num.

Definition assess_correlation (avg_correlation : num) (l : Locals) : Locals :=
  if (avg_correlation >? Fin 0.7)%num then
    add_factor 2 "High correlation between holdings (>0.7)" l
  else if (avg_correlation >? Fin 0.5)%num then
    add_factor 1 "Moderate correlation between holdings (0.5-0.7)" l
  else
    add_factor 0 "Low correlation between holdings (<0.5)" l.

Definition assess_sharpe (sharpe_ratio : num) (l : Locals) : Locals :=
  if (sharpe_ratio >? Fin 1.0)%num then
    add_factor 0 "Excellent risk-adjusted returns (Sharpe > 1.0)" l
  else if (sharpe_ratio >? Fin 0.5)%num then
    add_factor 0 "Good risk-adjusted returns (Sharpe 0.5-1.0)" l
  else if (sharpe_ratio >? Fin 0)%num then
    add_factor 0 "Positive risk-adjusted returns (Sharpe 0-0.5)" l
  else
    add_factor 1 "Poor risk-adjusted returns (Sharpe < 0)" l.

(** The closing [if risk_score >= 6 ... elif risk_score >= 3 ... else]. *)
Definition determine_level (l : Locals) : Locals :=
  if (6 <=? l_risk_score l)%nat then set_level aggressive l
  else if (3 <=? l_risk_score l)%nat then set_level moderate l
  else set_level conservative l.

Definition generate_risk_recommendations
    (risk_factors : list string) (risk_level : RiskLevel) : list string :=
  let shown := Py.str_of_list risk_factors in
  (if Py.contains "High volatility" shown
   then ["Consider adding defensive stocks or bonds to reduce volatility"]
   else [])
  ++ (if Py.contains "High maximum drawdown" shown
      then ["Implement stop-loss strategies to limit downside risk"]
      else [])
  ++ (if Py.contains "High sector concentration" shown
      then ["Diversify across different sectors to reduce concentration risk"]
      else [])
  ++ (if Py.contains "High correlation" shown
      then ["Add uncorrelated assets (bonds, commodities, international stocks)"]
      else [])
  ++ (if Py.contains "Poor risk-adjusted returns" shown
      then ["Review portfolio allocation and consider rebalancing"]
      else [])
  ++ match risk_level with
     | aggressive =>
         ["Consider reducing position sizes or adding defensive assets"]
     | conservative =>
         ["Portfolio appears well-balanced for conservative investors"]
     | moderate => []
     end.

Record RiskAssessment : Type := mkRiskAssessment {
  risk_score : nat;
  risk_level : RiskLevel;
  risk_factors : list string;
  recommendations : list string
}.

(** The locals after the five factor checks, before the level is
    determined from the score. *)
Definition factor_checks (portfolio_risk : dict num) (sector_weight : Q)
    (correlation_matrix : list (list num)) : Locals :=
  let l := mkLocals 0 moderate [] in
  let l := assess_volatility (Py.dict_get portfolio_risk "volatility" (Fin 0)) l in
  let l := assess_drawdown
             (Num.abs (Py.dict_get portfolio_risk "max_drawdown" (Fin 0))) l in
  let l := assess_sector sector_weight l in
  let l := assess_correlation (np_mean (upper_triangle correlation_matrix)) l in
  assess_sharpe (Py.dict_get portfolio_risk "sharpe_ratio" (Fin 0)) l.

Definition assess_portfolio_risk (portfolio_risk : dict num)
    (sector_allocation : dict Q) (correlation_matrix : list (list num))
    : result Error RiskAssessment :=
  w ← max_sector_weight sector_allocation;
  let l := determine_level (factor_checks portfolio_risk w correlation_matrix) in
  Ok (mkRiskAssessment (l_risk_score l) (l_risk_level l) (l_risk_factors l)
        (generate_risk_recommendations (l_risk_factors l) (l_risk_level l))).

(** The thresholds in the words of the specification: score >= 6 is
    aggressive, score >= 3 is moderate, anything else conservative. *)
Definition spec_risk_level (score : nat) : RiskLevel :=
  if (6 <=? score)%nat then aggressive
  else if (3 <=? score)%nat then moderate
  else conservative.

(** Sample inputs. *)
Definition volatile_risk : dict num :=
  [("volatility", Fin 0.5); ("sharpe_ratio", Fin (-0.2))].
Definition four_sectors : dict Q :=
  [("Technology", 10); ("Healthcare", 10); ("Energy", 10); ("Industrials", 10)].
Definition low_correlation : list (list num) :=
  [[Fin 1; Fin 0.1]; [Fin 0.1; Fin 1]].

(** *** [calculate_risk_metrics] *)

Section RiskMetrics.

(** [np.sqrt] on a non-negative rational, [scipy.stats.skew] and
    [scipy.stats.kurtosis]. *)
Variable np_sqrt : Q → Q.
Variables stats_skew stats_kurtosis : list Q → num.

Definition risk_free_rate : Q := 0.04.

Definition drawdown_series (returns : list Q) : list num :=
  let cumulative_returns := cumulative_returns_of returns in
  let rolling_max := expanding_max cumulative_returns in
  zip_with (λ c m, Num.qdiv (c - m) m) cumulative_returns rolling_max.

Definition max_drawdown_of (returns : list Q) : num :=
  series_min (drawdown_series returns).

Definition var_95_of (returns : list Q) : num := np_percentile returns 5.

(** [returns[returns <= var_95].mean()]. *)
Definition expected_shortfall_of (returns : list Q) : num :=
  series_mean (List.filter (λ r, (Fin r <=? var_95_of returns)%num) returns).

Definition calculate_risk_metrics (returns : list Q) : dict num :=
  if (length returns <? 30)%nat then []
  else
    let mean_return := (series_mean returns * Fin 252)%num in
    let volatility := (series_std np_sqrt returns * Fin (np_sqrt 252))%num in
    let excess_returns := map (λ r, r - risk_free_rate / 252) returns in
    let sharpe_ratio :=
      if (volatility >? Fin 0)%num
      then ((series_mean excess_returns * Fin 252) / volatility)%num
      else Fin 0 in
    let max_drawdown := max_drawdown_of returns in
    let var_95 := var_95_of returns in
    let es_95 := expected_shortfall_of returns in
    let skewness := stats_skew returns in
    let kurtosis := stats_kurtosis returns in
    let beta := Fin 1.0 in
    [ ("mean_return", mean_return);
      ("volatility", volatility);
      ("sharpe_ratio", sharpe_ratio);
      ("max_drawdown", max_drawdown);
      ("var_95", var_95);
      ("expected_shortfall", es_95);
      ("skewness", skewness);
      ("kurtosis", kurtosis);
      ("beta", beta) ].

(** *** [calculate_portfolio_metrics] *)

Record Holding : Type := mkHolding {
  symbol : string;
  value : Q
}.

(** The sector table of [get_stock_info]; a symbol that is not listed is
    filed under Technology. *)
Definition sectors : dict string :=
  [ ("AAPL", "Technology"); ("MSFT", "Technology"); ("GOOGL", "Technology");
    ("NVDA", "Technology"); ("ADBE", "Technology"); ("CRM", "Technology");
    ("AMZN", "Consumer Cyclical"); ("TSLA", "Consumer Cyclical");
    ("HD", "Consumer Cyclical"); ("NKE", "Consumer Cyclical");
    ("META", "Communication Services"); ("DIS", "Communication Services");
    ("NFLX", "Communication Services"); ("JPM", "Financial Services");
    ("V", "Financial Services"); ("MA", "Financial Services");
    ("PYPL", "Financial Services"); ("JNJ", "Healthcare");
    ("UNH", "Healthcare"); ("PG", "Consumer Defensive");
    ("KO", "Consumer Defensive"); ("PEP", "Consumer Defensive");
    ("WMT", "Consumer Defensive"); ("COST", "Consumer Defensive");
    ("BA", "Industrials"); ("CAT", "Industrials"); ("XOM", "Energy");
    ("CVX", "Energy") ].

Definition sector_of (sym : string) : string :=
  Py.dict_get sectors sym "Technology".

Definition sector_allocation_of (portfolio_data : list Holding) : dict Q :=
  fold_left
    (λ allocation item,
       let sector := sector_of (symbol item) in
       Py.dict_set allocation sector (Py.dict_get allocation sector 0 + value item))
    portfolio_data [].

(** [[item['value'] / total_value for item in portfolio_data]], a division
    of Python numbers. *)
Definition weights_of (portfolio_data : list Holding) : result Error (list Q) :=
  let total_value := list_sum (map value portfolio_data) in
  match portfolio_data with
  | [] => Ok []
  | _ =>
      if Qeq_bool total_value 0 then Raise ZeroDivisionError
      else Ok (map (λ item, value item / total_value) portfolio_data)
  end.

(** [(returns_df * weights).sum(axis=1)].  [returns_df] is the table of the
    holdings' return series joined on their common dates, given by its
    columns; the list of weights has to be as long as the table is wide. *)
Definition portfolio_returns_of (weights : list Q) (returns_df : list (list Q))
    : result Error (list Q) :=
  if negb (length weights =? length returns_df)%nat then
    Raise (ValueError "Unable to coerce to Series")
  else
    let rows := length (hd [] returns_df) in
    let weighted := zip_with (λ w column, map (Qmult w) column) weights returns_df in
    Ok (fold_left (zip_with Qplus) weighted (repeat 0 rows)).

(** Lines 263 to 268: the weighted individual variance over the variance
    of the portfolio returns, both annualised, or 1 when the latter is not
    positive. *)
Definition diversification_ratio_of (weights : list Q)
    (returns_df : list (list Q)) (portfolio_returns : list Q) : num :=
  let portfolio_variance := (series_var portfolio_returns * Fin 252)%num in
  let weighted_individual_variance :=
    fold_left Num.add
      (zip_with (λ w column, (Fin (w ^ 2) * series_var column * Fin 252)%num)
         weights returns_df)
      (Fin 0) in
  if (portfolio_variance >? Fin 0)%num
  then (weighted_individual_variance / portfolio_variance)%num
  else Fin 1.

Definition sum_cross_dev (xs ys : list Q) : Q :=
  let mx := list_sum xs / qlen xs in
  let my := list_sum ys / qlen ys in
  list_sum (zip_with (λ x y, (x - mx) * (y - my)) xs ys).

(** One entry of [DataFrame.corr()]: NaN when a series does not vary. *)
Definition corr (xs ys : list Q) : num :=
  let divisor := np_sqrt (sum_sq_dev xs * sum_sq_dev ys) in
  if Qeq_bool divisor 0 then NaN else Fin (sum_cross_dev xs ys / divisor).

Definition correlation_matrix_of (returns_df : list (list Q)) : list (list num) :=
  map (λ xs, map (corr xs) returns_df) returns_df.

Record PortfolioMetrics : Type := mkPortfolioMetrics {
  total_value : Q;
  weights : dict Q;
  portfolio_risk : dict num;
  correlation_matrix : list (list num);
  diversification_ratio : num;
  sector_allocation : dict Q;
  risk_assessment : RiskAssessment
}.

(** [None] stands for the empty dict returned without holdings or without
    return series. *)
Definition calculate_portfolio_metrics (portfolio_data : list Holding)
    (returns_df : list (list Q)) : result Error (option PortfolioMetrics) :=
  match portfolio_data, returns_df with
  | [], _ | _, [] => Ok None
  | _, _ =>
      ws ← weights_of portfolio_data;
      portfolio_returns ← portfolio_returns_of ws returns_df;
      let risk := calculate_risk_metrics portfolio_returns in
      let correlations := correlation_matrix_of returns_df in
      let allocation := sector_allocation_of portfolio_data in
      assessment ← assess_portfolio_risk risk allocation correlations;
      Ok (Some (mkPortfolioMetrics
                  (list_sum (map value portfolio_data))
                  (fold_left (λ d '(sym, w), Py.dict_set d sym w)
                     (combine (map symbol portfolio_data) ws) [])
                  risk correlations
                  (diversification_ratio_of ws returns_df portfolio_returns)
                  allocation assessment))
  end.

End RiskMetrics.


(** Two holdings of the same value. *)
Definition twin_holdings : list Holding := [mkHolding "AAPL" 5000; mkHolding "MSFT" 5000].
Definition twin_returns : list Q := [0.01; -0.02; 0.03; -0.01; 0.02].


(** A path that never falls from one observation to the next. *)
Fixpoint non_decreasing (xs : list Q) : bool :=
  match xs with
  | [] => true
  | x :: xs' =>
      match xs' with
      | [] => true
      | y :: _ => Qle_bool x y && non_decreasing xs'
      end
  end.

(** At or below zero (NaN is neither). *)
Definition at_most_zero (a : num) : Prop := (a <=? Fin 0)%num = true.

(** Zero or missing. *)
Definition zero_or_nan (a : num) : Prop :=
  match a with
  | Fin z => z == 0
  | NaN => True
  | _ => False
  end.

(** Thirty observations with a dip after the first, and thirty that rise. *)
Definition dip_series : list Q := 0.5 :: -0.5 :: repeat 0 28.
Definition rising_series : list Q := repeat 0.01 30.


(** Thirty observations opening with the loss of the whole position. *)
Definition total_loss_series : list Q := -1 :: repeat 0 29.

(** *** [get_stock_info] *)

Definition company_names : dict string :=
  [ ("AAPL", "Apple Inc."); ("MSFT", "Microsoft Corporation");
    ("GOOGL", "Alphabet Inc."); ("AMZN", "Amazon.com Inc.");
    ("TSLA", "Tesla Inc."); ("META", "Meta Platforms Inc.");
    ("NVDA", "NVIDIA Corporation"); ("JPM", "JPMorgan Chase & Co.");
    ("JNJ", "Johnson & Johnson"); ("V", "Visa Inc.");
    ("PG", "Procter & Gamble Co."); ("HD", "Home Depot Inc.");
    ("MA", "Mastercard Inc."); ("UNH", "UnitedHealth Group Inc.");
    ("DIS", "Walt Disney Co."); ("PYPL", "PayPal Holdings Inc.");
    ("ADBE", "Adobe Inc."); ("CRM", "Salesforce Inc.");
    ("NFLX", "Netflix Inc."); ("NKE", "Nike Inc.");
    ("KO", "Coca-Cola Co."); ("PEP", "PepsiCo Inc.");
    ("WMT", "Walmart Inc."); ("COST", "Costco Wholesale Corp.");
    ("BA", "Boeing Co."); ("CAT", "Caterpillar Inc.");
    ("XOM", "Exxon Mobil Corp."); ("CVX", "Chevron Corp.") ].

Record StockInfo : Type := mkStockInfo {
  info_symbol : string;
  info_name : string;
  info_current_price : Q;
  info_market_cap : Q;
  info_pe_ratio : Q;
  info_beta : Q;
  info_sector : string;
  info_industry : string;
  info_dividend_yield : Q;
  info_volume : Q;
  info_avg_volume : Q;
  info_fifty_two_week_low : Q;
  info_fifty_two_week_high : Q;
  info_price_to_book : Q;
  info_debt_to_equity : Q;
  info_return_on_equity : Q;
  info_profit_margins : Q
}.

(** *** [get_stock_recommendations] *)

(** The table of popular stocks by sector, in the order of the dict. *)
Definition sector_stocks : list (string * list string) :=
  [ ("Technology",
     ["AAPL"; "MSFT"; "GOOGL"; "AMZN"; "META"; "NVDA"; "TSLA"; "ADBE"; "CRM"]);
    ("Healthcare", ["JNJ"; "PFE"; "UNH"; "ABBV"; "TMO"; "DHR"; "LLY"; "ABT"]);
    ("Financial Services", ["JPM"; "BAC"; "WFC"; "GS"; "MS"; "V"; "MA"; "AXP"]);
    ("Consumer Cyclical", ["AMZN"; "TSLA"; "HD"; "MCD"; "NKE"; "SBUX"; "DIS"]);
    ("Consumer Defensive", ["PG"; "KO"; "PEP"; "WMT"; "COST"; "PM"; "MO"]);
    ("Industrials", ["BA"; "CAT"; "GE"; "MMM"; "HON"; "UPS"; "FDX"]);
    ("Energy", ["XOM"; "CVX"; "COP"; "EOG"; "SLB"; "KMI"]);
    ("Real Estate", ["SPG"; "PLD"; "AMT"; "CCI"; "EQIX"; "DLR"]);
    ("Communication Services", ["GOOGL"; "META"; "NFLX"; "DIS"; "CMCSA"; "VZ"]);
    ("Basic Materials", ["LIN"; "APD"; "FCX"; "NEM"; "DOW"; "DD"]) ].

Definition defensive_stocks : list string :=
  ["JNJ"; "PG"; "KO"; "WMT"; "COST"; "VZ"; "T"].

Record Recommendation : Type := mkRecommendation {
  rec_symbol : string;
  rec_name : string;
  rec_sector : string;
  rec_reason : string;
  rec_current_price : Q;
  rec_market_cap : Q;
  rec_pe_ratio : Q
}.

Definition recommend (info : StockInfo) (sym sector reason : string)
    : Recommendation :=
  mkRecommendation sym (info_name info) sector reason (info_current_price info)
    (info_market_cap info) (info_pe_ratio info).

Section Recommendations.

(** Python's [hash] on strings, and numpy's generator: [np_random seed k]
    is what the k-th call of [np.random.normal] or [np.random.uniform] in
    [get_stock_info] returns after [np.random.seed(seed)]. *)
Variable hash : string → Z.
Variable np_random : Z → nat → Q.

(** The calls in the [try] block do not raise on a string: the function
    returns its dict. *)
Definition get_stock_info (sym : string) : option StockInfo :=
  let draw := np_random (hash sym mod 1000)%Z in
  let base_price := 100 + inject_Z (hash sym mod 200)%Z in
  let current_price := base_price * (1 + draw 0%nat) in
  let market_cap := current_price * (1000000000 + draw 1%nat) in
  let pe_ratio := 15 + draw 2%nat in
  let beta := 0.8 + draw 3%nat in
  let dividend_yield := draw 4%nat in
  let volume := 1000000 + draw 5%nat in
  let avg_volume := volume * (1 + draw 6%nat) in
  Some (mkStockInfo sym
          (Py.dict_get company_names sym (sym +:+ " Corporation"))
          current_price market_cap pe_ratio beta
          (Py.dict_get sectors sym "Technology")
          (Py.dict_get sectors sym "Technology")
          dividend_yield volume avg_volume
          (current_price * 0.7) (current_price * 1.3)
          (2 + draw 7%nat) (0.5 + draw 8%nat) (0.15 + draw 9%nat)
          (0.1 + draw 10%nat)).

(** The sectors the portfolio holds, by the table of [get_stock_info]. *)
Definition current_sectors_of (portfolio_data : list Holding) : gset string :=
  fold_left
    (λ current_sectors item,
       match get_stock_info (symbol item) with
       | Some info => current_sectors ∪ {[ info_sector info ]}
       | None => current_sectors
       end)
    portfolio_data ∅.

(** The first loop: the top three of every sector the portfolio lacks. *)
Definition diversification_picks (current_symbols current_sectors : gset string)
    : list Recommendation :=
  fold_left
    (λ recommendations '(sector, stocks),
       if bool_decide (sector ∈ current_sectors) then recommendations
       else
         fold_left
           (λ recommendations sym,
              if bool_decide (sym ∈ current_symbols) then recommendations
              else
                match get_stock_info sym with
                | Some info =>
                    (recommendations
                     ++ [recommend info sym sector
                           ("Diversification: Add " +:+ sector +:+ " exposure")])%list
                | None => recommendations
                end)
           (firstn 3 stocks) recommendations)
    sector_stocks [].

(** The second loop: defensive stocks while fewer than ten are listed. *)
Definition defensive_picks (current_symbols : gset string)
    (recommendations : list Recommendation) : list Recommendation :=
  fold_left
    (λ recommendations sym,
       if negb (bool_decide (sym ∈ current_symbols))
          && (length recommendations <? 10)%nat
       then
         match get_stock_info sym with
         | Some info =>
             (recommendations
              ++ [recommend info sym (info_sector info)
                    "Risk management: Defensive stock"])%list
         | None => recommendations
         end
       else recommendations)
    defensive_stocks recommendations.

(** [risk_tolerance] is not read. *)
Definition get_stock_recommendations (portfolio_data : list Holding)
    (risk_tolerance : string) : list Recommendation :=
  let current_symbols : gset string := list_to_set (map symbol portfolio_data) in
  let current_sectors := current_sectors_of portfolio_data in
  let recommendations := diversification_picks current_symbols current_sectors in
  let recommendations := defensive_picks current_symbols recommendations in
  firstn 10 recommendations.

End Recommendations.

(** The texts each factor check can add, in the order of its branches. *)
Definition volatility_texts : list string :=
  [ "High volatility (>40%)"; "Moderate-high volatility (25-40%)";
    "Moderate volatility (15-25%)"; "Low volatility (<15%)" ].
Definition drawdown_texts : list string :=
  [ "Very high maximum drawdown (>35%)"; "High maximum drawdown (20-35%)";
    "Moderate maximum drawdown (10-20%)"; "Low maximum drawdown (<10%)" ].
Definition sector_texts : list string :=
  [ "High sector concentration (>50% in one sector)";
    "Moderate sector concentration (30-50% in one sector)";
    "Well-diversified across sectors" ].
Definition correlation_texts : list string :=
  [ "High correlation between holdings (>0.7)";
    "Moderate correlation between holdings (0.5-0.7)";
    "Low correlation between holdings (<0.5)" ].
Definition sharpe_texts : list string :=
  [ "Excellent risk-adjusted returns (Sharpe > 1.0)";
    "Good risk-adjusted returns (Sharpe 0.5-1.0)";
    "Positive risk-adjusted returns (Sharpe 0-0.5)";
    "Poor risk-adjusted returns (Sharpe < 0)" ].

(** A portfolio for [get_stock_recommendations]: one holding in each of
    six sectors. *)
Definition six_sector_holdings : list Holding :=
  [ mkHolding "JNJ" 1000; mkHolding "JPM" 1000; mkHolding "HD" 1000;
    mkHolding "PG" 1000; mkHolding "BA" 1000; mkHolding "XOM" 1000 ].

(** A recommendation of the first loop: a symbol the portfolio does not
    hold, among the first three of a sector in which the portfolio holds
    nothing; and one of the second loop: a defensive stock the portfolio
    does not hold. *)
Definition diversifies (portfolio_data : list Holding) (r : Recommendation) : Prop :=
  ¬ In (rec_symbol r) (map symbol portfolio_data)
  ∧ (∃ stocks, In (rec_sector r, stocks) sector_stocks
               ∧ In (rec_symbol r) (firstn 3 stocks))
  ∧ rec_reason r = "Diversification: Add " +:+ rec_sector r +:+ " exposure"
  ∧ ∀ item, In item portfolio_data → sector_of (symbol item) ≠ rec_sector r.

Definition defends (portfolio_data : list Holding) (r : Recommendation) : Prop :=
  ¬ In (rec_symbol r) (map symbol portfolio_data)
  ∧ In (rec_symbol r) defensive_stocks
  ∧ rec_reason r = "Risk management: Defensive stock"
  ∧ rec_sector r = sector_of (rec_symbol r).

End PortfolioAnalyzer.

(** ** services/stock_predictor.py *)

Module StockPredictor.

Local Open Scope Q_scope.
Local Open Scope string_scope.

(** *** Indicator augmentation ([get_stock_data], lines 79 to 106) *)

Record PriceBar : Type := mkPriceBar {
  p_date : Z;
  p_open : Q;
  p_high : Q;
  p_low : Q;
  p_close : Q;
  p_volume : Q
}.

(** The [w] entries that end at position [i]. *)
Definition window {A} (xs : list A) (i w : nat) : list A :=
  firstn w (skipn (S i - w) xs).

(** [Series.rolling(window=w)] followed by a reduction: NaN until [w]
    entries are available. *)
Definition rolling (w : nat) (reduce : list Q → num) (xs : list Q) : list num :=
  map (λ i, if (S i <? w)%nat then NaN else reduce (window xs i w))
    (seq 0 (length xs)).

Definition window_mean (win : list Q) : num := Fin (list_sum win / qlen win).

(** [Series.diff()]. *)
Definition diff (xs : list Q) : list num :=
  map (λ i, match i with
            | O => NaN
            | S j => Fin (nth i xs 0 - nth j xs 0)
            end)
    (seq 0 (length xs)).

(** [Series.pct_change()]: the ratio to the previous entry, less one. *)
Definition pct_change (xs : list Q) : list num :=
  map (λ i, match i with
            | O => NaN
            | S j => (Num.qdiv (nth i xs 0) (nth j xs 0) - Fin 1)%num
            end)
    (seq 0 (length xs)).

(** [delta.where(delta > 0, 0)] and [-delta.where(delta < 0, 0)]: where the
    test fails, and so where [delta] is NaN, the entry is 0. *)
Definition gain_of (delta : num) : Q :=
  match delta with
  | Fin d => if negb (Qle_bool d 0) then d else 0
  | _ => 0
  end.

Definition loss_of (delta : num) : Q :=
  match delta with
  | Fin d => - (if negb (Qle_bool 0 d) then d else 0)
  | _ => - 0
  end.

(** [100 - (100 / (1 + rs))] for [rs = gain / loss]. *)
Definition rsi_of (gain loss : num) : num :=
  let rs := (gain / loss)%num in
  (Fin 100 - Fin 100 / (Fin 1 + rs))%num.

Definition rsi_series (closes : list Q) : list num :=
  let delta := diff closes in
  let gain := rolling 14 window_mean (map gain_of delta) in
  let loss := rolling 14 window_mean (map loss_of delta) in
  zip_with rsi_of gain loss.

(** [Series.ewm(span=span).mean()], with pandas' default [adjust=True]:
    the weighted mean of all entries so far with weights (1 - alpha)^k. *)
Fixpoint ewm_from (alpha weighted_sum weight_sum : Q) (xs : list Q) : list Q :=
  match xs with
  | [] => []
  | x :: xs' =>
      let weighted_sum' := x + (1 - alpha) * weighted_sum in
      let weight_sum' := 1 + (1 - alpha) * weight_sum in
      weighted_sum' / weight_sum' :: ewm_from alpha weighted_sum' weight_sum' xs'
  end.

Definition ewm_mean (span : Q) (xs : list Q) : list Q :=
  ewm_from (2 / (span + 1)) 0 0 xs.

Record IndicatorRow : Type := mkIndicatorRow {
  bar : PriceBar;
  SMA_20 : num;
  SMA_50 : num;
  RSI : num;
  MACD : num;
  BB_upper : num;
  BB_middle : num;
  BB_lower : num;
  Price_Change : num;
  Volume_Change : num
}.

Definition has_nan (row : IndicatorRow) : bool :=
  Num.is_nan (SMA_20 row) || Num.is_nan (SMA_50 row) || Num.is_nan (RSI row)
  || Num.is_nan (MACD row) || Num.is_nan (BB_upper row)
  || Num.is_nan (BB_middle row) || Num.is_nan (BB_lower row)
  || Num.is_nan (Price_Change row) || Num.is_nan (Volume_Change row).

(** [DataFrame.dropna()]. *)
Definition dropna (rows : list IndicatorRow) : list IndicatorRow :=
  List.filter (λ row, negb (has_nan row)) rows.

Definition empty_bar : PriceBar := mkPriceBar 0 0 0 0 0 0.

Section Indicators.

Variable np_sqrt : Q → Q.

Definition window_std (win : list Q) : num := series_std np_sqrt win.

(** The table with all indicator columns, before [dropna]. *)
Definition indicator_table (bars : list PriceBar) : list IndicatorRow :=
  let closes := map p_close bars in
  let volumes := map p_volume bars in
  let sma_20 := rolling 20 window_mean closes in
  let sma_50 := rolling 50 window_mean closes in
  let rsi := rsi_series closes in
  let exp1 := ewm_mean 12 closes in
  let exp2 := ewm_mean 26 closes in
  let macd := zip_with (λ a b, Fin (a - b)) exp1 exp2 in
  let bb_middle := rolling 20 window_mean closes in
  let bb_std := rolling 20 window_std closes in
  let bb_upper := zip_with (λ m s, (m + s * Fin 2)%num) bb_middle bb_std in
  let bb_lower := zip_with (λ m s, (m - s * Fin 2)%num) bb_middle bb_std in
  let price_change := pct_change closes in
  let volume_change := pct_change volumes in
  map (λ i, mkIndicatorRow (nth i bars empty_bar)
              (nth i sma_20 NaN) (nth i sma_50 NaN) (nth i rsi NaN)
              (nth i macd NaN) (nth i bb_upper NaN) (nth i bb_middle NaN)
              (nth i bb_lower NaN) (nth i price_change NaN)
              (nth i volume_change NaN))
    (seq 0 (length bars)).

Definition add_indicators (bars : list PriceBar) : list IndicatorRow :=
  dropna (indicator_table bars).

End Indicators.

(** *** Exceptions *)

Inductive Exn : Type :=
| ValueError (msg : string)
| NotFittedError
| IndexError
| EstimatorError (msg : string)
| OSError (msg : string).

(** *** numpy and scikit-learn objects the predictor holds *)

(** [check_array]: scikit-learn refuses a table without rows and a table
    with an infinite entry.  (It lets NaN through; the tables of this
    program went through [dropna] and hold none, and the estimators refuse
    NaN in their turn.) *)
Definition finite (a : num) : option Q :=
  match a with
  | Fin q => Some q
  | _ => None
  end.

Definition check_array (X : list (list num)) : result Exn (list (list Q)) :=
  match X with
  | [] => Raise (ValueError "Found array with 0 sample(s)")
  | _ =>
      match mapM (mapM finite) X with
      | Some X' => Ok X'
      | None => Raise (ValueError "Input X contains infinity or NaN")
      end
  end.

(** An in-place numpy operation [X op= v] between a table and a vector: the
    vector has one entry per column, or a single entry used for every
    column; with any other length the operands cannot be broadcast into
    the shape of [X] and numpy raises. *)
Definition inplace {B} (op : Q → Q → B) (X : list (list Q)) (v : list Q)
    : result Exn (list (list B)) :=
  let width := length (hd [] X) in
  if (length v =? width)%nat then Ok (map (λ row, zip_with op row v) X)
  else if (length v =? 1)%nat then Ok (map (map (λ x, op x (hd 0 v))) X)
  else Raise (ValueError "non-broadcastable output operand").

(** The fitted attributes of a [MinMaxScaler] with the default feature
    range (0, 1). *)
Record MinMaxScaler : Type := mkMinMaxScaler {
  scale_ : list Q;
  min_ : list Q
}.

Definition column (X : list (list Q)) (j : nat) : list Q :=
  map (λ row, nth j row 0) X.

Definition list_min (xs : list Q) : Q :=
  match xs with
  | [] => 0
  | x :: xs' => fold_left Qmin xs' x
  end.

Definition fit_scaler (X : list (list Q)) : MinMaxScaler :=
  let n_features := length (hd [] X) in
  let data_min := map (λ j, list_min (column X j)) (seq 0 n_features) in
  let data_max := map (λ j, list_max (column X j)) (seq 0 n_features) in
  let data_range := zip_with Qminus data_max data_min in
  let scale := map (λ r, 1 / (if Qeq_bool r 0 then 1 else r)) data_range in
  mkMinMaxScaler scale (zip_with (λ lo sc, 0 - lo * sc) data_min scale).

(** [scaler.transform(X)]: the scaler has to be fitted, and to have been
    fitted on as many features as [X] has columns. *)
Definition scaler_transform (scaler : option MinMaxScaler) (X : list (list num))
    : result Exn (list (list Q)) :=
  match scaler with
  | None => Raise NotFittedError
  | Some sc =>
      X ← check_array X;
      if negb (length (hd [] X) =? length (scale_ sc))%nat
      then Raise (ValueError "X has a different number of features than the scaler")
      else
        X ← inplace Qmult X (scale_ sc);
        inplace Qplus X (min_ sc)
  end.

(** [scaler.inverse_transform(X)]: [X -= min_] and [X /= scale_] in place,
    without a test on the number of features. *)
Definition scaler_inverse_transform (scaler : option MinMaxScaler)
    (X : list (list num)) : result Exn (list (list num)) :=
  match scaler with
  | None => Raise NotFittedError
  | Some sc =>
      X ← check_array X;
      X ← inplace Qminus X (min_ sc);
      inplace Num.qdiv X (scale_ sc)
  end.

(** A fitted regressor: the number of features it saw in [fit], and its
    decision function. *)
Record Estimator : Type := mkEstimator {
  n_features_in_ : nat;
  decision : list Q → Q
}.

(** [model.predict(X)]: a table of another width than the one the model
    was fitted on is refused. *)
Definition estimator_predict (model : Estimator) (X : list (list Q))
    : result Exn (list Q) :=
  match X with
  | [] => Raise (ValueError "Found array with 0 sample(s)")
  | row :: _ =>
      if (length row =? n_features_in_ model)%nat then Ok (map (decision model) X)
      else Raise (ValueError "X has a different number of features than the model")
  end.

(** *** The predictor and its registry *)

Record Metrics : Type := mkMetrics {
  mse : Q;
  mae : Q
}.

(** The scaler of a registry entry: the predictor's own scaler object
    ([self.scaler], shared by every entry [train_model] stores), or the
    copy that came out of a pickle. *)
Inductive ScalerRef : Type :=
| SelfScaler
| Unpickled (scaler : option MinMaxScaler).

Record Artifact : Type := mkArtifact {
  art_model : Estimator;
  art_scaler : ScalerRef;
  art_metrics : Metrics;
  art_last_trained : Z
}.

(** What [joblib.dump] writes: the entry with the scaler as it is then. *)
Record Pickle : Type := mkPickle {
  pk_model : Estimator;
  pk_scaler : option MinMaxScaler;
  pk_metrics : Metrics;
  pk_last_trained : Z
}.

Record State : Type := mkState {
  scaler : option MinMaxScaler;
  models : gmap string Artifact;
  data_cache : gmap string (list IndicatorRow);
  disk : gmap string Pickle
}.

Definition set_scaler (sc : option MinMaxScaler) (st : State) : State :=
  mkState sc (models st) (data_cache st) (disk st).

Definition set_model (key : string) (art : Artifact) (st : State) : State :=
  mkState (scaler st) (<[key := art]> (models st)) (data_cache st) (disk st).

Definition set_data (sym : string) (data : list IndicatorRow) (st : State) : State :=
  mkState (scaler st) (models st) (<[sym := data]> (data_cache st)) (disk st).

Definition set_file (path : string) (pk : Pickle) (st : State) : State :=
  mkState (scaler st) (models st) (data_cache st) (<[path := pk]> (disk st)).

Definition resolve_scaler (st : State) (ref : ScalerRef) : option MinMaxScaler :=
  match ref with
  | SelfScaler => scaler st
  | Unpickled sc => sc
  end.

Definition model_key (sym model_type : string) : string :=
  sym +:+ "_" +:+ model_type.

Definition model_path (key : string) : string := "models/" +:+ key +:+ ".pkl".

Definition features_of (row : IndicatorRow) : list num :=
  [ Fin (p_open (bar row)); Fin (p_high (bar row)); Fin (p_low (bar row));
    Fin (p_close (bar row)); Fin (p_volume (bar row)); SMA_20 row; SMA_50 row;
    RSI row; MACD row; BB_upper row; BB_middle row; BB_lower row;
    Price_Change row; Volume_Change row ].

(** [X[i] = scaled[i-lookback:i]] and [y[i] = scaled[i, 3]] for [i] from
    [lookback] on. *)
Definition windows (lookback : nat) (scaled : list (list Q))
    : list (list (list Q)) * list Q :=
  let positions := seq lookback (length scaled - lookback) in
  (map (λ i, firstn lookback (skipn (i - lookback) scaled)) positions,
   map (λ i, nth 3 (nth i scaled []) 0) positions).

(** [X.reshape(X.shape[0], -1)]. *)
Definition flatten_windows (X : list (list (list Q))) : list (list Q) :=
  map (@concat Q) X.

Definition mean_squared_error (y_true y_pred : list Q) : Q :=
  list_sum (zip_with (λ a b, (a - b) ^ 2) y_true y_pred) / qlen y_true.

Definition mean_absolute_error (y_true y_pred : list Q) : Q :=
  list_sum (zip_with (λ a b, Qabs (a - b)) y_true y_pred) / qlen y_true.

Inductive TrainReport : Type :=
| TrainSuccess (sym model_type : string) (metrics : Metrics)
| TrainError (sym model_type : string) (e : Exn).

Record Forecast : Type := mkForecast {
  f_symbol : string;
  f_predictions : list (Z * num);
  f_current_price : Q;
  f_model_type : string;
  f_confidence : Q
}.

Inductive PredictReport : Type :=
| PredictSuccess (forecast : Forecast)
| PredictError (sym : string) (e : Exn).

(** The dict returned at lines 245 to 257. *)
Definition forecast_response (sym : string) (predictions : list (Z * num))
    (current_price : Q) (model_type : string) : Forecast :=
  mkForecast sym predictions current_price model_type 0.75.


(** The loop of [predict]: one prediction per day, each fed back as the
    last entry of the row after [np.roll(current_data, -1, axis=1)]. *)
Fixpoint rollout (model : Estimator) (days : nat) (current_data : list Q)
    : result Exn (list Q) :=
  match days with
  | O => Ok []
  | S days' =>
      preds ← estimator_predict model [current_data];
      let pred := hd 0 preds in
      rest ← rollout model days' (tl current_data ++ [pred]);
      Ok (pred :: rest)
  end.

Section Predictor.

(** [np.sqrt], the mock price generator of [get_stock_data], the two
    [fit] methods ([LinearRegression], [RandomForestRegressor]) giving the
    decision function of the fitted model, and whether a path can be
    written by [joblib.dump]. *)
Variable np_sqrt : Q → Q.
Variable mock_bars : string → list PriceBar.
Variables fit_linear fit_ensemble : list (list Q) → list Q → result Exn (list Q → Q).
Variable can_write : string → bool.

Definition get_stock_data (st : State) (sym : string)
    : list IndicatorRow * State :=
  match data_cache st !! sym with
  | Some data => (data, st)
  | None =>
      let data := add_indicators np_sqrt (mock_bars sym) in
      (data, set_data sym data st)
  end.

(** [prepare_data]: [fit_transform] refits the predictor's scaler, which
    is reset before the input is validated. *)
Definition prepare_data (st : State) (data : list IndicatorRow) (lookback : nat)
    : result Exn (list (list (list Q)) * list Q) * State :=
  match check_array (map features_of data) with
  | Raise e => (Raise e, set_scaler None st)
  | Ok table =>
      let st' := set_scaler (Some (fit_scaler table)) st in
      (scaled_data ← scaler_transform (scaler st') (map features_of data);
       Ok (windows lookback scaled_data), st')
  end.

(** Lines 135 to 164 of [train_model]: the data, the windows, the split,
    the fit and the evaluation on the held-out part. *)
Definition fit_and_evaluate (st : State) (sym model_type : string)
    : result Exn (Estimator * Metrics) * State :=
  let '(data, st) := get_stock_data st sym in
  let '(prepared, st) := prepare_data st data 60 in
  (Xy ← prepared;
   let '(X, y) := Xy in
   if (length X <? 100)%nat then Raise (ValueError "Insufficient data for training")
   else
     let split := Z.to_nat (Qfloor (qlen X * 0.8)) in
     let X_train := flatten_windows (firstn split X) in
     let X_test := flatten_windows (skipn split X) in
     let y_train := firstn split y in
     let y_test := skipn split y in
     fitted ←
       (if String.eqb model_type "linear" then fit_linear X_train y_train
        else if String.eqb model_type "ensemble" then fit_ensemble X_train y_train
        else Raise (ValueError ("Unsupported model type: " +:+ model_type)));
     let model := mkEstimator (length (hd [] X_train)) fitted in
     y_pred ← estimator_predict model X_test;
     Ok (model, mkMetrics (mean_squared_error y_test y_pred)
                  (mean_absolute_error y_test y_pred)),
   st).

Definition pickle (st : State) (art : Artifact) : Pickle :=
  mkPickle (art_model art) (resolve_scaler st (art_scaler art))
    (art_metrics art) (art_last_trained art).

Definition unpickle (pk : Pickle) : Artifact :=
  mkArtifact (pk_model pk) (Unpickled (pk_scaler pk)) (pk_metrics pk)
    (pk_last_trained pk).

(** [train_model]; [now] is the value of [datetime.now()]. *)
Definition train_model (st : State) (sym model_type : string) (now : Z)
    : TrainReport * State :=
  match fit_and_evaluate st sym model_type with
  | (Raise e, st) => (TrainError sym model_type e, st)
  | (Ok (model, metrics), st) =>
      let model_key := model_key sym model_type in
      let art := mkArtifact model SelfScaler metrics now in
      let st := set_model model_key art st in
      if can_write (model_path model_key)
      then (TrainSuccess sym model_type metrics,
            set_file (model_path model_key) (pickle st art) st)
      else (TrainError sym model_type (OSError "cannot write the model file"), st)
  end.

(** Lines 211 to 257 of [predict], once the registry holds an entry. *)
Definition forecast (art : Artifact) (sc : option MinMaxScaler)
    (data : list IndicatorRow) (sym model_type : string) (days : Z)
    : result Exn Forecast :=
  let recent_data := skipn (length data - 60) data in
  scaled_data ← scaler_transform sc (map features_of recent_data);
  current_data ←
    match last scaled_data with
    | Some row => Ok row
    | None => Raise (ValueError "cannot reshape array of size 0")
    end;
  predictions ← rollout (art_model art) (Z.to_nat days) current_data;
  prices ← scaler_inverse_transform sc (map (λ pred, [Fin pred]) predictions);
  last_row ←
    match last data with
    | Some row => Ok row
    | None => Raise IndexError
    end;
  let pred_dates :=
    map (λ i, (p_date (bar last_row) + (Z.of_nat i + 1))%Z)
      (seq 0 (Z.to_nat days)) in
  Ok (forecast_response sym
        (combine pred_dates (map (λ row, nth 0 row NaN) prices))
        (p_close (bar last_row)) model_type).

Definition predict (st : State) (sym : string) (days : Z) (model_type : string)
    (now : Z) : PredictReport * State :=
  let model_key := model_key sym model_type in
  let st :=
    match models st !! model_key with
    | Some _ => st
    | None =>
        match disk st !! model_path model_key with
        | Some pk => set_model model_key (unpickle pk) st
        | None => snd (train_model st sym model_type now)
        end
    end in
  match models st !! model_key with
  | None => (PredictError sym (ValueError "Failed to load or train model"), st)
  | Some art =>
      let '(data, st) := get_stock_data st sym in
      match forecast art (resolve_scaler st (art_scaler art)) data sym
              model_type days with
      | Ok response => (PredictSuccess response, st)
      | Raise e => (PredictError sym e, st)
      end
  end.

End Predictor.

(** A predictor whose registry holds one entry, loaded from a pickle,
    under the key of AAPL and the model type lstm, and a fit that returns
    a constant model. *)
Definition stored_artifact : Artifact :=
  mkArtifact (mkEstimator 840 (λ _, 0.5)) (Unpickled None) (mkMetrics 0.01 0.05) 0.

Definition sample_state : State :=
  mkState None {["AAPL_lstm" := stored_artifact]} ∅ ∅.

Definition constant_fit (X : list (list Q)) (y : list Q)
    : result Exn (list Q → Q) :=
  Ok (λ _, 0.5).

(** Among the bars i-13 .. i some close differs from the close before. *)
Definition rsi_defined (closes : list Q) (i : nat) : Prop :=
  ∃ j, (i - 13 ≤ j ≤ i)%nat ∧ ¬ nth j closes 0 == nth (j - 1) closes 0.

(** Entry i and the entry before it are not both zero. *)
Definition change_defined (xs : list Q) (i : nat) : Prop :=
  ¬ (nth i xs 0 == 0 ∧ nth (i - 1) xs 0 == 0).

(** Sample series: fifty bars at one price, and fifty bars rising by one
    a day. *)
Definition flat_bars : list PriceBar :=
  map (λ i, mkPriceBar (Z.of_nat i) 100 100 100 100 1000) (seq 0 50).

Definition rising_bars : list PriceBar :=
  map (λ i, let c := 100 + inject_Z (Z.of_nat i) in
            mkPriceBar (Z.of_nat i) c c c c (1000 + inject_Z (Z.of_nat i)))
    (seq 0 50).

(** *** [analyze_stock] and [get_recommendations] *)

Record StockAnalysis : Type := mkStockAnalysis {
  an_symbol : string;
  an_current_price : Q;
  an_price_change : num;
  an_price_change_7d : num;
  an_price_change_30d : num;
  an_sma_20 : num;
  an_sma_50 : num;
  an_rsi : num;
  an_volume_ratio : num;
  an_volatility : num;
  an_insights : list string;
  an_analysis_date : Z
}.

(** The analysis, or the dict with the single key error. *)
Inductive AnalysisReport : Type :=
| AnalysisOk (analysis : StockAnalysis)
| AnalysisError (e : Exn).

Record Suggestion : Type := mkSuggestion {
  sg_symbol : string;
  sg_name : string;
  sg_current_price : Q;
  sg_reason : string;
  sg_confidence : Q
}.

(** The list [popular_stocks] of [get_recommendations]. *)
Definition popular_stocks : list string :=
  ["AAPL"; "MSFT"; "GOOGL"; "AMZN"; "TSLA"; "META"; "NVDA"; "JPM"; "JNJ"; "V"].

Section Advice.

(** [np.sqrt], the mock price generator of [get_stock_data], and numpy's
    generator: [uniform k] is what the call of [np.random.uniform(0.7, 0.9)]
    returns when k recommendations have been made. *)
Variable np_sqrt : Q → Q.
Variable mock_bars : string → list PriceBar.
Variable uniform : nat → Q.

(** [Series.std()] of a column of the table: missing entries are skipped,
    and an infinite entry makes the result NaN. *)
Definition column_std (xs : list num) : num :=
  match mapM finite (List.filter (λ a, negb (Num.is_nan a)) xs) with
  | Some present => series_std np_sqrt present
  | None => NaN
  end.

(** [now] is the value of [datetime.now()]. *)
Definition analyze_stock (st : State) (sym : string) (now : Z)
    : AnalysisReport * State :=
  let '(data, st) := get_stock_data np_sqrt mock_bars st sym in
  (match last data with
   | None => AnalysisError IndexError
   | Some row =>
       let closes := map (λ r, p_close (bar r)) data in
       let volumes := map (λ r, p_volume (bar r)) data in
       let current_price := p_close (bar row) in
       let price_change := default NaN (last (pct_change closes)) in
       let price_change_7d :=
         if (7 <? length data)%nat
         then (Num.qdiv current_price (nth (length data - 8) closes 0) - Fin 1)%num
         else Fin 0 in
       let price_change_30d :=
         if (30 <? length data)%nat
         then (Num.qdiv current_price (nth (length data - 31) closes 0) - Fin 1)%num
         else Fin 0 in
       let sma_20 := SMA_20 row in
       let sma_50 := SMA_50 row in
       let rsi := RSI row in
       let avg_volume := series_mean volumes in
       let current_volume := p_volume (bar row) in
       let volume_ratio := (Fin current_volume / avg_volume)%num in
       let volatility :=
         (column_std (map Price_Change data) * Fin (np_sqrt 252))%num in
       let insights :=
         ((if (Fin current_price >? sma_20)%num && (sma_20 >? sma_50)%num then
             ["Strong uptrend: Price above both 20-day and 50-day moving averages"]
           else if (Fin current_price <? sma_20)%num && (sma_20 <? sma_50)%num then
             ["Strong downtrend: Price below both 20-day and 50-day moving averages"]
           else if (Fin current_price >? sma_20)%num && (sma_20 <? sma_50)%num then
             ["Potential trend reversal: Price above 20-day MA but below 50-day MA"]
           else [])
          ++ (if (rsi >? Fin 70)%num then ["Overbought conditions: RSI above 70"]
              else if (rsi <? Fin 30)%num then ["Oversold conditions: RSI below 30"]
              else [])
          ++ (if (volume_ratio >? Fin 1.5)%num then
                ["High volume: Current volume significantly above average"]
              else if (volume_ratio <? Fin 0.5)%num then
                ["Low volume: Current volume significantly below average"]
              else []))%list in
       AnalysisOk
         (mkStockAnalysis sym current_price price_change price_change_7d
            price_change_30d sma_20 sma_50 rsi volume_ratio volatility insights
            now)
   end, st).

(** The loop of [get_recommendations]; an exception ends it. *)
Fixpoint recommend_from (st : State) (current_symbols : gset string)
    (symbols : list string) (recommendations : list Suggestion)
    : result Exn (list Suggestion) * State :=
  match symbols with
  | [] => (Ok recommendations, st)
  | sym :: symbols' =>
      if negb (bool_decide (sym ∈ current_symbols))
         && (length recommendations <? 5)%nat
      then
        let '(data, st) := get_stock_data np_sqrt mock_bars st sym in
        match last data with
        | None => (Raise IndexError, st)
        | Some row =>
            recommend_from st current_symbols symbols'
              (recommendations
               ++ [mkSuggestion sym (sym +:+ " Corporation") (p_close (bar row))
                     ("Add " +:+ sym +:+ " for portfolio diversification")
                     (uniform (length recommendations))])%list
        end
      else recommend_from st current_symbols symbols' recommendations
  end.

Definition get_recommendations (st : State)
    (portfolio_data : list PortfolioAnalyzer.Holding)
    : list Suggestion * State :=
  let current_symbols : gset string :=
    list_to_set (map PortfolioAnalyzer.symbol portfolio_data) in
  match recommend_from st current_symbols popular_stocks [] with
  | (Ok recommendations, st) => (recommendations, st)
  | (Raise _, st) => ([], st)
  end.

End Advice.

(** The symbols [get_recommendations] goes for: the first five of the
    list that the portfolio does not hold. *)
Definition candidates (portfolio_data : list PortfolioAnalyzer.Holding)
    : list string :=
  firstn 5
    (List.filter
       (λ sym, negb (bool_decide
                       (sym ∈ (list_to_set (map PortfolioAnalyzer.symbol portfolio_data)
                               : gset string))))
       popular_stocks).

(** A table of one row, and a generator that has rising prices for every
    symbol but MSFT, whose prices are flat. *)
Definition one_row : list IndicatorRow :=
  [mkIndicatorRow (mkPriceBar 0 100 101 99 100 1000) (Fin 100) (Fin 100) (Fin 50)
     (Fin 0) (Fin 102) (Fin 100) (Fin 98) (Fin 0) (Fin 0)].

Definition flat_for_msft (sym : string) : list PriceBar :=
  if String.eqb sym "MSFT" then flat_bars else rising_bars.

(** A table of 160 rows whose figures rise by one a row, and a predictor
    that has it in its cache for AAPL. *)
Definition ramp_table : list IndicatorRow :=
  map (λ i, let c := 100 + inject_Z (Z.of_nat i) in
            mkIndicatorRow (mkPriceBar (Z.of_nat i) c c c c (1000 + c))
              (Fin c) (Fin c) (Fin 60) (Fin c) (Fin c) (Fin c) (Fin c)
              (Fin c) (Fin c))
    (seq 0 160).

Definition cached_state : State :=
  mkState None ∅ {["AAPL" := ramp_table]} ∅.

End StockPredictor.

(* ===================================================================== *)
(** * Part II: properties                                                 *)
(* ===================================================================== *)

(** ** The risk classifier *)

Section RiskClassifier.

Import PortfolioAnalyzer.

Lemma add_factor_level n text l :
  l_risk_level (add_factor n text l) = l_risk_level l.
Proof. reflexivity. Qed.

Lemma determine_level_score l :
  l_risk_score (determine_level l) = l_risk_score l.
Proof.
  unfold determine_level.
  destruct (6 <=? l_risk_score l)%nat; [done|].
  by destruct (3 <=? l_risk_score l)%nat.
Qed.

(** Whatever level the factor checks left behind, the closing test
    replaces it by the level of the score. *)
Lemma determine_level_spec l :
  l_risk_level (determine_level l) = spec_risk_level (l_risk_score l).
Proof.
  unfold determine_level, spec_risk_level.
  destruct (6 <=? l_risk_score l)%nat; [done|].
  by destruct (3 <=? l_risk_score l)%nat.
Qed.

Lemma determine_level_forgets lvl l :
  determine_level (set_level lvl l) = determine_level l.
Proof. by destruct l. Qed.

Lemma assess_portfolio_risk_inv pr sa cm a :
  assess_portfolio_risk pr sa cm = Ok a →
  ∃ w, max_sector_weight sa = Ok w
       ∧ risk_score a = l_risk_score (factor_checks pr w cm)
       ∧ risk_level a = l_risk_level (determine_level (factor_checks pr w cm)).
Proof.
  unfold assess_portfolio_risk. destruct (max_sector_weight sa) as [w|e]; simpl.
  - intros [= <-]. exists w. by rewrite determine_level_score.
  - discriminate.
Qed.

(** C1.  Every assessment returned by [assess_portfolio_risk] carries the
    level of its score: aggressive from 6 on, moderate from 3 to 5,
    conservative below 3.  The level the factor checks assigned on the
    way (the locals start at moderate and the volatility and drawdown
    checks may set aggressive) has no influence, so two assessments with
    the same score have the same level. *)
Theorem risk_level_is_threshold_of_score pr sa cm a :
  assess_portfolio_risk pr sa cm = Ok a →
  risk_level a = spec_risk_level (risk_score a)
  ∧ (6 ≤ risk_score a → risk_level a = aggressive)
  ∧ (3 ≤ risk_score a < 6 → risk_level a = moderate)
  ∧ (risk_score a < 3 → risk_level a = conservative)
  ∧ (∀ w lvl, max_sector_weight sa = Ok w →
       l_risk_level (determine_level (set_level lvl (factor_checks pr w cm)))
       = risk_level a)
  ∧ (∀ pr' sa' cm' a', assess_portfolio_risk pr' sa' cm' = Ok a' →
       risk_score a' = risk_score a → risk_level a' = risk_level a).
Proof.
  intros Ha. destruct (assess_portfolio_risk_inv _ _ _ _ Ha) as (w & Hw & Hs & Hl).
  assert (Hspec : risk_level a = spec_risk_level (risk_score a)).
  { by rewrite Hl, Hs, determine_level_spec. }
  split; [done|]. rewrite Hspec. unfold spec_risk_level.
  repeat split.
  - intros. destruct (Nat.leb_spec 6 (risk_score a)); [done|lia].
  - intros. destruct (Nat.leb_spec 6 (risk_score a)); [lia|].
    destruct (Nat.leb_spec 3 (risk_score a)); [done|lia].
  - intros. destruct (Nat.leb_spec 6 (risk_score a)); [lia|].
    destruct (Nat.leb_spec 3 (risk_score a)); [lia|done].
  - intros w' lvl Hw'. rewrite Hw in Hw'. injection Hw' as <-.
    by rewrite determine_level_forgets, determine_level_spec, Hs.
  - intros pr' sa' cm' a' Ha' Heq.
    destruct (assess_portfolio_risk_inv _ _ _ _ Ha') as (w' & _ & Hs' & Hl').
    by rewrite Hl', determine_level_spec, <- Hs', Heq.
Qed.

(** A portfolio whose volatility check sets the level to aggressive on the
    way while the final score is 4: the assessment is moderate. *)
Lemma risk_level_is_threshold_of_score_witness :
  ∃ a, assess_portfolio_risk volatile_risk four_sectors low_correlation = Ok a
       ∧ l_risk_level
           (factor_checks volatile_risk 0.25 low_correlation) = aggressive
       ∧ risk_score a = 4%nat
       ∧ risk_level a = moderate.
Proof.
  eexists. split; [vm_compute; reflexivity|].
  split; [vm_compute; reflexivity|].
  split; [reflexivity|].
  refine (proj1 (proj2 (proj2
    (risk_level_is_threshold_of_score volatile_risk four_sectors
       low_correlation _ _))) _).
  - vm_compute; reflexivity.
  - simpl; lia.
Defined.

End RiskClassifier.

(** ** Single-series risk metrics *)

Section RiskMetricsFacts.

Import PortfolioAnalyzer.
Local Open Scope Q_scope.

Variable np_sqrt : Q → Q.
Variables stats_skew stats_kurtosis : list Q → num.

Local Notation "'risk_metrics'" :=
  (calculate_risk_metrics np_sqrt stats_skew stats_kurtosis).

(** C3.  Below 30 observations [calculate_risk_metrics] returns the empty
    dict, which has no entry at all (in particular no metric set to zero);
    from 30 observations on it returns a dict with exactly the nine keys
    mean_return, volatility, sharpe_ratio, max_drawdown, var_95,
    expected_shortfall, skewness, kurtosis and beta. *)
Theorem risk_metrics_empty_below_30_else_populated (returns : list Q) :
  ((length returns < 30)%nat → risk_metrics returns = [])
  ∧ ((30 ≤ length returns)%nat →
       Py.dict_keys (risk_metrics returns)
       = ["mean_return"; "volatility"; "sharpe_ratio"; "max_drawdown";
          "var_95"; "expected_shortfall"; "skewness"; "kurtosis"; "beta"]
       ∧ Py.dict_get (risk_metrics returns) "max_drawdown" (Fin 0)
         = max_drawdown_of returns
       ∧ Py.dict_get (risk_metrics returns) "var_95" (Fin 0)
         = var_95_of returns
       ∧ Py.dict_get (risk_metrics returns) "expected_shortfall" (Fin 0)
         = expected_shortfall_of returns
       ∧ Py.dict_get (risk_metrics returns) "beta" (Fin 0) = Fin 1.0).
Proof.
  unfold calculate_risk_metrics. split; intros Hlen.
  - by destruct (Nat.ltb_spec (length returns) 30); [|lia].
  - destruct (Nat.ltb_spec (length returns) 30); [lia|].
    repeat split; reflexivity.
Qed.

End RiskMetricsFacts.

(** A series of 29 observations and one of 30. *)
Lemma risk_metrics_empty_below_30_else_populated_witness :
  PortfolioAnalyzer.calculate_risk_metrics (λ x, x) (λ _, NaN) (λ _, NaN)
    (repeat 0.01%Q 29) = []
  ∧ Py.dict_keys
      (PortfolioAnalyzer.calculate_risk_metrics (λ x, x) (λ _, NaN) (λ _, NaN)
         (repeat 0.01%Q 30))
    = ["mean_return"; "volatility"; "sharpe_ratio"; "max_drawdown";
       "var_95"; "expected_shortfall"; "skewness"; "kurtosis"; "beta"].
Proof.
  split.
  - apply (risk_metrics_empty_below_30_else_populated
             (λ x, x) (λ _, NaN) (λ _, NaN) (repeat 0.01%Q 29)).
    simpl; lia.
  - apply (risk_metrics_empty_below_30_else_populated
             (λ x, x) (λ _, NaN) (λ _, NaN) (repeat 0.01%Q 30)).
    simpl; lia.
Defined.

(** ** Maximum drawdown *)

Section MaxDrawdown.

Import PortfolioAnalyzer.
Local Open Scope Q_scope.

Lemma min_skipna_at_most_zero a b :
  at_most_zero a → at_most_zero (Num.min_skipna a b).
Proof.
  unfold at_most_zero. destruct a as [x| | |], b as [y| | |]; simpl; try done.
  destruct (Qle_bool x y) eqn:Hxy; [done|]. simpl.
  rewrite !Qle_bool_iff. intros Hx.
  assert (¬ x <= y) by (intros Hle; apply Qle_bool_iff in Hle; congruence).
  lra.
Qed.

Lemma series_min_from_at_most_zero ds a :
  at_most_zero a → at_most_zero (fold_left Num.min_skipna ds a).
Proof.
  revert a. induction ds as [|d ds IH]; intros a Ha; simpl; [done|].
  apply IH. by apply min_skipna_at_most_zero.
Qed.

Lemma min_skipna_zero z b :
  z == 0 → zero_or_nan b →
  ∃ z', Num.min_skipna (Fin z) b = Fin z' ∧ z' == 0.
Proof.
  intros Hz Hb. destruct b as [y| | |]; simpl in *; try done.
  - destruct (Qle_bool z y); eauto.
  - eauto.
Qed.

Lemma series_min_from_zero ds z :
  z == 0 → Forall zero_or_nan ds →
  (fold_left Num.min_skipna ds (Fin z) ≃ Fin 0)%num.
Proof.
  revert z. induction ds as [|d ds IH]; intros z Hz Hds; cbn [fold_left]; [done|].
  inversion Hds as [|? ? Hd Hds']; subst.
  destruct (min_skipna_zero z d Hz Hd) as (z' & -> & Hz'). by apply IH.
Qed.

Lemma qdiv_self_diff c : ¬ c == 0 → ∃ z, Num.qdiv (c - c) c = Fin z ∧ z == 0.
Proof.
  intros Hc. unfold Num.qdiv.
  destruct (Qeq_bool c 0) eqn:E.
  - apply Qeq_bool_iff in E. contradiction.
  - eexists; split; [reflexivity|]. field. exact Hc.
Qed.

Lemma qdiv_eq_zero_or_nan c m : c == m → zero_or_nan (Num.qdiv (c - m) m).
Proof.
  intros Hcm. unfold Num.qdiv.
  destruct (Qeq_bool m 0) eqn:E.
  - assert (Hz : c - m == 0) by lra.
    rewrite (Qeq_alt (c - m) 0) in Hz. by rewrite Hz.
  - simpl. apply Qeq_bool_neq in E. rewrite Hcm. field. exact E.
Qed.

(** The running maximum of a path that never falls is the path itself. *)
Lemma expanding_max_from_non_decreasing cs m :
  (match cs with [] => True | c :: _ => m <= c end) →
  non_decreasing cs = true →
  Forall2 Qeq cs (expanding_max_from m cs).
Proof.
  revert m. induction cs as [|c cs IH]; intros m Hm Hnd; simpl; [constructor|].
  assert (Hmax : Qmax m c == c) by (by apply Q.max_r).
  constructor; [by rewrite Hmax|].
  apply IH.
  - destruct cs as [|c' cs]; [done|].
    simpl in Hnd. apply andb_prop in Hnd as [Hle _].
    apply Qle_bool_iff in Hle. by rewrite Hmax.
  - destruct cs as [|c' cs]; [done|].
    simpl in Hnd. by apply andb_prop in Hnd as [_ ?].
Qed.

Lemma drawdowns_zero_or_nan cs ms :
  Forall2 Qeq cs ms →
  Forall zero_or_nan (zip_with (λ c m, Num.qdiv (c - m) m) cs ms).
Proof.
  induction 1; simpl; constructor; [by apply qdiv_eq_zero_or_nan|done].
Qed.

Lemma drawdown_series_cons r returns :
  drawdown_series (r :: returns) =
  Num.qdiv (1 * (1 + r) - 1 * (1 + r)) (1 * (1 + r))
  :: zip_with (λ c m, Num.qdiv (c - m) m)
       (cumprod_from (1 * (1 + r)) (map (λ r, 1 + r) returns))
       (expanding_max_from (1 * (1 + r))
          (cumprod_from (1 * (1 + r)) (map (λ r, 1 + r) returns))).
Proof. reflexivity. Qed.

(** Claim C8 as it is stated fails on [total_loss_series]: after a first
    return of -100% every cumulative return is 0, every drawdown is 0/0,
    and [max_drawdown] is NaN, which is not at or below zero, although the
    cumulative path (constantly 0) never falls. *)
Lemma max_drawdown_total_loss_is_nan :
  (30 ≤ length total_loss_series)%nat
  ∧ non_decreasing (cumulative_returns_of total_loss_series) = true
  ∧ max_drawdown_of total_loss_series = NaN
  ∧ (max_drawdown_of total_loss_series <=? Fin 0)%num = false
  ∧ ¬ (max_drawdown_of total_loss_series ≃ Fin 0)%num.
Proof.
  split; [simpl; lia|].
  split; [vm_compute; reflexivity|].
  split; [vm_compute; reflexivity|].
  split; [vm_compute; reflexivity|].
  intros H. vm_compute in H. exact H.
Qed.

(** C8, amended.  For a series of at least 30 returns whose first return is
    not -100% (the first cumulative return 1 + r is not 0), [max_drawdown]
    is at or below zero, and it is zero when the cumulative return path
    never falls. *)
Theorem max_drawdown_at_most_zero (returns : list Q) :
  (30 ≤ length returns)%nat →
  ¬ 1 + hd 0 returns == 0 →
  at_most_zero (max_drawdown_of returns)
  ∧ (non_decreasing (cumulative_returns_of returns) = true →
     (max_drawdown_of returns ≃ Fin 0)%num).
Proof.
  intros Hlen Hfirst. destruct returns as [|r returns]; [simpl in Hlen; lia|].
  simpl in Hfirst.
  assert (Hc : ¬ 1 * (1 + r) == 0) by (intros H; apply Hfirst; lra).
  unfold max_drawdown_of, series_min. rewrite drawdown_series_cons.
  destruct (qdiv_self_diff _ Hc) as (z & -> & Hz).
  simpl fold_left. split.
  - apply series_min_from_at_most_zero. unfold at_most_zero. simpl.
    apply Qle_bool_iff. lra.
  - intros Hnd. apply series_min_from_zero; [done|].
    apply drawdowns_zero_or_nan.
    unfold cumulative_returns_of, cumprod in Hnd. simpl in Hnd.
    apply expanding_max_from_non_decreasing.
    + destruct (cumprod_from _ _) as [|c cs]; [done|].
      apply andb_prop in Hnd as [Hle _]. by apply Qle_bool_iff.
    + destruct (cumprod_from _ _) as [|c cs]; [done|].
      by apply andb_prop in Hnd as [_ ?].
Qed.

(** A series that dips and one that only rises. *)
Lemma max_drawdown_at_most_zero_witness :
  at_most_zero (max_drawdown_of dip_series)
  ∧ (max_drawdown_of rising_series ≃ Fin 0)%num.
Proof.
  split.
  - refine (proj1 (max_drawdown_at_most_zero dip_series _ _)).
    + vm_compute; lia.
    + vm_compute; intros H; discriminate H.
  - refine (proj2 (max_drawdown_at_most_zero rising_series _ _) _).
    + vm_compute; lia.
    + vm_compute; intros H; discriminate H.
    + vm_compute; reflexivity.
Defined.

End MaxDrawdown.

(** ** Value at risk and expected shortfall *)

Section ExpectedShortfall.

Import PortfolioAnalyzer.
Local Open Scope Q_scope.













Variable np_sqrt : Q → Q.
Variables stats_skew stats_kurtosis : list Q → num.


End ExpectedShortfall.


(** ** Diversification ratio *)

Section Diversification.

Import PortfolioAnalyzer.
Local Open Scope Q_scope.

Lemma list_sum_from_proper xs ys a b :
  Forall2 Qeq xs ys → a == b → fold_left Qplus xs a == fold_left Qplus ys b.
Proof.
  intros H. revert a b. induction H as [|x y xs ys Hxy _ IH]; intros a b Hab.
  - exact Hab.
  - cbn [fold_left]. apply IH. by rewrite Hab, Hxy.
Qed.

Lemma list_sum_proper xs ys : Forall2 Qeq xs ys → list_sum xs == list_sum ys.
Proof. intros H. by apply list_sum_from_proper. Qed.

Lemma qlen_proper (xs ys : list Q) : Forall2 Qeq xs ys → qlen xs = qlen ys.
Proof. intros H. unfold qlen. by rewrite (Forall2_length _ _ _ H). Qed.

Lemma sum_sq_dev_proper xs ys :
  Forall2 Qeq xs ys → sum_sq_dev xs == sum_sq_dev ys.
Proof.
  intros H. unfold sum_sq_dev.
  assert (Hm : list_sum xs / qlen xs == list_sum ys / qlen ys).
  { by rewrite (list_sum_proper _ _ H), (qlen_proper _ _ H). }
  apply list_sum_proper. revert Hm.
  generalize (list_sum xs / qlen xs) (list_sum ys / qlen ys). intros m m' Hm.
  induction H as [|x y xs ys Hxy _ IH]; simpl; constructor; [|done].
  by rewrite Hxy, Hm.
Qed.



Lemma series_var_two_or_more xs :
  (2 ≤ length xs)%nat → series_var xs = Fin (sum_sq_dev xs / (qlen xs - 1)).
Proof.
  intros H. unfold series_var. destruct (Nat.leb_spec (length xs) 1); [lia|done].
Qed.

Lemma qlen_two_or_more {A} (xs : list A) : (2 ≤ length xs)%nat → 0 < qlen xs - 1.
Proof.
  intros H. unfold qlen.
  assert (Hq : inject_Z (Z.of_nat (length xs)) - 1
               == inject_Z (Z.of_nat (length xs) - 1)).
  { unfold Qeq, Qminus, Qplus, Qopp, inject_Z; simpl. lia. }
  rewrite Hq. change 0 with (inject_Z 0). rewrite <- Zlt_Qlt. lia.
Qed.




End Diversification.

(** ** Indicator augmentation *)

Section IndicatorFacts.

Import StockPredictor.
Local Open Scope Q_scope.

Lemma nth_tabulate {A} (f : nat → A) n i d :
  (i < n)%nat → nth i (map f (seq 0 n)) d = f i.
Proof.
  intros Hi. rewrite (nth_indep _ d (f 0%nat)) by (by rewrite length_map, length_seq).
  by rewrite map_nth, seq_nth.
Qed.

Lemma nth_zip_with {A B C} (f : A → B → C) xs ys i dx dy d :
  (i < length xs)%nat → (i < length ys)%nat →
  nth i (zip_with f xs ys) d = f (nth i xs dx) (nth i ys dy).
Proof.
  revert ys i. induction xs as [|x xs IH]; intros [|y ys] [|i]; simpl; try lia; [done|].
  intros. apply IH; lia.
Qed.

Lemma length_rolling w reduce xs : length (rolling w reduce xs) = length xs.
Proof. unfold rolling. by rewrite length_map, length_seq. Qed.

Lemma length_diff xs : length (diff xs) = length xs.
Proof. unfold diff. by rewrite length_map, length_seq. Qed.

Lemma length_pct_change xs : length (pct_change xs) = length xs.
Proof. unfold pct_change. by rewrite length_map, length_seq. Qed.

Lemma length_ewm_from alpha a b xs : length (ewm_from alpha a b xs) = length xs.
Proof.
  revert a b. induction xs as [|x xs IH]; intros a b; simpl; [done|]. by rewrite IH.
Qed.

Lemma length_window {A} (xs : list A) i w :
  (w ≤ S i)%nat → (i < length xs)%nat → length (window xs i w) = w.
Proof. intros. unfold window. rewrite length_take, length_drop. lia. Qed.

Lemma nth_rolling w reduce xs i :
  (w ≤ S i)%nat → (i < length xs)%nat →
  nth i (rolling w reduce xs) NaN = reduce (window xs i w).
Proof.
  intros Hw Hi. unfold rolling. rewrite nth_tabulate by done.
  destruct (Nat.ltb_spec (S i) w); [lia|done].
Qed.

Lemma nth_rolling_early w reduce xs i :
  (S i < w)%nat → nth i (rolling w reduce xs) NaN = NaN.
Proof.
  intros Hw. unfold rolling.
  destruct (Nat.lt_ge_cases i (length xs)) as [Hi|Hi].
  - rewrite nth_tabulate by done. destruct (Nat.ltb_spec (S i) w); [done|lia].
  - apply nth_overflow. by rewrite length_map, length_seq.
Qed.

Lemma list_sum_from_nonneg xs acc :
  Forall (λ x, 0 <= x) xs → acc <= fold_left Qplus xs acc.
Proof.
  revert acc. induction xs as [|x xs IH]; intros acc Hxs; cbn [fold_left]; [lra|].
  inversion Hxs as [|? ? Hx Hxs']; subst. specialize (IH (acc + x) Hxs'). lra.
Qed.

Lemma list_sum_nonneg xs : Forall (λ x, 0 <= x) xs → 0 <= list_sum xs.
Proof. apply list_sum_from_nonneg. Qed.

Lemma list_sum_from_pos xs acc x :
  Forall (λ x, 0 <= x) xs → In x xs → 0 < x → acc < fold_left Qplus xs acc.
Proof.
  revert acc. induction xs as [|y xs IH]; intros acc Hxs Hin Hx; [destruct Hin|].
  cbn [fold_left]. inversion Hxs as [|? ? Hy Hxs']; subst.
  destruct Hin as [->|Hin].
  - pose proof (list_sum_from_nonneg xs (acc + x) Hxs'). lra.
  - specialize (IH (acc + y) Hxs' Hin Hx). lra.
Qed.

Lemma gain_of_nonneg d : 0 <= gain_of d.
Proof.
  destruct d as [d| | |]; simpl; try lra.
  destruct (Qle_bool d 0) eqn:E; simpl; [lra|].
  destruct (Qlt_le_dec 0 d); [lra|]. apply Qle_bool_iff in q. congruence.
Qed.

Lemma loss_of_nonneg d : 0 <= loss_of d.
Proof.
  destruct d as [d| | |]; simpl; try lra.
  destruct (Qle_bool 0 d) eqn:E; simpl; [lra|].
  destruct (Qlt_le_dec d 0); [lra|]. apply Qle_bool_iff in q. congruence.
Qed.

Lemma window_Forall {A} (P : A → Prop) xs i w :
  Forall P xs → Forall P (window xs i w).
Proof. intros H. unfold window. by apply Forall_take, Forall_drop. Qed.

(** The mean over a full window of non-negative entries. *)
Lemma window_mean_nonneg xs i :
  Forall (λ x, 0 <= x) xs → (14 ≤ S i)%nat → (i < length xs)%nat →
  ∃ m, window_mean (window xs i 14) = Fin m ∧ 0 <= m
       ∧ m == list_sum (window xs i 14) / 14.
Proof.
  intros Hxs Hw Hi. unfold window_mean. eexists; split; [reflexivity|].
  assert (Hq : qlen (window xs i 14) = 14).
  { unfold qlen. by rewrite length_window. }
  rewrite Hq. split; [|reflexivity].
  apply Qle_shift_div_l; [lra|].
  pose proof (list_sum_nonneg _ (window_Forall _ xs i 14 Hxs)). lra.
Qed.

Lemma qdiv_nonzero x y : ¬ y == 0 → Num.qdiv x y = Fin (x / y).
Proof.
  intros Hy. unfold Num.qdiv. destruct (Qeq_bool y 0) eqn:E; [|done].
  by apply Qeq_bool_iff in E.
Qed.

Lemma qdiv_pos_by_zero x y : y == 0 → 0 < x → Num.qdiv x y = PInf.
Proof.
  intros Hy Hx. unfold Num.qdiv.
  rewrite (proj2 (Qeq_bool_iff y 0) Hy). by rewrite (proj1 (Qgt_alt x 0) Hx).
Qed.

Lemma qdiv_zero_by_zero x y : y == 0 → x == 0 → Num.qdiv x y = NaN.
Proof.
  intros Hy Hx. unfold Num.qdiv.
  rewrite (proj2 (Qeq_bool_iff y 0) Hy). by rewrite (proj1 (Qeq_alt x 0) Hx).
Qed.

Lemma qdiv_nan x y : Num.qdiv x y = NaN → y == 0 ∧ x == 0.
Proof.
  unfold Num.qdiv. destruct (Qeq_bool y 0) eqn:E; [|done].
  apply Qeq_bool_iff in E. destruct (x ?= 0) eqn:C; try done.
  intros _. split; [done|]. by apply Qeq_alt.
Qed.

(** The three cases of the RSI formula on non-negative averages. *)
Lemma rsi_of_cases (g l : Q) :
  0 <= g → 0 <= l →
  (0 < l ∧ ∃ v, rsi_of (Fin g) (Fin l) = Fin v ∧ 0 <= v ∧ v <= 100)
  ∨ (l == 0 ∧ 0 < g ∧ ∃ v, rsi_of (Fin g) (Fin l) = Fin v ∧ v == 100)
  ∨ (l == 0 ∧ g == 0 ∧ rsi_of (Fin g) (Fin l) = NaN).
Proof.
  intros Hg Hl. unfold rsi_of. change (Fin g / Fin l)%num with (Num.qdiv g l).
  destruct (Qlt_le_dec 0 l) as [Hl0|Hl0].
  - left. split; [done|].
    rewrite qdiv_nonzero by lra.
    assert (Hrs : 0 <= g / l) by (apply Qle_shift_div_l; lra).
    change (Fin 1 + Fin (g / l))%num with (Fin (1 + g / l)).
    change (Fin 100 / Fin (1 + g / l))%num with (Num.qdiv 100 (1 + g / l)).
    rewrite qdiv_nonzero by lra.
    eexists; split; [reflexivity|].
    assert (H1 : 0 <= 100 / (1 + g / l)) by (apply Qle_shift_div_l; lra).
    assert (H2 : 100 / (1 + g / l) <= 100) by (apply Qle_shift_div_r; lra).
    lra.
  - right. assert (Hl1 : l == 0) by lra.
    destruct (Qlt_le_dec 0 g) as [Hpos|Hle].
    + left. split; [done|]. split; [done|].
      rewrite qdiv_pos_by_zero by done.
      eexists; split; [reflexivity|]. lra.
    + right. split; [done|]. split; [lra|].
      rewrite qdiv_zero_by_zero by lra. reflexivity.
Qed.

Lemma rsi_of_nan_gain l : rsi_of NaN l = NaN.
Proof. by destruct l. Qed.

Lemma length_gains closes : length (map gain_of (diff closes)) = length closes.
Proof. by rewrite length_map, length_diff. Qed.

Lemma length_losses closes : length (map loss_of (diff closes)) = length closes.
Proof. by rewrite length_map, length_diff. Qed.

Lemma gains_nonneg closes : Forall (λ x, 0 <= x) (map gain_of (diff closes)).
Proof. apply List.Forall_forall. intros x Hx. apply in_map_iff in Hx as (d & <- & _). apply gain_of_nonneg. Qed.

Lemma losses_nonneg closes : Forall (λ x, 0 <= x) (map loss_of (diff closes)).
Proof. apply List.Forall_forall. intros x Hx. apply in_map_iff in Hx as (d & <- & _). apply loss_of_nonneg. Qed.

Lemma nth_rsi_series closes i :
  (i < length closes)%nat →
  nth i (rsi_series closes) NaN
  = rsi_of (nth i (rolling 14 window_mean (map gain_of (diff closes))) NaN)
           (nth i (rolling 14 window_mean (map loss_of (diff closes))) NaN).
Proof.
  intros Hi. unfold rsi_series.
  apply nth_zip_with; by rewrite length_rolling, ?length_gains, ?length_losses.
Qed.

(** An RSI entry: missing in the first 13 rows, and afterwards the formula
    on the two non-negative averages over the last 14 deltas. *)
Lemma rsi_entry closes i :
  (i < length closes)%nat →
  ((S i < 14)%nat ∧ nth i (rsi_series closes) NaN = NaN)
  ∨ ((14 ≤ S i)%nat ∧ ∃ g l,
       0 <= g ∧ 0 <= l
       ∧ g == list_sum (window (map gain_of (diff closes)) i 14) / 14
       ∧ l == list_sum (window (map loss_of (diff closes)) i 14) / 14
       ∧ nth i (rsi_series closes) NaN = rsi_of (Fin g) (Fin l)).
Proof.
  intros Hi. rewrite nth_rsi_series by done.
  destruct (Nat.lt_ge_cases (S i) 14) as [Hearly|Hfull].
  - left. split; [done|]. rewrite nth_rolling_early by done. apply rsi_of_nan_gain.
  - right. split; [done|].
    rewrite !nth_rolling by (by rewrite ?length_gains, ?length_losses).
    destruct (window_mean_nonneg (map gain_of (diff closes)) i)
      as (g & -> & Hg & Hgs); [apply gains_nonneg|done|by rewrite length_gains|].
    destruct (window_mean_nonneg (map loss_of (diff closes)) i)
      as (l & -> & Hl & Hls); [apply losses_nonneg|done|by rewrite length_losses|].
    by exists g, l.
Qed.

Lemma rsi_entry_range closes i :
  (i < length closes)%nat →
  nth i (rsi_series closes) NaN = NaN
  ∨ ∃ v, nth i (rsi_series closes) NaN = Fin v ∧ 0 <= v ∧ v <= 100.
Proof.
  intros Hi. destruct (rsi_entry closes i Hi) as [[_ ->]|(_ & g & l & Hg & Hl & _ & _ & ->)].
  - by left.
  - destruct (rsi_of_cases g l Hg Hl)
      as [(_ & v & -> & Hv)|[(_ & _ & v & -> & Hv)|(_ & _ & ->)]].
    + right. by exists v.
    + right. exists v. split; [done|]. lra.
    + by left.
Qed.

Lemma indicator_table_rows np_sqrt bars row :
  In row (indicator_table np_sqrt bars) →
  ∃ i, (i < length bars)%nat
       ∧ RSI row = nth i (rsi_series (map p_close bars)) NaN
       ∧ SMA_50 row = nth i (rolling 50 window_mean (map p_close bars)) NaN.
Proof.
  unfold indicator_table. intros Hin. apply in_map_iff in Hin as (i & <- & Hi).
  apply in_seq in Hi. exists i. split; [lia|]. by split.
Qed.

(** C7.  Every RSI entry the code computes (the same lines stand in
    [get_stock_data] and in [get_real_stock_data]) is missing or lies in
    [0, 100]; the rows that survive [dropna] have an RSI in [0, 100]; and
    with an average loss of 0 and a positive average gain the division
    gives +inf without failing and the formula gives exactly 100. *)
Theorem rsi_within_0_100_and_saturates (np_sqrt : Q → Q) (bars : list PriceBar) :
  (∀ closes i, (i < length closes)%nat →
     nth i (rsi_series closes) NaN = NaN
     ∨ ∃ v, nth i (rsi_series closes) NaN = Fin v ∧ 0 <= v ∧ v <= 100)
  ∧ (∀ row, In row (add_indicators np_sqrt bars) →
       (Fin 0 <=? RSI row)%num = true ∧ (RSI row <=? Fin 100)%num = true)
  ∧ (∀ avg_gain avg_loss : Q, 0 < avg_gain → avg_loss == 0 →
       (Fin avg_gain / Fin avg_loss)%num = PInf
       ∧ (rsi_of (Fin avg_gain) (Fin avg_loss) ≃ Fin 100)%num).
Proof.
  split; [apply rsi_entry_range|]. split.
  - intros row Hrow. unfold add_indicators, dropna in Hrow.
    apply filter_In in Hrow as [Hin Hkeep].
    destruct (indicator_table_rows _ _ _ Hin) as (i & Hi & Hrsi & _).
    assert (Hnn : Num.is_nan (RSI row) = false).
    { unfold has_nan in Hkeep. apply negb_true_iff in Hkeep.
      repeat (apply orb_false_elim in Hkeep as [Hkeep ?]). assumption. }
    destruct (rsi_entry_range (map p_close bars) i) as [Hnan|(v & Hv & H0 & H100)].
    + by rewrite length_map.
    + rewrite Hrsi, Hnan in Hnn. done.
    + rewrite Hrsi, Hv. simpl. by rewrite !(proj2 (Qle_bool_iff _ _)).
  - intros g l Hg Hl.
    change (Fin g / Fin l)%num with (Num.qdiv g l). unfold rsi_of.
    change (Fin g / Fin l)%num with (Num.qdiv g l).
    rewrite qdiv_pos_by_zero by done. split; [done|]. simpl. lra.
Qed.

(** *** The number of rows left by [dropna] *)

Lemma filter_none {A} (p : A → bool) l :
  (∀ x, In x l → p x = false) → List.filter p l = [].
Proof.
  induction l as [|x l IH]; intros H; simpl; [done|].
  rewrite (H x) by (by left). apply IH. intros y Hy. apply H. by right.
Qed.

Lemma filter_all {A} (p : A → bool) l :
  (∀ x, In x l → p x = true) → List.filter p l = l.
Proof.
  induction l as [|x l IH]; intros H; simpl; [done|].
  rewrite (H x) by (by left). f_equal. apply IH. intros y Hy. apply H. by right.
Qed.

Lemma filter_tabulate_count {A} (p : A → bool) (f : nat → A) n k :
  (k ≤ n)%nat → (∀ i, (i < k)%nat → p (f i) = false) →
  (length (List.filter p (map f (seq 0 n))) ≤ n - k)%nat
  ∧ ((∀ i, (k ≤ i < n)%nat → p (f i) = true) →
     length (List.filter p (map f (seq 0 n))) = (n - k)%nat).
Proof.
  intros Hk Hlow. replace n with (k + (n - k))%nat at 1 3 by lia.
  rewrite seq_app, map_app, List.filter_app, length_app. simpl.
  rewrite (filter_none p (map f (seq 0 k))).
  2:{ intros x Hx. apply in_map_iff in Hx as (i & <- & Hi).
      apply in_seq in Hi. apply Hlow. lia. }
  simpl. split.
  - etrans; [apply filter_length_le|]. by rewrite length_map, length_seq.
  - intros Hhigh. rewrite filter_all; [by rewrite length_map, length_seq|].
    intros x Hx. apply in_map_iff in Hx as (i & <- & Hi).
    apply in_seq in Hi. apply Hhigh. lia.
Qed.

Lemma window_In {A} (xs : list A) i w j d :
  (S i - w ≤ j ≤ i)%nat → (i < length xs)%nat → In (nth j xs d) (window xs i w).
Proof.
  intros Hj Hi. unfold window. apply list_elem_of_In.
  apply list_elem_of_lookup. exists (j - (S i - w))%nat.
  rewrite lookup_take_lt by lia. rewrite lookup_drop.
  replace (S i - w + (j - (S i - w)))%nat with j by lia.
  destruct (nth_lookup_or_length xs j d) as [H|H]; [done|lia].
Qed.

Lemma nth_diff closes j :
  (S j < length closes)%nat →
  nth (S j) (diff closes) NaN = Fin (nth (S j) closes 0 - nth j closes 0).
Proof. intros H. unfold diff. by rewrite nth_tabulate. Qed.

Lemma nth_pct_change xs j :
  (S j < length xs)%nat →
  nth (S j) (pct_change xs) NaN
  = (Num.qdiv (nth (S j) xs 0) (nth j xs 0) - Fin 1)%num.
Proof. intros H. unfold pct_change. by rewrite nth_tabulate. Qed.

Lemma is_nan_sub_fin a q : Num.is_nan (a - Fin q)%num = Num.is_nan a.
Proof. by destruct a. Qed.

Lemma pct_change_defined xs i :
  (1 ≤ i < length xs)%nat → change_defined xs i →
  Num.is_nan (nth i (pct_change xs) NaN) = false.
Proof.
  intros Hi Hdef. destruct i as [|j]; [lia|].
  rewrite nth_pct_change by lia. rewrite is_nan_sub_fin.
  destruct (Num.qdiv _ _) eqn:E; try done.
  apply qdiv_nan in E as [H1 H2]. exfalso. apply Hdef.
  replace (S j - 1)%nat with j by lia. done.
Qed.

Lemma window_mean_pos xs i x :
  Forall (λ x, 0 <= x) xs → (14 ≤ S i)%nat → (i < length xs)%nat →
  In x (window xs i 14) → 0 < x → 0 < list_sum (window xs i 14) / 14.
Proof.
  intros Hxs Hw Hi Hin Hx. apply Qlt_shift_div_l; [lra|].
  pose proof (list_sum_from_pos _ 0 x (window_Forall _ xs i 14 Hxs) Hin Hx) as H.
  unfold list_sum. lra.
Qed.

Lemma rsi_defined_not_nan closes i :
  (14 ≤ i < length closes)%nat → rsi_defined closes i →
  Num.is_nan (nth i (rsi_series closes) NaN) = false.
Proof.
  intros Hi (j & Hj & Hne).
  destruct (rsi_entry closes i) as [[? _]|(_ & g & l & Hg & Hl & Hgs & Hls & ->)];
    [lia|lia|].
  destruct j as [|j]; [lia|]. replace (S j - 1)%nat with j in Hne by lia.
  assert (Hd : nth (S j) (diff closes) NaN
               = Fin (nth (S j) closes 0 - nth j closes 0)) by (apply nth_diff; lia).
  set (d := nth (S j) closes 0 - nth j closes 0) in *.
  assert (Hpos : 0 < g ∨ 0 < l).
  { destruct (Qlt_le_dec 0 d) as [Hd0|Hd0].
    - left. rewrite Hgs.
      apply (window_mean_pos _ i (gain_of (Fin d)));
        [apply gains_nonneg|lia|rewrite length_gains; lia| |].
      + rewrite <- Hd, <- (map_nth gain_of).
        apply window_In; [lia|rewrite length_gains; lia].
      + simpl. destruct (Qle_bool d 0) eqn:E; simpl; [|done].
        apply Qle_bool_iff in E. lra.
    - right. rewrite Hls. assert (Hd1 : d < 0).
      { destruct (Qlt_le_dec d 0); [done|]. exfalso. apply Hne.
        unfold d in *. lra. }
      apply (window_mean_pos _ i (loss_of (Fin d)));
        [apply losses_nonneg|lia|rewrite length_losses; lia| |].
      + rewrite <- Hd, <- (map_nth loss_of).
        apply window_In; [lia|rewrite length_losses; lia].
      + simpl. destruct (Qle_bool 0 d) eqn:E; simpl; [|lra].
        apply Qle_bool_iff in E. lra. }
  destruct (rsi_of_cases g l Hg Hl)
    as [(_ & v & -> & _)|[(_ & _ & v & -> & _)|(Hl0 & Hg0 & _)]]; [done|done|].
  destruct Hpos; lra.
Qed.

Lemma sum_sq_dev_nonneg xs : 0 <= sum_sq_dev xs.
Proof.
  unfold sum_sq_dev. apply list_sum_nonneg. apply List.Forall_forall.
  intros y Hy. apply in_map_iff in Hy as (x & <- & _).
  generalize (x - list_sum xs / qlen xs). intros t. nra.
Qed.

Lemma window_std_defined np_sqrt xs i :
  (20 ≤ S i)%nat → (i < length xs)%nat →
  ∃ s, window_std np_sqrt (window xs i 20) = Fin s.
Proof.
  intros Hw Hi. unfold window_std, series_std, series_var.
  rewrite length_window by done. cbn [Nat.leb]. unfold num_sqrt.
  destruct (Qle_bool 0 _) eqn:E; [by eexists|].
  exfalso. assert (Hq : qlen (window xs i 20) = 20).
  { unfold qlen. by rewrite length_window. }
  rewrite Hq in E.
  assert (0 <= sum_sq_dev (window xs i 20) / (20 - 1)).
  { apply Qle_shift_div_l; [lra|]. pose proof (sum_sq_dev_nonneg (window xs i 20)). lra. }
  apply Qle_bool_iff in H. congruence.
Qed.

(** A row below position 49 has no 50-day average and is dropped; a row
    from position 49 on is kept when its RSI and its two changes are
    defined. *)
Lemma indicator_table_as_map np_sqrt bars :
  ∃ f, indicator_table np_sqrt bars = map f (seq 0 (length bars))
       ∧ (∀ i, (i < 49)%nat → negb (has_nan (f i)) = false)
       ∧ (∀ i, (49 ≤ i < length bars)%nat →
            rsi_defined (map p_close bars) i →
            change_defined (map p_close bars) i →
            change_defined (map p_volume bars) i →
            negb (has_nan (f i)) = true).
Proof.
  unfold indicator_table. eexists. split; [reflexivity|]. split.
  - intros i Hi. unfold has_nan. cbn [SMA_20 SMA_50 RSI MACD BB_upper BB_middle
      BB_lower Price_Change Volume_Change].
    rewrite (nth_rolling_early 50) by lia. simpl. by rewrite orb_true_r.
  - intros i Hi Hrsi Hpc Hvc. apply negb_true_iff. unfold has_nan.
    cbn [SMA_20 SMA_50 RSI MACD BB_upper BB_middle BB_lower Price_Change
         Volume_Change].
    assert (Hn : (i < length (map p_close bars))%nat) by (rewrite length_map; lia).
    assert (Hnv : (i < length (map p_volume bars))%nat) by (rewrite length_map; lia).
    rewrite (rsi_defined_not_nan _ i) by (done || lia).
    rewrite (pct_change_defined (map p_close bars) i) by (done || lia).
    rewrite (pct_change_defined (map p_volume bars) i) by (done || lia).
    rewrite !(nth_zip_with _ _ _ _ NaN NaN)
      by (rewrite ?length_rolling; lia).
    rewrite (nth_zip_with _ _ _ _ 0 0)
      by (unfold ewm_mean; rewrite length_ewm_from; lia).
    rewrite !nth_rolling by lia.
    destruct (window_std_defined np_sqrt (map p_close bars) i) as [s ->]; [lia|lia|].
    reflexivity.
Qed.

(** Claim C6 as it is stated fails: of fifty bars at one and the same
    price no row is left, where the claim expects 50 - 49 = 1, because the
    RSI of a flat window is 0/0 and [dropna] removes the row. *)
Lemma flat_series_loses_every_row :
  (50 ≤ length flat_bars)%nat
  ∧ length (add_indicators (λ x, x) flat_bars) = 0%nat
  ∧ (length flat_bars - 49)%nat = 1%nat.
Proof. split; [vm_compute; lia|]. split; vm_compute; reflexivity. Qed.

(** C6, amended.  For at least 50 bars the augmented table has at most
    len(raw) - 49 rows, and exactly len(raw) - 49 rows when from bar 49 on
    every RSI is defined (the last 14 price changes are not all zero) and
    every price change and volume change is defined (no two consecutive
    zero closes or zero volumes). *)
Theorem augmented_rows_at_most_len_minus_49 (np_sqrt : Q → Q)
    (bars : list PriceBar) :
  (50 ≤ length bars)%nat →
  (length (add_indicators np_sqrt bars) ≤ length bars - 49)%nat
  ∧ ((∀ i, (49 ≤ i < length bars)%nat →
        rsi_defined (map p_close bars) i
        ∧ change_defined (map p_close bars) i
        ∧ change_defined (map p_volume bars) i) →
     length (add_indicators np_sqrt bars) = (length bars - 49)%nat).
Proof.
  intros Hlen. unfold add_indicators, dropna.
  destruct (indicator_table_as_map np_sqrt bars) as (f & -> & Hlow & Hhigh).
  destruct (filter_tabulate_count (λ row, negb (has_nan row)) f (length bars) 49)
    as [Hle Heq]; [lia|exact Hlow|].
  split; [exact Hle|]. intros Hdef. apply Heq. intros i Hi.
  destruct (Hdef i Hi) as (? & ? & ?). by apply Hhigh.
Qed.

End IndicatorFacts.

(** Fifty rising bars: one row survives, with an RSI of 100. *)
Lemma rsi_within_0_100_and_saturates_witness :
  ∃ row, In row (StockPredictor.add_indicators (λ x, x) StockPredictor.rising_bars)
         ∧ (StockPredictor.RSI row ≃ Fin 100)%num
         ∧ (Fin 0 <=? StockPredictor.RSI row)%num = true
         ∧ (StockPredictor.RSI row <=? Fin 100)%num = true.
Proof.
  eexists. split; [vm_compute; left; reflexivity|].
  split; [vm_compute; reflexivity|].
  apply (proj1 (proj2 (rsi_within_0_100_and_saturates
                         (λ x, x) StockPredictor.rising_bars))).
  vm_compute; left; reflexivity.
Defined.

(** Fifty rising bars: exactly one row is left. *)
Lemma augmented_rows_at_most_len_minus_49_witness :
  (length (StockPredictor.add_indicators (λ x, x) StockPredictor.rising_bars)
   ≤ length StockPredictor.rising_bars - 49)%nat
  ∧ length (StockPredictor.add_indicators (λ x, x) StockPredictor.rising_bars)
    = (length StockPredictor.rising_bars - 49)%nat.
Proof.
  assert (Hlen : (50 ≤ length StockPredictor.rising_bars)%nat) by (vm_compute; lia).
  split.
  - exact (proj1 (augmented_rows_at_most_len_minus_49 (λ x, x)
                    StockPredictor.rising_bars Hlen)).
  - apply (proj2 (augmented_rows_at_most_len_minus_49 (λ x, x)
                    StockPredictor.rising_bars Hlen)).
    intros i Hi. change (length StockPredictor.rising_bars) with 50%nat in Hi.
    assert (i = 49%nat) as -> by lia.
    split; [|split].
    + exists 49%nat. split; [lia|]. vm_compute. intros H; discriminate H.
    + intros [H _]. vm_compute in H. discriminate H.
    + intros [H _]. vm_compute in H. discriminate H.
Defined.

(** ** The predictor: training and forecasting *)

Section PredictorFacts.

Import StockPredictor.
Local Open Scope Q_scope.

Variable np_sqrt : Q → Q.
Variable mock_bars : string → list PriceBar.
Variables fit_linear fit_ensemble : list (list Q) → list Q → result Exn (list Q → Q).
Variable can_write : string → bool.

Local Notation "'get_stock_data''" := (get_stock_data np_sqrt mock_bars).
Local Notation "'fit_and_evaluate''" :=
  (fit_and_evaluate np_sqrt mock_bars fit_linear fit_ensemble).
Local Notation "'train_model''" :=
  (train_model np_sqrt mock_bars fit_linear fit_ensemble can_write).
Local Notation "'predict''" :=
  (predict np_sqrt mock_bars fit_linear fit_ensemble can_write).

(** *** Training leaves the registry alone until the evaluation is done *)

Lemma get_stock_data_registry st sym :
  models (snd (get_stock_data' st sym)) = models st
  ∧ disk (snd (get_stock_data' st sym)) = disk st.
Proof. unfold get_stock_data. by destruct (data_cache st !! sym). Qed.

Lemma prepare_data_registry st data lookback :
  models (snd (prepare_data st data lookback)) = models st
  ∧ disk (snd (prepare_data st data lookback)) = disk st.
Proof. unfold prepare_data. by destruct (check_array _). Qed.

Lemma fit_and_evaluate_registry st sym model_type :
  models (snd (fit_and_evaluate' st sym model_type)) = models st
  ∧ disk (snd (fit_and_evaluate' st sym model_type)) = disk st.
Proof.
  unfold fit_and_evaluate.
  pose proof (get_stock_data_registry st sym) as [Hm Hd].
  destruct (get_stock_data' st sym) as [data st1]. simpl in Hm, Hd.
  pose proof (prepare_data_registry st1 data 60) as [Hm' Hd'].
  destruct (prepare_data st1 data 60) as [prepared st2]. simpl in *.
  split; congruence.
Qed.

(** A model type other than linear and ensemble never gets through. *)
Lemma unsupported_model_type_fails st sym model_type :
  model_type ≠ "linear"%string → model_type ≠ "ensemble"%string →
  ∃ e, fst (fit_and_evaluate' st sym model_type) = Raise e.
Proof.
  intros Hl He. unfold fit_and_evaluate.
  destruct (get_stock_data' st sym) as [data st1].
  destruct (prepare_data st1 data 60) as [[[X y]|e] st2]; simpl; [|by eexists].
  destruct (length X <? 100)%nat; [by eexists|].
  apply String.eqb_neq in Hl, He. rewrite Hl, He. simpl. by eexists.
Qed.

(** C9.  When [train_model] fails before or in the evaluation (no data
    table the scaler accepts, fewer than 100 windows, a model type that is
    not supported, an exception in [fit] or in the prediction on the
    held-out part), the registry and the model files are what they were,
    so an entry stored earlier under the key is still there unchanged; and
    when the registry differs after [train_model], the fit and the
    evaluation had succeeded and the one entry written is the new one.
    (The statement is about the registry and the files: an entry written
    by [train_model] names the predictor's scaler by reference,
    [SelfScaler], and that one object is refitted by every training.) *)
Theorem training_is_atomic (st : State) (sym model_type : string) (now : Z) :
  (∀ e st1, fit_and_evaluate' st sym model_type = (Raise e, st1) →
     fst (train_model' st sym model_type now) = TrainError sym model_type e
     ∧ models (snd (train_model' st sym model_type now)) = models st
     ∧ disk (snd (train_model' st sym model_type now)) = disk st
     ∧ ∀ art, models st !! model_key sym model_type = Some art →
         models (snd (train_model' st sym model_type now))
           !! model_key sym model_type = Some art)
  ∧ (model_type ≠ "linear"%string → model_type ≠ "ensemble"%string →
     models (snd (train_model' st sym model_type now)) = models st)
  ∧ (models (snd (train_model' st sym model_type now)) ≠ models st →
     ∃ model metrics st1,
       fit_and_evaluate' st sym model_type = (Ok (model, metrics), st1)
       ∧ models (snd (train_model' st sym model_type now))
         = <[model_key sym model_type := mkArtifact model SelfScaler metrics now]>
             (models st)).
Proof.
  pose proof (fit_and_evaluate_registry st sym model_type) as [Hm Hd].
  assert (Hfail : ∀ e st1, fit_and_evaluate' st sym model_type = (Raise e, st1) →
     fst (train_model' st sym model_type now) = TrainError sym model_type e
     ∧ models (snd (train_model' st sym model_type now)) = models st
     ∧ disk (snd (train_model' st sym model_type now)) = disk st).
  { intros e st1 H. unfold train_model. rewrite H in *. simpl in *. done. }
  split; [|split].
  - intros e st1 H. destruct (Hfail e st1 H) as (Hr & Hm1 & Hd1).
    repeat (split; [done|]). intros art Hart. by rewrite Hm1.
  - intros Hl He.
    destruct (unsupported_model_type_fails st sym model_type Hl He) as [e Hfst].
    destruct (fit_and_evaluate' st sym model_type) as [r st1] eqn:E.
    simpl in Hfst. subst r. by destruct (Hfail e st1 eq_refl) as (_ & ? & _).
  - intros Hne.
    destruct (fit_and_evaluate' st sym model_type) as [[[model metrics]|e] st1] eqn:E.
    + exists model, metrics, st1. split; [done|].
      unfold train_model. rewrite E. simpl in Hm.
      destruct (can_write _); simpl; by rewrite Hm.
    + destruct (Hfail e st1 eq_refl) as (_ & ? & _). done.
Qed.

(** *** The width of what [train_model] fits *)

Lemma check_array_rows data table :
  check_array (map features_of data) = Ok table →
  length table = length data ∧ Forall (λ row, length row = 14%nat) table.
Proof.
  unfold check_array. destruct (map features_of data) as [|r rs] eqn:E; [done|].
  rewrite <- E. clear E r rs.
  destruct (mapM (mapM finite) (map features_of data)) as [Y|] eqn:E; [|done].
  intros [= <-]. apply mapM_Some_1 in E. split.
  - apply Forall2_length in E. by rewrite length_map in E.
  - revert Y E. induction data as [|row data IH]; intros Y E;
      inversion E as [|? row' ? Y' Hrow HY]; subst; constructor.
    + apply length_mapM in Hrow. by rewrite <- Hrow.
    + by apply IH.
Qed.

Lemma inplace_same_width {B} (op : Q → Q → B) X v :
  length v = length (hd [] X) →
  inplace op X v = Ok (map (λ row, zip_with op row v) X).
Proof. intros H. unfold inplace. by rewrite H, Nat.eqb_refl. Qed.

Lemma fit_scaler_lengths table :
  length (scale_ (fit_scaler table)) = length (hd [] table)
  ∧ length (min_ (fit_scaler table)) = length (hd [] table).
Proof.
  unfold fit_scaler. simpl.
  rewrite length_zip_with, !length_map, length_zip_with, !length_map, !length_seq.
  lia.
Qed.

Lemma zip_rows_width {B} (op : Q → Q → B) (X : list (list Q)) v w :
  length v = w → Forall (λ row, length row = w) X →
  Forall (λ row, length row = w) (map (λ row, zip_with op row v) X).
Proof.
  intros Hv HX. apply Forall_map. eapply Forall_impl; [exact HX|].
  intros row Hrow. simpl in *. rewrite length_zip_with. lia.
Qed.

(** The scaled table of [prepare_data] keeps the 14 columns. *)
Lemma prepare_data_windows st data X y st' :
  prepare_data st data 60 = (Ok (X, y), st') →
  ∃ scaled, (X, y) = windows 60 scaled
            ∧ Forall (λ row, length row = 14%nat) scaled.
Proof.
  unfold prepare_data.
  destruct (check_array (map features_of data)) as [table|e] eqn:E; [|done].
  change (scaler (set_scaler (Some (fit_scaler table)) st))
    with (Some (fit_scaler table)).
  unfold scaler_transform. rewrite E.
  destruct (check_array_rows _ _ E) as [Hlen Hrows].
  destruct (fit_scaler_lengths table) as [Hs Hm].
  unfold mbind, Py.result_bind. rewrite Hs, Nat.eqb_refl. cbn [negb].
  rewrite (inplace_same_width Qmult) by done.
  assert (Hw : length (hd [] table) = 14%nat).
  { destruct table as [|row table]; [by destruct data|]. by inversion Hrows. }
  assert (H1 : Forall (λ row, length row = 14%nat)
                 (map (λ row, zip_with Qmult row (scale_ (fit_scaler table))) table)).
  { apply zip_rows_width; [congruence|done]. }
  rewrite (inplace_same_width Qplus).
  2:{ rewrite Hm, Hw. destruct table as [|row table]; [by destruct data|].
      cbn [map hd] in H1 |- *. by inversion H1. }
  intros [= <- <-]. eexists. split; [reflexivity|].
  apply zip_rows_width; [exact (eq_trans Hm Hw)|exact H1].
Qed.

Lemma length_concat_rows (rows : list (list Q)) w :
  Forall (λ row, length row = w) rows → length (concat rows) = (length rows * w)%nat.
Proof.
  induction 1 as [|row rows Hrow _ IH]; simpl; [done|].
  rewrite length_app, IH, Hrow. lia.
Qed.

(** A model that [train_model] stores was fitted on rows of 60 x 14 = 840
    features. *)
Lemma trained_model_expects_840_features st sym model_type model metrics st' :
  fit_and_evaluate' st sym model_type = (Ok (model, metrics), st') →
  n_features_in_ model = 840%nat.
Proof.
  unfold fit_and_evaluate.
  destruct (get_stock_data' st sym) as [data st1].
  destruct (prepare_data st1 data 60) as [[[X y]|e] st2] eqn:E; [|done].
  destruct (prepare_data_windows _ _ _ _ _ E) as (scaled & HXy & Hrows).
  unfold mbind, Py.result_bind.
  destruct (Nat.ltb_spec (length X) 100) as [|HX]; [done|].
  set (split := Z.to_nat (Qfloor (qlen X * 0.8))).
  assert (Hsplit : (1 ≤ split)%nat).
  { unfold split. assert (H80 : (80 ≤ Qfloor (qlen X * 0.8))%Z).
    { rewrite <- (Qfloor_Z 80). apply Qfloor_resp_le.
      assert (Hq : inject_Z 100 <= qlen X).
      { unfold qlen. rewrite <- Zle_Qle. lia. }
      assert (H08 : 0.8 == 4 # 5) by reflexivity.
      rewrite H08. change (inject_Z 80) with 80. change (inject_Z 100) with 100 in Hq.
      lra. }
    lia. }
  assert (Hwidth : length (hd [] (flatten_windows (firstn split X))) = 840%nat).
  { injection HXy as -> _. rewrite length_map, length_seq in HX.
    destruct split as [|split']; [lia|].
    destruct (length scaled - 60)%nat as [|k] eqn:Hk; [lia|].
    unfold flatten_windows. cbn [seq map firstn hd].
    rewrite (length_concat_rows _ 14).
    - rewrite length_take, length_drop. lia.
    - by apply Forall_take, Forall_drop. }
  destruct (if String.eqb model_type "linear" then _ else _) as [fitted|e]; [|done].
  destruct (estimator_predict _ _) as [y_pred|e]; [|done].
  intros [= <- _ _]. exact Hwidth.
Qed.

(** *** No forecast gets through the scaler *)

Lemma check_array_ok X X' :
  check_array X = Ok X' →
  X ≠ [] ∧ length (hd [] X') = length (hd [] X).
Proof.
  unfold check_array. destruct X as [|row X]; [done|].
  destruct (mapM (mapM finite) (row :: X)) as [Y|] eqn:E; [|done].
  intros [= <-]. split; [done|].
  apply mapM_Some_1 in E. inversion E as [|? row' ? Y' Hrow _]; subst. simpl.
  symmetry. by eapply length_mapM.
Qed.

Lemma check_array_column preds :
  preds ≠ [] →
  check_array (map (λ pred, [Fin pred]) preds) = Ok (map (λ pred, [pred]) preds).
Proof.
  intros Hne. unfold check_array.
  destruct (map _ preds) as [|r rs] eqn:E; [by destruct preds|]. rewrite <- E.
  assert (H : mapM (mapM finite) (map (λ pred, [Fin pred]) preds)
              = Some (map (λ pred, [pred]) preds)).
  { apply mapM_Some_2. clear. induction preds as [|p preds IH]; simpl; by constructor. }
  by rewrite H.
Qed.

(** A fitted scaler that accepted a table of 14 features has 14 scales. *)
Lemma scaler_transform_features sc rows Y :
  scaler_transform (Some sc) (map features_of rows) = Ok Y →
  length (scale_ sc) = 14%nat.
Proof.
  unfold scaler_transform. destruct (check_array _) as [X|e] eqn:E; simpl; [|done].
  apply check_array_ok in E as [Hne Hw].
  destruct (Nat.eqb_spec (length (hd [] X)) (length (scale_ sc))) as [Heq|]; [|done].
  intros _. rewrite <- Heq, Hw. destruct rows as [|row rows]; [done|]. reflexivity.
Qed.

Lemma inplace_column_width {B} (op : Q → Q → B) (preds : list Q) v X :
  preds ≠ [] →
  inplace op (map (λ pred, [pred]) preds) v = Ok X → length (hd [] X) = 1%nat.
Proof.
  intros Hne. unfold inplace. destruct preds as [|p preds]; [done|]. simpl.
  destruct (Nat.eqb_spec (length v) 1) as [Hv|Hv]; [|done].
  intros [= <-]. simpl. destruct v as [|x [|y v]]; simpl in *; lia.
Qed.

(** The predictions come back as a table of one column; dividing it in
    place by the 14 scales cannot be broadcast. *)
Lemma inverse_transform_of_column_fails sc preds :
  length (scale_ sc) = 14%nat →
  ∃ e, scaler_inverse_transform (Some sc) (map (λ pred, [Fin pred]) preds)
       = Raise e.
Proof.
  intros Hsc. unfold scaler_inverse_transform.
  destruct preds as [|p preds]; [by eexists|].
  rewrite check_array_column by done. simpl mbind.
  destruct (inplace Qminus _ (min_ sc)) as [X|e] eqn:E; simpl; [|by eexists].
  apply (inplace_column_width Qminus (p :: preds)) in E; [|done].
  unfold inplace. rewrite E, Hsc. simpl. by eexists.
Qed.

Lemma forecast_fails art sc data sym model_type days :
  ∃ e, forecast art sc data sym model_type days = Raise e.
Proof.
  unfold forecast, mbind, Py.result_bind. destruct sc as [sc|]; [|by eexists].
  destruct (scaler_transform (Some sc) _) as [scaled|e] eqn:E; [|by eexists].
  apply scaler_transform_features in E.
  destruct (last scaled) as [row|]; [|by eexists].
  destruct (rollout _ _ _) as [preds|e]; [|by eexists].
  destruct (inverse_transform_of_column_fails sc preds E) as [e ->].
  by eexists.
Qed.

(** C2 at work.  Whatever the state, the symbol, the model type and the
    number of days (7 as well as 0), [predict] returns its error dict and
    no (date, price) pair: with a model in the registry, the scaler that
    scaled the 14 features refuses the one-column table of predictions
    (and a model fitted by [train_model] on 60 x 14 = 840 features has
    refused the 14-feature row before that); without a model, none could
    be loaded or trained. *)
Theorem predict_returns_an_error (st : State) (sym : string) (days : Z)
    (model_type : string) (now : Z) :
  ∃ e st', predict' st sym days model_type now = (PredictError sym e, st').
Proof.
  unfold predict.
  set (st1 := match models st !! model_key sym model_type with
              | Some _ => st
              | None => _
              end).
  destruct (models st1 !! model_key sym model_type) as [art|]; [|by eexists _, _].
  destruct (get_stock_data' st1 sym) as [data st2].
  destruct (forecast_fails art (resolve_scaler st2 (art_scaler art)) data sym
              model_type days) as [e ->].
  by eexists _, _.
Qed.

(** The estimator side of the same defect: a model that [train_model]
    stores was fitted on rows of 840 features and refuses the row of 14
    features [predict] hands to it. *)
Lemma trained_model_refuses_feature_row st sym model_type model metrics st' row :
  fit_and_evaluate' st sym model_type = (Ok (model, metrics), st') →
  length row = 14%nat →
  ∀ days, ∃ e, rollout model (S days) row = Raise e.
Proof.
  intros Hfit Hrow days. apply trained_model_expects_840_features in Hfit.
  simpl. rewrite Hrow, Hfit. simpl. by eexists.
Qed.


End PredictorFacts.

(** A failed training under a key that has an entry: fifty bars leave one
    row and no window, [train_model] reports the error, and the entry of
    AAPL_lstm is still the stored one. *)
Lemma training_is_atomic_witness :
  fst (StockPredictor.train_model (λ x, x) (λ _, StockPredictor.rising_bars)
         StockPredictor.constant_fit StockPredictor.constant_fit (λ _, true)
         StockPredictor.sample_state "AAPL" "lstm" 1)
  = StockPredictor.TrainError "AAPL" "lstm"
      (StockPredictor.ValueError "Insufficient data for training")
  ∧ StockPredictor.models
      (snd (StockPredictor.train_model (λ x, x) (λ _, StockPredictor.rising_bars)
              StockPredictor.constant_fit StockPredictor.constant_fit (λ _, true)
              StockPredictor.sample_state "AAPL" "lstm" 1))
    !! "AAPL_lstm" = Some StockPredictor.stored_artifact.
Proof.
  edestruct (proj1 (training_is_atomic (λ x, x) (λ _, StockPredictor.rising_bars)
                      StockPredictor.constant_fit StockPredictor.constant_fit
                      (λ _, true) StockPredictor.sample_state "AAPL" "lstm" 1))
    as (Hreport & _ & _ & Hentry).
  - vm_compute. reflexivity.
  - split; [exact Hreport|]. apply Hentry. vm_compute. reflexivity.
Defined.

(* ===================================================================== *)
(** * Part III: further properties of the code                            *)
(* ===================================================================== *)

(** ** Portfolio metrics: weights, sectors and outcomes *)

Section PortfolioFacts.

Import PortfolioAnalyzer.
Local Open Scope Q_scope.

Lemma list_sum_from_acc xs a : fold_left Qplus xs a == a + list_sum xs.
Proof.
  unfold list_sum. revert a. induction xs as [|x xs IH]; intros a; cbn [fold_left].
  - lra.
  - rewrite (IH (a + x)), (IH (0 + x)). lra.
Qed.

Lemma list_sum_cons x xs : list_sum (x :: xs) == x + list_sum xs.
Proof. unfold list_sum at 1. cbn [fold_left]. rewrite list_sum_from_acc. lra. Qed.

Lemma list_sum_map_div {A} (f : A → Q) (t : Q) (l : list A) :
  list_sum (map (λ a, f a / t) l) == list_sum (map f l) / t.
Proof.
  induction l as [|a l IH]; cbn [map].
  - unfold list_sum. simpl. unfold Qdiv. ring.
  - rewrite !list_sum_cons, IH. unfold Qdiv. ring.
Qed.

Lemma weights_of_cases (portfolio_data : list Holding) :
  portfolio_data ≠ [] →
  (list_sum (map value portfolio_data) == 0 →
     weights_of portfolio_data = Raise ZeroDivisionError)
  ∧ (¬ list_sum (map value portfolio_data) == 0 →
     weights_of portfolio_data
     = Ok (map (λ item, value item / list_sum (map value portfolio_data))
             portfolio_data)).
Proof.
  intros Hne. unfold weights_of.
  destruct portfolio_data as [|item rest] eqn:E; [done|]. rewrite <- E. clear E.
  split.
  - intros H0. by rewrite (proj2 (Qeq_bool_iff _ _) H0).
  - intros H0. by destruct (Qeq_bool _ 0) eqn:E0; [apply Qeq_bool_iff in E0|].
Qed.

(** X1.  The weights of a portfolio: a division by zero when the values add up
    to zero, and otherwise one weight per holding, adding up to 1. *)
Theorem weights_sum_to_one (portfolio_data : list Holding) :
  portfolio_data ≠ [] →
  (list_sum (map value portfolio_data) == 0 →
     weights_of portfolio_data = Raise ZeroDivisionError)
  ∧ (¬ list_sum (map value portfolio_data) == 0 →
     ∃ ws, weights_of portfolio_data = Ok ws
           ∧ length ws = length portfolio_data
           ∧ list_sum ws == 1).
Proof.
  intros Hne. destruct (weights_of_cases portfolio_data Hne) as [Hzero Hok].
  split; [exact Hzero|]. intros H0. eexists. split; [by apply Hok|].
  split; [by rewrite length_map|].
  rewrite list_sum_map_div. by field.
Qed.

End PortfolioFacts.

Lemma weights_sum_to_one_witness :
  ∃ ws, PortfolioAnalyzer.weights_of PortfolioAnalyzer.six_sector_holdings = Ok ws
        ∧ length ws = 6%nat ∧ (list_sum ws == 1)%Q.
Proof.
  refine (proj2 (weights_sum_to_one PortfolioAnalyzer.six_sector_holdings _) _).
  - discriminate.
  - vm_compute. discriminate.
Defined.

Section SectorAllocation.

Import PortfolioAnalyzer.
Local Open Scope Q_scope.

Lemma dict_set_add_sum (d : dict Q) key v :
  list_sum (Py.dict_values (Py.dict_set d key (Py.dict_get d key 0 + v)))
  == list_sum (Py.dict_values d) + v.
Proof.
  unfold Py.dict_values.
  induction d as [|[k w] d IH]; cbn [Py.dict_set Py.dict_get map snd].
  - rewrite list_sum_cons. unfold list_sum. simpl. lra.
  - destruct (String.eqb k key); cbn [map snd]; rewrite !list_sum_cons; [lra|].
    rewrite IH. lra.
Qed.

Lemma dict_set_keys {V} (d : dict V) key v :
  (In key (Py.dict_keys d)
   ∧ Py.dict_keys (Py.dict_set d key v) = Py.dict_keys d)
  ∨ (¬ In key (Py.dict_keys d)
     ∧ Py.dict_keys (Py.dict_set d key v) = Py.dict_keys d ++ [key]).
Proof.
  unfold Py.dict_keys. induction d as [|[k w] d IH]; cbn [Py.dict_set map fst].
  - right. split; [by intros []|done].
  - destruct (String.eqb_spec k key) as [->|Hne]; cbn [map fst].
    + left. split; [by left|done].
    + destruct IH as [[Hin ->]|[Hnin ->]].
      * left. split; [by right|done].
      * right. split; [|done]. intros [?|?]; congruence.
Qed.

Lemma dict_set_keys_NoDup {V} (d : dict V) key v :
  List.NoDup (Py.dict_keys d) → List.NoDup (Py.dict_keys (Py.dict_set d key v)).
Proof.
  intros Hd. destruct (dict_set_keys d key v) as [[_ ->]|[Hnin ->]]; [done|].
  apply List.NoDup_app; [done|repeat constructor; by intros []|].
  intros x Hx [<-|[]]. done.
Qed.

Lemma sector_allocation_from (portfolio_data : list Holding) (allocation : dict Q) :
  let step := λ (allocation : dict Q) item,
    Py.dict_set allocation (sector_of (symbol item))
      (Py.dict_get allocation (sector_of (symbol item)) 0 + value item) in
  List.NoDup (Py.dict_keys allocation) →
  list_sum (Py.dict_values (fold_left step portfolio_data allocation))
  == list_sum (Py.dict_values allocation) + list_sum (map value portfolio_data)
  ∧ List.NoDup (Py.dict_keys (fold_left step portfolio_data allocation))
  ∧ (∀ sector, In sector (Py.dict_keys (fold_left step portfolio_data allocation)) ↔
       In sector (Py.dict_keys allocation)
       ∨ In sector (map (λ item, sector_of (symbol item)) portfolio_data)).
Proof.
  intros step. revert allocation.
  induction portfolio_data as [|item rest IH]; intros allocation Hnd; cbn [fold_left map].
  - split; [unfold list_sum at 3; simpl; lra|]. split; [done|]. intros; simpl; tauto.
  - destruct (IH (step allocation item)) as (Hsum & Hnd' & Hkeys).
    { by apply dict_set_keys_NoDup. }
    split; [|split; [done|]].
    + rewrite Hsum. unfold step. rewrite dict_set_add_sum, list_sum_cons. lra.
    + intros sector. rewrite Hkeys. unfold step.
      destruct (dict_set_keys allocation (sector_of (symbol item))
                  (Py.dict_get allocation (sector_of (symbol item)) 0 + value item))
        as [[Hin ->]|[Hnin ->]].
      * simpl. intuition congruence.
      * rewrite in_app_iff. simpl. intuition congruence.
Qed.

(** X2.  The sector allocation is a dict (no sector twice) over the sectors of
    the holdings, and its amounts add up to the total value of the
    portfolio. *)
Theorem sector_allocation_adds_up (portfolio_data : list Holding) :
  list_sum (Py.dict_values (sector_allocation_of portfolio_data))
  == list_sum (map value portfolio_data)
  ∧ List.NoDup (Py.dict_keys (sector_allocation_of portfolio_data))
  ∧ (∀ sector, In sector (Py.dict_keys (sector_allocation_of portfolio_data)) ↔
       ∃ item, In item portfolio_data ∧ sector_of (symbol item) = sector).
Proof.
  destruct (sector_allocation_from portfolio_data []) as (Hsum & Hnd & Hkeys);
    [constructor|].
  split; [|split; [exact Hnd|]].
  - unfold sector_allocation_of. rewrite Hsum. unfold list_sum at 1. simpl. lra.
  - intros sector. unfold sector_allocation_of. rewrite Hkeys, in_map_iff.
    simpl. split.
    + intros [[]|(item & ? & ?)]. by exists item.
    + intros (item & ? & ?). right. by exists item.
Qed.

End SectorAllocation.

Section AssessmentOutcome.

Import PortfolioAnalyzer.
Local Open Scope Q_scope.

Lemma max_sector_weight_cases (sector_allocation : dict Q) :
  (sector_allocation ≠ [] ∧ list_sum (Py.dict_values sector_allocation) == 0
   ∧ max_sector_weight sector_allocation = Raise ZeroDivisionError)
  ∨ ((sector_allocation = [] ∨ ¬ list_sum (Py.dict_values sector_allocation) == 0)
     ∧ ∃ w, max_sector_weight sector_allocation = Ok w).
Proof.
  unfold max_sector_weight. destruct sector_allocation as [|entry rest].
  - right. split; [by left|by eexists].
  - cbv iota. destruct (Qeq_bool _ 0) eqn:E0.
    + left. by apply Qeq_bool_iff in E0.
    + right. apply Qeq_bool_neq in E0. split; [by right|by eexists].
Qed.

(** With a total that is not zero the sector weight is computed. *)
Lemma max_sector_weight_of_allocation (portfolio_data : list Holding) :
  portfolio_data ≠ [] → ¬ list_sum (map value portfolio_data) == 0 →
  ∃ w, max_sector_weight (sector_allocation_of portfolio_data) = Ok w.
Proof.
  intros Hne H0.
  destruct (sector_allocation_from portfolio_data []) as (Hsum & _ & _);
    [constructor|].
  fold (sector_allocation_of portfolio_data) in Hsum.
  destruct (max_sector_weight_cases (sector_allocation_of portfolio_data))
    as [(_ & Hz & _)|[_ Hw]]; [|exact Hw].
  rewrite Hsum in Hz. unfold list_sum at 1 in Hz. simpl in Hz.
  exfalso. apply H0. lra.
Qed.

(** X3.  [assess_portfolio_risk] fails in one way only: the division by zero
    of [max(values) / sum(values)] when the sector allocation has entries
    that add up to zero.  On the sector allocation of holdings whose values
    do not add up to zero it returns an assessment. *)
Theorem risk_assessment_fails_only_on_zero_allocation
    (portfolio_risk : dict num) (sector_allocation : dict Q)
    (correlation_matrix : list (list num)) :
  (assess_portfolio_risk portfolio_risk sector_allocation correlation_matrix
   = Raise ZeroDivisionError
   ↔ sector_allocation ≠ [] ∧ list_sum (Py.dict_values sector_allocation) == 0)
  ∧ (∀ e, assess_portfolio_risk portfolio_risk sector_allocation correlation_matrix
          = Raise e → e = ZeroDivisionError)
  ∧ (∀ portfolio_data : list Holding,
       portfolio_data ≠ [] → ¬ list_sum (map value portfolio_data) == 0 →
       ∃ assessment,
         assess_portfolio_risk portfolio_risk
           (sector_allocation_of portfolio_data) correlation_matrix
         = Ok assessment).
Proof.
  split; [|split].
  - unfold assess_portfolio_risk.
    destruct (max_sector_weight_cases sector_allocation)
      as [(Hne & Hz & ->)|[Hc [w ->]]]; cbn [mbind Py.result_bind].
    + done.
    + split; [done|]. intros [? ?]. destruct Hc; done.
  - intros e. unfold assess_portfolio_risk.
    destruct (max_sector_weight_cases sector_allocation)
      as [(Hne & Hz & ->)|[Hc [w ->]]]; cbn [mbind Py.result_bind]; congruence.
  - intros portfolio_data Hne H0.
    destruct (max_sector_weight_of_allocation portfolio_data Hne H0) as [w Hw].
    unfold assess_portfolio_risk. rewrite Hw. cbn [mbind Py.result_bind].
    by eexists.
Qed.

End AssessmentOutcome.

(** The six holdings of 1000 each, and a single sector worth nothing. *)
Lemma risk_assessment_fails_only_on_zero_allocation_witness :
  PortfolioAnalyzer.assess_portfolio_risk [] [("Technology", 0%Q)] []
  = Raise PortfolioAnalyzer.ZeroDivisionError
  ∧ ∃ assessment,
      PortfolioAnalyzer.assess_portfolio_risk PortfolioAnalyzer.volatile_risk
        (PortfolioAnalyzer.sector_allocation_of
           PortfolioAnalyzer.six_sector_holdings)
        PortfolioAnalyzer.low_correlation
      = Ok assessment.
Proof.
  split.
  - apply (proj1 (risk_assessment_fails_only_on_zero_allocation
                    [] [("Technology", 0%Q)] [])).
    split; [discriminate|vm_compute; reflexivity].
  - apply (proj2 (proj2 (risk_assessment_fails_only_on_zero_allocation
                           PortfolioAnalyzer.volatile_risk [] 
                           PortfolioAnalyzer.low_correlation))).
    + discriminate.
    + vm_compute. discriminate.
Defined.

(** ** The risk score and its five factors *)

Section RiskScore.

Import PortfolioAnalyzer.
Local Open Scope Q_scope.

(** The locals [assess_portfolio_risk] starts from. *)
Local Notation "'start'" := (mkLocals 0 moderate []).

Lemma Qle_bool_cases a b :
  (a <= b ∧ Qle_bool a b = true) ∨ (b < a ∧ Qle_bool a b = false).
Proof.
  destruct (Qle_bool a b) eqn:E.
  - left. by apply Qle_bool_iff in E.
  - right. split; [|done]. destruct (Qlt_le_dec b a) as [|Hle]; [done|].
    apply Qle_bool_iff in Hle. congruence.
Qed.

(** Each check adds its points to the score and one text to the factors,
    both depending on the checked value only. *)
Lemma assess_volatility_effect v l :
  l_risk_score (assess_volatility v l)
  = (l_risk_score l + l_risk_score (assess_volatility v start))%nat
  ∧ l_risk_factors (assess_volatility v l)
    = l_risk_factors l ++ l_risk_factors (assess_volatility v start)
  ∧ (l_risk_score (assess_volatility v start) ≤ 3)%nat
  ∧ ∃ text, l_risk_factors (assess_volatility v start) = [text]
            ∧ In text volatility_texts.
Proof.
  unfold assess_volatility.
  destruct (v >? Fin 0.4)%num; [|destruct (v >? Fin 0.25)%num;
    [|destruct (v >? Fin 0.15)%num]]; cbn; (split; [lia|]);
    (split; [done|]); (split; [lia|]); eexists; (split; [done|]);
    unfold volatility_texts; simpl; tauto.
Qed.

Lemma assess_drawdown_effect d l :
  l_risk_score (assess_drawdown d l)
  = (l_risk_score l + l_risk_score (assess_drawdown d start))%nat
  ∧ l_risk_factors (assess_drawdown d l)
    = l_risk_factors l ++ l_risk_factors (assess_drawdown d start)
  ∧ (l_risk_score (assess_drawdown d start) ≤ 3)%nat
  ∧ ∃ text, l_risk_factors (assess_drawdown d start) = [text]
            ∧ In text drawdown_texts.
Proof.
  unfold assess_drawdown.
  destruct (d >? Fin 0.35)%num; [|destruct (d >? Fin 0.20)%num;
    [|destruct (d >? Fin 0.10)%num]]; cbn; (split; [lia|]);
    (split; [done|]); (split; [lia|]); eexists; (split; [done|]);
    unfold drawdown_texts; simpl; tauto.
Qed.

Lemma assess_sector_effect w l :
  l_risk_score (assess_sector w l)
  = (l_risk_score l + l_risk_score (assess_sector w start))%nat
  ∧ l_risk_factors (assess_sector w l)
    = l_risk_factors l ++ l_risk_factors (assess_sector w start)
  ∧ (l_risk_score (assess_sector w start) ≤ 2)%nat
  ∧ ∃ text, l_risk_factors (assess_sector w start) = [text]
            ∧ In text sector_texts.
Proof.
  unfold assess_sector.
  destruct (negb (Qle_bool w 0.5)); [|destruct (negb (Qle_bool w 0.3))];
    cbn; (split; [lia|]); (split; [done|]); (split; [lia|]); eexists;
    (split; [done|]); unfold sector_texts; simpl; tauto.
Qed.

Lemma assess_correlation_effect c l :
  l_risk_score (assess_correlation c l)
  = (l_risk_score l + l_risk_score (assess_correlation c start))%nat
  ∧ l_risk_factors (assess_correlation c l)
    = l_risk_factors l ++ l_risk_factors (assess_correlation c start)
  ∧ (l_risk_score (assess_correlation c start) ≤ 2)%nat
  ∧ ∃ text, l_risk_factors (assess_correlation c start) = [text]
            ∧ In text correlation_texts.
Proof.
  unfold assess_correlation.
  destruct (c >? Fin 0.7)%num; [|destruct (c >? Fin 0.5)%num];
    cbn; (split; [lia|]); (split; [done|]); (split; [lia|]); eexists;
    (split; [done|]); unfold correlation_texts; simpl; tauto.
Qed.

Lemma assess_sharpe_effect s l :
  l_risk_score (assess_sharpe s l)
  = (l_risk_score l + l_risk_score (assess_sharpe s start))%nat
  ∧ l_risk_factors (assess_sharpe s l)
    = l_risk_factors l ++ l_risk_factors (assess_sharpe s start)
  ∧ (l_risk_score (assess_sharpe s start) ≤ 1)%nat
  ∧ ∃ text, l_risk_factors (assess_sharpe s start) = [text]
            ∧ In text sharpe_texts.
Proof.
  unfold assess_sharpe.
  destruct (s >? Fin 1.0)%num; [|destruct (s >? Fin 0.5)%num;
    [|destruct (s >? Fin 0)%num]]; cbn; (split; [lia|]);
    (split; [done|]); (split; [lia|]); eexists; (split; [done|]);
    unfold sharpe_texts; simpl; tauto.
Qed.

(** The score and the factors after the five checks. *)
Lemma factor_checks_decomposed portfolio_risk w correlation_matrix :
  let volatility := Py.dict_get portfolio_risk "volatility" (Fin 0) in
  let max_drawdown := Num.abs (Py.dict_get portfolio_risk "max_drawdown" (Fin 0)) in
  let avg_correlation := np_mean (upper_triangle correlation_matrix) in
  let sharpe_ratio := Py.dict_get portfolio_risk "sharpe_ratio" (Fin 0) in
  l_risk_score (factor_checks portfolio_risk w correlation_matrix)
  = (l_risk_score (assess_volatility volatility start)
     + l_risk_score (assess_drawdown max_drawdown start)
     + l_risk_score (assess_sector w start)
     + l_risk_score (assess_correlation avg_correlation start)
     + l_risk_score (assess_sharpe sharpe_ratio start))%nat
  ∧ l_risk_factors (factor_checks portfolio_risk w correlation_matrix)
    = l_risk_factors (assess_volatility volatility start)
      ++ l_risk_factors (assess_drawdown max_drawdown start)
      ++ l_risk_factors (assess_sector w start)
      ++ l_risk_factors (assess_correlation avg_correlation start)
      ++ l_risk_factors (assess_sharpe sharpe_ratio start).
Proof.
  intros volatility max_drawdown avg_correlation sharpe_ratio.
  unfold factor_checks.
  fold volatility max_drawdown avg_correlation sharpe_ratio.
  set (l1 := assess_volatility volatility start).
  set (l2 := assess_drawdown max_drawdown l1).
  set (l3 := assess_sector w l2).
  set (l4 := assess_correlation avg_correlation l3).
  destruct (assess_sharpe_effect sharpe_ratio l4) as (-> & -> & _).
  destruct (assess_correlation_effect avg_correlation l3) as (H4 & H4' & _).
  destruct (assess_sector_effect w l2) as (H3 & H3' & _).
  destruct (assess_drawdown_effect max_drawdown l1) as (H2 & H2' & _).
  fold l4 in H4, H4'. fold l3 in H3, H3'. fold l2 in H2, H2'.
  rewrite H4, H4', H3, H3', H2, H2'. split; [lia|].
  by rewrite <- !app_assoc.
Qed.

Lemma assess_portfolio_risk_result portfolio_risk sector_allocation
    correlation_matrix assessment :
  assess_portfolio_risk portfolio_risk sector_allocation correlation_matrix
  = Ok assessment →
  ∃ w, max_sector_weight sector_allocation = Ok w
       ∧ risk_score assessment
         = l_risk_score (factor_checks portfolio_risk w correlation_matrix)
       ∧ risk_factors assessment
         = l_risk_factors (factor_checks portfolio_risk w correlation_matrix)
       ∧ recommendations assessment
         = generate_risk_recommendations (risk_factors assessment)
             (risk_level assessment).
Proof.
  unfold assess_portfolio_risk.
  destruct (max_sector_weight sector_allocation) as [w|e];
    cbn [mbind Py.result_bind]; [|done].
  intros [= <-]. exists w. cbn [risk_score risk_factors recommendations risk_level].
  unfold determine_level.
  destruct (6 <=? _)%nat; [done|]. by destruct (3 <=? _)%nat.
Qed.

(** X4.  Every assessment lists exactly five factors, one text of each check
    in the order volatility, drawdown, sector concentration, correlation,
    Sharpe ratio; its score is the sum of the points of the five checks,
    each computed from its own input alone, and so at most
    3 + 3 + 2 + 2 + 1 = 11. *)
Theorem risk_score_sums_five_factors (portfolio_risk : dict num)
    (sector_allocation : dict Q) (correlation_matrix : list (list num))
    (assessment : RiskAssessment) :
  assess_portfolio_risk portfolio_risk sector_allocation correlation_matrix
  = Ok assessment →
  (∃ v d s c h,
     risk_factors assessment = [v; d; s; c; h]
     ∧ In v volatility_texts ∧ In d drawdown_texts ∧ In s sector_texts
     ∧ In c correlation_texts ∧ In h sharpe_texts)
  ∧ (∃ w, max_sector_weight sector_allocation = Ok w
      ∧ risk_score assessment
        = (l_risk_score
             (assess_volatility (Py.dict_get portfolio_risk "volatility" (Fin 0))
                start)
           + l_risk_score
               (assess_drawdown
                  (Num.abs (Py.dict_get portfolio_risk "max_drawdown" (Fin 0)))
                  start)
           + l_risk_score (assess_sector w start)
           + l_risk_score
               (assess_correlation (np_mean (upper_triangle correlation_matrix))
                  start)
           + l_risk_score
               (assess_sharpe (Py.dict_get portfolio_risk "sharpe_ratio" (Fin 0))
                  start))%nat)
  ∧ (risk_score assessment ≤ 11)%nat.
Proof.
  intros Ha.
  destruct (assess_portfolio_risk_result _ _ _ _ Ha) as (w & Hw & Hs & Hf & _).
  destruct (factor_checks_decomposed portfolio_risk w correlation_matrix)
    as [Hscore Hfactors].
  cbv zeta in Hscore, Hfactors. rewrite Hs, Hf, Hscore, Hfactors.
  destruct (assess_volatility_effect
              (Py.dict_get portfolio_risk "volatility" (Fin 0)) start)
    as (_ & _ & Hv3 & v & -> & Hv).
  destruct (assess_drawdown_effect
              (Num.abs (Py.dict_get portfolio_risk "max_drawdown" (Fin 0))) start)
    as (_ & _ & Hd3 & d & -> & Hd).
  destruct (assess_sector_effect w start) as (_ & _ & Hs2 & s & -> & Hsec).
  destruct (assess_correlation_effect
              (np_mean (upper_triangle correlation_matrix)) start)
    as (_ & _ & Hc2 & c & -> & Hc).
  destruct (assess_sharpe_effect
              (Py.dict_get portfolio_risk "sharpe_ratio" (Fin 0)) start)
    as (_ & _ & Hh1 & h & -> & Hh).
  split; [by exists v, d, s, c, h|]. split; [by exists w|]. lia.
Qed.

End RiskScore.

Lemma risk_score_sums_five_factors_witness :
  ∃ assessment,
    PortfolioAnalyzer.assess_portfolio_risk PortfolioAnalyzer.volatile_risk
      PortfolioAnalyzer.four_sectors PortfolioAnalyzer.low_correlation
    = Ok assessment
    ∧ length (PortfolioAnalyzer.risk_factors assessment) = 5%nat
    ∧ (PortfolioAnalyzer.risk_score assessment ≤ 11)%nat.
Proof.
  destruct (PortfolioAnalyzer.assess_portfolio_risk PortfolioAnalyzer.volatile_risk
              PortfolioAnalyzer.four_sectors PortfolioAnalyzer.low_correlation)
    as [assessment|e] eqn:E; [|vm_compute in E; discriminate E].
  exists assessment. split; [reflexivity|].
  destruct (risk_score_sums_five_factors _ _ _ _ E)
    as ((v & d & s & c & h & Hf & _) & _ & Hle).
  split; [by rewrite Hf|exact Hle].
Defined.

Section RiskScoreOrder.

Import PortfolioAnalyzer.
Local Open Scope Q_scope.

Local Notation "'start'" := (mkLocals 0 moderate []).

Lemma volatility_points_monotone v v' :
  v <= v' →
  (l_risk_score (assess_volatility (Fin v) start)
   ≤ l_risk_score (assess_volatility (Fin v') start))%nat.
Proof.
  intros Hv. unfold assess_volatility, Num.gtb, Num.ltb.
  destruct (Qle_bool_cases v 0.4) as [[? ->]|[? ->]],
    (Qle_bool_cases v 0.25) as [[? ->]|[? ->]],
    (Qle_bool_cases v 0.15) as [[? ->]|[? ->]],
    (Qle_bool_cases v' 0.4) as [[? ->]|[? ->]],
    (Qle_bool_cases v' 0.25) as [[? ->]|[? ->]],
    (Qle_bool_cases v' 0.15) as [[? ->]|[? ->]];
    cbn; try lia; exfalso; lra.
Qed.

Lemma drawdown_points_monotone d d' :
  d <= d' →
  (l_risk_score (assess_drawdown (Fin d) start)
   ≤ l_risk_score (assess_drawdown (Fin d') start))%nat.
Proof.
  intros Hd. unfold assess_drawdown, Num.gtb, Num.ltb.
  destruct (Qle_bool_cases d 0.35) as [[? ->]|[? ->]],
    (Qle_bool_cases d 0.20) as [[? ->]|[? ->]],
    (Qle_bool_cases d 0.10) as [[? ->]|[? ->]],
    (Qle_bool_cases d' 0.35) as [[? ->]|[? ->]],
    (Qle_bool_cases d' 0.20) as [[? ->]|[? ->]],
    (Qle_bool_cases d' 0.10) as [[? ->]|[? ->]];
    cbn; try lia; exfalso; lra.
Qed.

Lemma sharpe_points_antitone s s' :
  s' <= s →
  (l_risk_score (assess_sharpe (Fin s) start)
   ≤ l_risk_score (assess_sharpe (Fin s') start))%nat.
Proof.
  intros Hs. unfold assess_sharpe, Num.gtb, Num.ltb.
  destruct (Qle_bool_cases s 1.0) as [[? ->]|[? ->]],
    (Qle_bool_cases s 0.5) as [[? ->]|[? ->]],
    (Qle_bool_cases s 0) as [[? ->]|[? ->]],
    (Qle_bool_cases s' 1.0) as [[? ->]|[? ->]],
    (Qle_bool_cases s' 0.5) as [[? ->]|[? ->]],
    (Qle_bool_cases s' 0) as [[? ->]|[? ->]];
    cbn; try lia; exfalso; lra.
Qed.

(** X5.  The score never falls when the portfolio gets riskier: of two
    portfolios with the same sector allocation and correlations, the one
    with the higher volatility, the deeper maximum drawdown and the lower
    Sharpe ratio has the higher (or the same) score. *)
Theorem risk_score_grows_with_risk (portfolio_risk portfolio_risk' : dict num)
    (sector_allocation : dict Q) (correlation_matrix : list (list num))
    (assessment assessment' : RiskAssessment) (v v' d d' s s' : Q) :
  Py.dict_get portfolio_risk "volatility" (Fin 0) = Fin v →
  Py.dict_get portfolio_risk' "volatility" (Fin 0) = Fin v' →
  Py.dict_get portfolio_risk "max_drawdown" (Fin 0) = Fin d →
  Py.dict_get portfolio_risk' "max_drawdown" (Fin 0) = Fin d' →
  Py.dict_get portfolio_risk "sharpe_ratio" (Fin 0) = Fin s →
  Py.dict_get portfolio_risk' "sharpe_ratio" (Fin 0) = Fin s' →
  v <= v' → Qabs d <= Qabs d' → s' <= s →
  assess_portfolio_risk portfolio_risk sector_allocation correlation_matrix
  = Ok assessment →
  assess_portfolio_risk portfolio_risk' sector_allocation correlation_matrix
  = Ok assessment' →
  (risk_score assessment ≤ risk_score assessment')%nat.
Proof.
  intros Hv Hv' Hd Hd' Hs Hs' Hvv Hdd Hss Ha Ha'.
  destruct (assess_portfolio_risk_result _ _ _ _ Ha) as (w & Hw & -> & _).
  destruct (assess_portfolio_risk_result _ _ _ _ Ha') as (w' & Hw' & -> & _).
  rewrite Hw in Hw'. injection Hw' as <-.
  rewrite (proj1 (factor_checks_decomposed portfolio_risk w correlation_matrix)).
  rewrite (proj1 (factor_checks_decomposed portfolio_risk' w correlation_matrix)).
  rewrite Hv, Hv', Hd, Hd', Hs, Hs'. cbn [Num.abs].
  pose proof (volatility_points_monotone v v' Hvv).
  pose proof (drawdown_points_monotone (Qabs d) (Qabs d') Hdd).
  pose proof (sharpe_points_antitone s s' Hss).
  lia.
Qed.

(** X6.  The metrics of a series that is too short are the empty dict, and the
    assessment reads every missing metric as 0: it reports a low
    volatility, a low maximum drawdown and poor risk-adjusted returns, and
    its score is between 1 and 5. *)
Theorem missing_metrics_are_assessed_as_zero (np_sqrt : Q → Q)
    (stats_skew stats_kurtosis : list Q → num) (returns : list Q)
    (sector_allocation : dict Q) (correlation_matrix : list (list num))
    (assessment : RiskAssessment) :
  (length returns < 30)%nat →
  assess_portfolio_risk
    (calculate_risk_metrics np_sqrt stats_skew stats_kurtosis returns)
    sector_allocation correlation_matrix
  = Ok assessment →
  (∃ sector correlation,
     risk_factors assessment
     = [ "Low volatility (<15%)"; "Low maximum drawdown (<10%)"; sector;
         correlation; "Poor risk-adjusted returns (Sharpe < 0)" ]%string)
  ∧ (1 ≤ risk_score assessment ≤ 5)%nat.
Proof.
  intros Hlen Ha.
  assert (Hempty : calculate_risk_metrics np_sqrt stats_skew stats_kurtosis returns
                   = []).
  { unfold calculate_risk_metrics.
    destruct (Nat.ltb_spec (length returns) 30); [done|lia]. }
  rewrite Hempty in Ha.
  destruct (assess_portfolio_risk_result _ _ _ _ Ha) as (w & _ & -> & -> & _).
  destruct (factor_checks_decomposed [] w correlation_matrix) as [-> ->].
  cbn [Py.dict_get].
  destruct (assess_sector_effect w start) as (_ & _ & Hs2 & sector & -> & _).
  destruct (assess_correlation_effect
              (np_mean (upper_triangle correlation_matrix)) start)
    as (_ & _ & Hc2 & correlation & -> & _).
  change (l_risk_factors (assess_volatility (Fin 0) start))
    with ["Low volatility (<15%)"%string].
  change (l_risk_factors (assess_drawdown (Num.abs (Fin 0)) start))
    with ["Low maximum drawdown (<10%)"%string].
  change (l_risk_factors (assess_sharpe (Fin 0) start))
    with ["Poor risk-adjusted returns (Sharpe < 0)"%string].
  change (l_risk_score (assess_volatility (Fin 0) start)) with 0%nat.
  change (l_risk_score (assess_drawdown (Num.abs (Fin 0)) start)) with 0%nat.
  change (l_risk_score (assess_sharpe (Fin 0) start)) with 1%nat.
  split; [by exists sector, correlation|lia].
Qed.

End RiskScoreOrder.

(** Two portfolios that differ in volatility, drawdown and Sharpe ratio. *)
Lemma risk_score_grows_with_risk_witness :
  ∃ assessment assessment',
    PortfolioAnalyzer.assess_portfolio_risk
      [("volatility", Fin 0.2); ("max_drawdown", Fin (-0.05));
       ("sharpe_ratio", Fin 0.8)]%string
      PortfolioAnalyzer.four_sectors PortfolioAnalyzer.low_correlation
    = Ok assessment
    ∧ PortfolioAnalyzer.assess_portfolio_risk
        [("volatility", Fin 0.5); ("max_drawdown", Fin (-0.3));
         ("sharpe_ratio", Fin (-0.2))]%string
        PortfolioAnalyzer.four_sectors PortfolioAnalyzer.low_correlation
      = Ok assessment'
    ∧ (PortfolioAnalyzer.risk_score assessment
       ≤ PortfolioAnalyzer.risk_score assessment')%nat.
Proof.
  destruct (PortfolioAnalyzer.assess_portfolio_risk
              [("volatility", Fin 0.2); ("max_drawdown", Fin (-0.05));
               ("sharpe_ratio", Fin 0.8)]%string
              PortfolioAnalyzer.four_sectors PortfolioAnalyzer.low_correlation)
    as [assessment|e] eqn:E; [|vm_compute in E; discriminate E].
  destruct (PortfolioAnalyzer.assess_portfolio_risk
              [("volatility", Fin 0.5); ("max_drawdown", Fin (-0.3));
               ("sharpe_ratio", Fin (-0.2))]%string
              PortfolioAnalyzer.four_sectors PortfolioAnalyzer.low_correlation)
    as [assessment'|e] eqn:E'; [|vm_compute in E'; discriminate E'].
  exists assessment, assessment'. split; [reflexivity|]. split; [reflexivity|].
  refine (risk_score_grows_with_risk _ _ _ _ _ _ 0.2 0.5 (-0.05) (-0.3) 0.8 (-0.2)
            _ _ _ _ _ _ _ _ _ E E'); try reflexivity.
  - vm_compute. discriminate.
  - vm_compute. discriminate.
  - vm_compute. discriminate.
Defined.

(** Twenty-nine observations, four sectors of equal weight. *)
Lemma missing_metrics_are_assessed_as_zero_witness :
  ∃ assessment,
    PortfolioAnalyzer.assess_portfolio_risk
      (PortfolioAnalyzer.calculate_risk_metrics (λ x, x) (λ _, NaN) (λ _, NaN)
         (repeat 0.01%Q 29))
      PortfolioAnalyzer.four_sectors PortfolioAnalyzer.low_correlation
    = Ok assessment
    ∧ (1 ≤ PortfolioAnalyzer.risk_score assessment ≤ 5)%nat.
Proof.
  destruct (PortfolioAnalyzer.assess_portfolio_risk
      (PortfolioAnalyzer.calculate_risk_metrics (λ x, x) (λ _, NaN) (λ _, NaN)
         (repeat 0.01%Q 29))
      PortfolioAnalyzer.four_sectors PortfolioAnalyzer.low_correlation)
    as [assessment|e] eqn:E; [|vm_compute in E; discriminate E].
  exists assessment. split; [reflexivity|].
  refine (proj2 (missing_metrics_are_assessed_as_zero _ _ _ _ _ _ _ _ E)).
  simpl; lia.
Defined.

(** ** The recommendations of an assessment *)

Section RiskRecommendations.

Import PortfolioAnalyzer.
Local Open Scope Q_scope.
Local Open Scope string_scope.

Local Notation "'start'" := (mkLocals 0 moderate []).

Lemma In_existsb key (l : list string) :
  In key l ↔ existsb (String.eqb key) l = true.
Proof.
  rewrite existsb_exists. split.
  - intros H. exists key. by rewrite String.eqb_refl.
  - intros (x & Hx & Heq). apply String.eqb_eq in Heq. by subst.
Qed.

(** The keyword tests of [generate_risk_recommendations], run on every
    list of five factor texts the checks can produce and on every level:
    a keyword is found exactly when the one text that starts with it is in
    the list. *)
Lemma keyword_table :
  forallb (λ v, forallb (λ d, forallb (λ s, forallb (λ c, forallb (λ h,
    forallb (λ lvl,
      let recs := generate_risk_recommendations [v; d; s; c; h] lvl in
      Bool.eqb
        (existsb (String.eqb
           "Consider adding defensive stocks or bonds to reduce volatility") recs)
        (String.eqb v "High volatility (>40%)")
      && Bool.eqb
           (existsb (String.eqb
              "Implement stop-loss strategies to limit downside risk") recs)
           (String.eqb d "High maximum drawdown (20-35%)")
      && Bool.eqb
           (existsb (String.eqb
              "Diversify across different sectors to reduce concentration risk")
              recs)
           (String.eqb s "High sector concentration (>50% in one sector)")
      && Bool.eqb
           (existsb (String.eqb
              "Add uncorrelated assets (bonds, commodities, international stocks)")
              recs)
           (String.eqb c "High correlation between holdings (>0.7)")
      && Bool.eqb
           (existsb (String.eqb
              "Review portfolio allocation and consider rebalancing") recs)
           (String.eqb h "Poor risk-adjusted returns (Sharpe < 0)")
      && Bool.eqb
           (existsb (String.eqb
              "Consider reducing position sizes or adding defensive assets") recs)
           (match lvl with aggressive => true | _ => false end)
      && Bool.eqb
           (existsb (String.eqb
              "Portfolio appears well-balanced for conservative investors") recs)
           (match lvl with conservative => true | _ => false end))
      [conservative; moderate; aggressive])
    sharpe_texts) correlation_texts) sector_texts) drawdown_texts) volatility_texts
  = true.
Proof. vm_compute. reflexivity. Qed.

Lemma keyword_table_at v d s c h lvl :
  In v volatility_texts → In d drawdown_texts → In s sector_texts →
  In c correlation_texts → In h sharpe_texts →
  let recs := generate_risk_recommendations [v; d; s; c; h] lvl in
  (In "Consider adding defensive stocks or bonds to reduce volatility" recs
   ↔ v = "High volatility (>40%)")
  ∧ (In "Implement stop-loss strategies to limit downside risk" recs
     ↔ d = "High maximum drawdown (20-35%)")
  ∧ (In "Diversify across different sectors to reduce concentration risk" recs
     ↔ s = "High sector concentration (>50% in one sector)")
  ∧ (In "Add uncorrelated assets (bonds, commodities, international stocks)" recs
     ↔ c = "High correlation between holdings (>0.7)")
  ∧ (In "Review portfolio allocation and consider rebalancing" recs
     ↔ h = "Poor risk-adjusted returns (Sharpe < 0)")
  ∧ (In "Consider reducing position sizes or adding defensive assets" recs
     ↔ lvl = aggressive)
  ∧ (In "Portfolio appears well-balanced for conservative investors" recs
     ↔ lvl = conservative).
Proof.
  intros Hv Hd Hs Hc Hh recs.
  pose proof keyword_table as T.
  rewrite forallb_forall in T. specialize (T v Hv).
  rewrite forallb_forall in T. specialize (T d Hd).
  rewrite forallb_forall in T. specialize (T s Hs).
  rewrite forallb_forall in T. specialize (T c Hc).
  rewrite forallb_forall in T. specialize (T h Hh).
  rewrite forallb_forall in T. specialize (T lvl).
  assert (Hlvl : In lvl [conservative; moderate; aggressive])
    by (destruct lvl; simpl; tauto).
  specialize (T Hlvl). cbv zeta in T. fold recs in T.
  apply andb_prop in T as [T H7]. apply andb_prop in T as [T H6].
  apply andb_prop in T as [T H5]. apply andb_prop in T as [T H4].
  apply andb_prop in T as [T H3]. apply andb_prop in T as [H1 H2].
  apply Bool.eqb_prop in H1, H2, H3, H4, H5, H6, H7.
  rewrite !In_existsb, H1, H2, H3, H4, H5, H6, H7, !String.eqb_eq.
  repeat (split; [done|]). by destruct lvl.
Qed.

Lemma volatility_text_high v :
  ∃ text, l_risk_factors (assess_volatility v start) = [text]
          ∧ In text volatility_texts
          ∧ (text = "High volatility (>40%)" ↔ (v >? Fin 0.4)%num = true).
Proof.
  unfold assess_volatility.
  destruct (v >? Fin 0.4)%num; [|destruct (v >? Fin 0.25)%num;
    [|destruct (v >? Fin 0.15)%num]]; eexists; (split; [reflexivity|]);
    (split; [unfold volatility_texts; simpl; tauto|]); done.
Qed.

Lemma drawdown_text_high d :
  ∃ text, l_risk_factors (assess_drawdown d start) = [text]
          ∧ In text drawdown_texts
          ∧ (text = "High maximum drawdown (20-35%)"
             ↔ (d >? Fin 0.20)%num = true ∧ (d >? Fin 0.35)%num = false)
          ∧ (text = "Very high maximum drawdown (>35%)"
             ↔ (d >? Fin 0.35)%num = true).
Proof.
  unfold assess_drawdown.
  destruct (d >? Fin 0.35)%num; [|destruct (d >? Fin 0.20)%num;
    [|destruct (d >? Fin 0.10)%num]]; eexists; (split; [reflexivity|]);
    (split; [unfold drawdown_texts; simpl; tauto|]); split; split;
    (done || by intros []).
Qed.

Lemma sector_text_high w :
  ∃ text, l_risk_factors (assess_sector w start) = [text]
          ∧ In text sector_texts
          ∧ (text = "High sector concentration (>50% in one sector)"
             ↔ (0.5 < w)%Q).
Proof.
  unfold assess_sector.
  destruct (Qle_bool_cases w 0.5) as [[? ->]|[? ->]];
    [destruct (Qle_bool_cases w 0.3) as [[? ->]|[? ->]]|]; eexists;
    (split; [reflexivity|]); (split; [unfold sector_texts; simpl; tauto|]);
    split; (done || (intros; exfalso; lra)).
Qed.

Lemma correlation_text_high c :
  ∃ text, l_risk_factors (assess_correlation c start) = [text]
          ∧ In text correlation_texts
          ∧ (text = "High correlation between holdings (>0.7)"
             ↔ (c >? Fin 0.7)%num = true).
Proof.
  unfold assess_correlation.
  destruct (c >? Fin 0.7)%num; [|destruct (c >? Fin 0.5)%num]; eexists;
    (split; [reflexivity|]); (split; [unfold correlation_texts; simpl; tauto|]);
    done.
Qed.

Lemma gtb_above_zero (s : num) (q : Q) :
  (0 <= q)%Q → (s >? Fin q)%num = true → (s >? Fin 0)%num = true.
Proof.
  intros Hq. destruct s as [x| | |]; simpl; try done.
  destruct (Qle_bool_cases x q) as [[? ->]|[? ->]]; [done|]. intros _.
  destruct (Qle_bool_cases x 0) as [[? ->]|[? ->]]; [lra|done].
Qed.

Lemma sharpe_text_poor s :
  ∃ text, l_risk_factors (assess_sharpe s start) = [text]
          ∧ In text sharpe_texts
          ∧ (text = "Poor risk-adjusted returns (Sharpe < 0)"
             ↔ (s >? Fin 0)%num = false).
Proof.
  pose proof (gtb_above_zero s 1.0) as H1.
  pose proof (gtb_above_zero s 0.5) as H2.
  unfold assess_sharpe.
  destruct (s >? Fin 1.0)%num; [|destruct (s >? Fin 0.5)%num;
    [|destruct (s >? Fin 0)%num]]; eexists; (split; [reflexivity|]);
    (split; [unfold sharpe_texts; simpl; tauto|]); split; try done.
  - intros H0. rewrite H1 in H0; [done|lra|done].
  - intros H0. rewrite H2 in H0; [done|lra|done].
Qed.

Lemma determine_level_cases l :
  (l_risk_level (determine_level l) = aggressive ↔ (6 ≤ l_risk_score l)%nat)
  ∧ (l_risk_level (determine_level l) = conservative ↔ (l_risk_score l < 3)%nat).
Proof.
  unfold determine_level.
  destruct (Nat.leb_spec 6 (l_risk_score l)); [|destruct (Nat.leb_spec 3 (l_risk_score l))];
    simpl; split; split; (done || lia).
Qed.

(** What an assessment recommends, in terms of what was assessed. *)
Lemma recommendations_characterised portfolio_risk sector_allocation
    correlation_matrix assessment :
  assess_portfolio_risk portfolio_risk sector_allocation correlation_matrix
  = Ok assessment →
  let volatility := Py.dict_get portfolio_risk "volatility" (Fin 0) in
  let max_drawdown := Num.abs (Py.dict_get portfolio_risk "max_drawdown" (Fin 0)) in
  let avg_correlation := np_mean (upper_triangle correlation_matrix) in
  let sharpe_ratio := Py.dict_get portfolio_risk "sharpe_ratio" (Fin 0) in
  ∃ w, max_sector_weight sector_allocation = Ok w
  ∧ (In "Consider adding defensive stocks or bonds to reduce volatility"
       (recommendations assessment)
     ↔ (volatility >? Fin 0.4)%num = true)
  ∧ (In "Implement stop-loss strategies to limit downside risk"
       (recommendations assessment)
     ↔ (max_drawdown >? Fin 0.20)%num = true
       ∧ (max_drawdown >? Fin 0.35)%num = false)
  ∧ (In "Diversify across different sectors to reduce concentration risk"
       (recommendations assessment)
     ↔ (0.5 < w)%Q)
  ∧ (In "Add uncorrelated assets (bonds, commodities, international stocks)"
       (recommendations assessment)
     ↔ (avg_correlation >? Fin 0.7)%num = true)
  ∧ (In "Review portfolio allocation and consider rebalancing"
       (recommendations assessment)
     ↔ (sharpe_ratio >? Fin 0)%num = false)
  ∧ (In "Consider reducing position sizes or adding defensive assets"
       (recommendations assessment)
     ↔ (6 ≤ risk_score assessment)%nat)
  ∧ (In "Portfolio appears well-balanced for conservative investors"
       (recommendations assessment)
     ↔ (risk_score assessment < 3)%nat)
  ∧ ((max_drawdown >? Fin 0.35)%num = true →
     In "Very high maximum drawdown (>35%)" (risk_factors assessment)).
Proof.
  intros Ha volatility max_drawdown avg_correlation sharpe_ratio.
  unfold assess_portfolio_risk in Ha.
  destruct (max_sector_weight sector_allocation) as [w|e];
    cbn [mbind Py.result_bind] in Ha; [|done].
  injection Ha as <-. exists w. split; [done|].
  cbn [recommendations risk_factors risk_score].
  assert (Hf : l_risk_factors
                 (determine_level (factor_checks portfolio_risk w correlation_matrix))
               = l_risk_factors (factor_checks portfolio_risk w correlation_matrix)).
  { unfold determine_level.
    destruct (6 <=? _)%nat; [done|]. by destruct (3 <=? _)%nat. }
  rewrite Hf, determine_level_score.
  destruct (determine_level_cases (factor_checks portfolio_risk w correlation_matrix))
    as [Hagg Hcons].
  rewrite (proj2 (factor_checks_decomposed portfolio_risk w correlation_matrix)).
  fold volatility max_drawdown avg_correlation sharpe_ratio.
  destruct (volatility_text_high volatility) as (v & -> & Hv & Hv').
  destruct (drawdown_text_high max_drawdown) as (d & -> & Hd & Hd' & Hd'').
  destruct (sector_text_high w) as (s & -> & Hs & Hs').
  destruct (correlation_text_high avg_correlation) as (c & -> & Hc & Hc').
  destruct (sharpe_text_poor sharpe_ratio) as (h & -> & Hh & Hh').
  cbn [app].
  destruct (keyword_table_at v d s c h
              (l_risk_level
                 (determine_level (factor_checks portfolio_risk w correlation_matrix)))
              Hv Hd Hs Hc Hh) as (K1 & K2 & K3 & K4 & K5 & K6 & K7).
  rewrite K1, K2, K3, K4, K5, K6, K7, Hv', Hd', Hs', Hc', Hh', Hagg, Hcons.
  repeat (split; [done|]).
  intros Hvery. apply Hd'' in Hvery. subst d. simpl. tauto.
Qed.

(** X7.  The stop-loss recommendation is given for a maximum drawdown between
    20% and 35% and for no other: a drawdown above 35% is listed as 'Very
    high maximum drawdown', in which the keyword 'High maximum drawdown' of
    [generate_risk_recommendations] does not occur. *)
Theorem stop_loss_advice_skips_very_high_drawdown (portfolio_risk : dict num)
    (sector_allocation : dict Q) (correlation_matrix : list (list num))
    (assessment : RiskAssessment) :
  assess_portfolio_risk portfolio_risk sector_allocation correlation_matrix
  = Ok assessment →
  let max_drawdown := Num.abs (Py.dict_get portfolio_risk "max_drawdown" (Fin 0)) in
  (In "Implement stop-loss strategies to limit downside risk"
     (recommendations assessment)
   ↔ (max_drawdown >? Fin 0.20)%num = true
     ∧ (max_drawdown >? Fin 0.35)%num = false)
  ∧ ((max_drawdown >? Fin 0.35)%num = true →
     In "Very high maximum drawdown (>35%)" (risk_factors assessment)
     ∧ ¬ In "Implement stop-loss strategies to limit downside risk"
           (recommendations assessment)).
Proof.
  intros Ha max_drawdown.
  destruct (recommendations_characterised _ _ _ _ Ha)
    as (w & _ & _ & Hstop & _ & _ & _ & _ & _ & Hvery).
  fold max_drawdown in Hstop, Hvery. split; [exact Hstop|].
  intros H35. split; [by apply Hvery|].
  rewrite Hstop. intros [_ H]. congruence.
Qed.

(** X8.  The other recommendations: the defensive stocks for a volatility above
    40%, the sector advice for a sector weight above 50%, the uncorrelated
    assets for an average correlation above 0.7, the rebalancing for a
    Sharpe ratio that is not positive (0 and NaN included), the smaller
    positions for a score of 6 or more and the closing remark for
    conservative investors for a score below 3. *)
Theorem recommendations_follow_the_factors (portfolio_risk : dict num)
    (sector_allocation : dict Q) (correlation_matrix : list (list num))
    (assessment : RiskAssessment) :
  assess_portfolio_risk portfolio_risk sector_allocation correlation_matrix
  = Ok assessment →
  ∃ w, max_sector_weight sector_allocation = Ok w
  ∧ (In "Consider adding defensive stocks or bonds to reduce volatility"
       (recommendations assessment)
     ↔ (Py.dict_get portfolio_risk "volatility" (Fin 0) >? Fin 0.4)%num = true)
  ∧ (In "Diversify across different sectors to reduce concentration risk"
       (recommendations assessment)
     ↔ (0.5 < w)%Q)
  ∧ (In "Add uncorrelated assets (bonds, commodities, international stocks)"
       (recommendations assessment)
     ↔ (np_mean (upper_triangle correlation_matrix) >? Fin 0.7)%num = true)
  ∧ (In "Review portfolio allocation and consider rebalancing"
       (recommendations assessment)
     ↔ (Py.dict_get portfolio_risk "sharpe_ratio" (Fin 0) >? Fin 0)%num = false)
  ∧ (In "Consider reducing position sizes or adding defensive assets"
       (recommendations assessment)
     ↔ (6 ≤ risk_score assessment)%nat)
  ∧ (In "Portfolio appears well-balanced for conservative investors"
       (recommendations assessment)
     ↔ (risk_score assessment < 3)%nat).
Proof.
  intros Ha.
  destruct (recommendations_characterised _ _ _ _ Ha)
    as (w & Hw & H1 & _ & H3 & H4 & H5 & H6 & H7 & _).
  exists w. done.
Qed.

End RiskRecommendations.

(** A drawdown of 50% and one of 30%. *)
Lemma stop_loss_advice_skips_very_high_drawdown_witness :
  ∃ deep moderate,
    PortfolioAnalyzer.assess_portfolio_risk [("max_drawdown", Fin (-0.5))]%string
      PortfolioAnalyzer.four_sectors PortfolioAnalyzer.low_correlation = Ok deep
    ∧ PortfolioAnalyzer.assess_portfolio_risk [("max_drawdown", Fin (-0.3))]%string
        PortfolioAnalyzer.four_sectors PortfolioAnalyzer.low_correlation
      = Ok moderate
    ∧ ¬ In "Implement stop-loss strategies to limit downside risk"%string
          (PortfolioAnalyzer.recommendations deep)
    ∧ In "Implement stop-loss strategies to limit downside risk"%string
        (PortfolioAnalyzer.recommendations moderate).
Proof.
  destruct (PortfolioAnalyzer.assess_portfolio_risk
              [("max_drawdown", Fin (-0.5))]%string
              PortfolioAnalyzer.four_sectors PortfolioAnalyzer.low_correlation)
    as [deep|e] eqn:E; [|vm_compute in E; discriminate E].
  destruct (PortfolioAnalyzer.assess_portfolio_risk
              [("max_drawdown", Fin (-0.3))]%string
              PortfolioAnalyzer.four_sectors PortfolioAnalyzer.low_correlation)
    as [moderate|e] eqn:E'; [|vm_compute in E'; discriminate E'].
  exists deep, moderate. split; [reflexivity|]. split; [reflexivity|]. split.
  - apply (proj2 (stop_loss_advice_skips_very_high_drawdown _ _ _ _ E)).
    vm_compute. reflexivity.
  - apply (proj1 (stop_loss_advice_skips_very_high_drawdown _ _ _ _ E')).
    split; vm_compute; reflexivity.
Defined.

Lemma recommendations_follow_the_factors_witness :
  ∃ assessment,
    PortfolioAnalyzer.assess_portfolio_risk PortfolioAnalyzer.volatile_risk
      PortfolioAnalyzer.four_sectors PortfolioAnalyzer.low_correlation
    = Ok assessment
    ∧ In "Consider adding defensive stocks or bonds to reduce volatility"%string
        (PortfolioAnalyzer.recommendations assessment).
Proof.
  destruct (PortfolioAnalyzer.assess_portfolio_risk PortfolioAnalyzer.volatile_risk
              PortfolioAnalyzer.four_sectors PortfolioAnalyzer.low_correlation)
    as [assessment|e] eqn:E; [|vm_compute in E; discriminate E].
  exists assessment. split; [reflexivity|].
  destruct (recommendations_follow_the_factors _ _ _ _ E) as (w & _ & Hv & _).
  apply Hv. vm_compute. reflexivity.
Defined.

(** ** The Sharpe guard and the range of the maximum drawdown *)

Section SharpeGuard.

Import PortfolioAnalyzer.
Local Open Scope Q_scope.

Variable np_sqrt : Q → Q.
Variables stats_skew stats_kurtosis : list Q → num.

Local Notation "'start'" := (mkLocals 0 moderate []).

Lemma not_above_zero (a : num) (q : Q) :
  (0 <= q)%Q → (a >? Fin 0)%num = false → (a >? Fin q)%num = false.
Proof.
  intros Hq H0. destruct (a >? Fin q)%num eqn:E; [|done].
  by rewrite (gtb_above_zero a q Hq E) in H0.
Qed.

(** X9.  When the volatility of a series is not above zero (it is zero, as for
    a series of zero returns, or not a number), the guard sets the Sharpe
    ratio to 0 instead of dividing; the assessment then lists a low
    volatility together with poor risk-adjusted returns. *)
Theorem zero_volatility_is_assessed_as_poor (returns : list Q) :
  (30 ≤ length returns)%nat →
  let metrics := calculate_risk_metrics np_sqrt stats_skew stats_kurtosis returns in
  (Py.dict_get metrics "volatility" (Fin 0) >? Fin 0)%num = false →
  Py.dict_get metrics "sharpe_ratio" (Fin 0) = Fin 0
  ∧ ∀ sector_allocation correlation_matrix assessment,
      assess_portfolio_risk metrics sector_allocation correlation_matrix
      = Ok assessment →
      In "Low volatility (<15%)"%string (risk_factors assessment)
      ∧ In "Poor risk-adjusted returns (Sharpe < 0)"%string
          (risk_factors assessment).
Proof.
  intros Hlen metrics Hvol.
  assert (Hsharpe : Py.dict_get metrics "sharpe_ratio" (Fin 0) = Fin 0).
  { revert Hvol. unfold metrics, calculate_risk_metrics.
    destruct (Nat.ltb_spec (length returns) 30); [lia|].
    cbn [Py.dict_get String.eqb Ascii.eqb Bool.eqb]. by intros ->. }
  split; [exact Hsharpe|].
  intros sector_allocation correlation_matrix assessment Ha.
  destruct (assess_portfolio_risk_result _ _ _ _ Ha) as (w & _ & _ & -> & _).
  rewrite (proj2 (factor_checks_decomposed metrics w correlation_matrix)).
  rewrite Hsharpe.
  assert (Hlow : l_risk_factors
                   (assess_volatility (Py.dict_get metrics "volatility" (Fin 0)) start)
                 = ["Low volatility (<15%)"%string]).
  { unfold assess_volatility.
    rewrite (not_above_zero _ 0.4), (not_above_zero _ 0.25),
      (not_above_zero _ 0.15); (done || lra). }
  rewrite Hlow.
  change (l_risk_factors (assess_sharpe (Fin 0) start))
    with ["Poor risk-adjusted returns (Sharpe < 0)"%string].
  split; [by left|]. rewrite !in_app_iff. do 4 right. by left.
Qed.

End SharpeGuard.

(** Thirty days without a move. *)
Lemma zero_volatility_is_assessed_as_poor_witness :
  Py.dict_get
    (PortfolioAnalyzer.calculate_risk_metrics (λ x, x) (λ _, NaN) (λ _, NaN)
       (repeat 0%Q 30)) "sharpe_ratio" (Fin 0)
  = Fin 0.
Proof.
  refine (proj1 (zero_volatility_is_assessed_as_poor
                   (λ x, x) (λ _, NaN) (λ _, NaN) (repeat 0%Q 30) _ _)).
  - simpl; lia.
  - vm_compute. reflexivity.
Defined.

Section DrawdownRange.

Import PortfolioAnalyzer.
Local Open Scope Q_scope.

(** A drawdown that is a number between -1 and 0. *)
Local Notation "'in_range' a" := (∃ d, a = Fin d ∧ -1 <= d ∧ d <= 0)
  (at level 10, a at level 9).

Lemma cumprod_from_pos acc xs :
  0 < acc → Forall (λ x, 0 < x) xs → Forall (λ c, 0 < c) (cumprod_from acc xs).
Proof.
  intros Hacc Hxs. revert acc Hacc.
  induction Hxs as [|x xs Hx _ IH]; intros acc Hacc; simpl; constructor.
  - simpl in Hx. nra.
  - apply IH. simpl in Hx. nra.
Qed.

Lemma drawdown_in_range c m : 0 < c → c <= m → in_range (Num.qdiv (c - m) m).
Proof.
  intros Hc Hm. rewrite qdiv_nonzero by lra. eexists. split; [reflexivity|]. split.
  - apply Qle_shift_div_l; lra.
  - apply Qle_shift_div_r; lra.
Qed.

Lemma drawdowns_in_range m cs :
  0 < m → Forall (λ c, 0 < c) cs →
  Forall (λ a, in_range a)
    (zip_with (λ c m, Num.qdiv (c - m) m) cs (expanding_max_from m cs)).
Proof.
  intros Hm Hcs. revert m Hm.
  induction Hcs as [|c cs Hc _ IH]; intros m Hm; simpl; constructor.
  - simpl in Hc. apply drawdown_in_range; [done|]. apply Q.le_max_r.
  - apply IH. pose proof (Q.le_max_l m c). lra.
Qed.

Lemma min_skipna_in_range a b :
  in_range a → in_range b → in_range (Num.min_skipna a b).
Proof.
  intros (x & -> & Hx) (y & -> & Hy). simpl.
  destruct (Qle_bool x y); eauto.
Qed.

Lemma series_min_from_in_range ds a :
  in_range a → Forall (λ a, in_range a) ds →
  in_range (fold_left Num.min_skipna ds a).
Proof.
  intros Ha Hds. revert a Ha.
  induction Hds as [|d ds Hd _ IH]; intros a Ha; cbn [fold_left]; [done|].
  apply IH. by apply min_skipna_in_range.
Qed.

(** X10.  When no return is a loss of 100% or more, the maximum drawdown is a
    number (not NaN) between -1 and 0: no drawdown of more than 100% is
    reported. *)
Theorem max_drawdown_within_minus_one_and_zero (returns : list Q) :
  returns ≠ [] → Forall (λ r, -1 < r) returns →
  ∃ d, max_drawdown_of returns = Fin d ∧ -1 <= d ∧ d <= 0.
Proof.
  intros Hne Hr. destruct returns as [|r returns]; [done|].
  inversion Hr as [|? ? Hr0 Hrs]; subst.
  unfold max_drawdown_of, series_min. rewrite drawdown_series_cons.
  assert (Hc0 : 0 < 1 * (1 + r)) by lra.
  cbn [fold_left].
  apply series_min_from_in_range.
  - destruct (drawdown_in_range (1 * (1 + r)) (1 * (1 + r)))
      as (d & -> & Hd); [done|lra|]. simpl. by exists d.
  - apply drawdowns_in_range; [done|].
    apply cumprod_from_pos; [done|]. apply Forall_map.
    eapply Forall_impl; [exact Hrs|]. intros x Hx. simpl in *. lra.
Qed.

End DrawdownRange.

Lemma max_drawdown_within_minus_one_and_zero_witness :
  ∃ d, PortfolioAnalyzer.max_drawdown_of PortfolioAnalyzer.dip_series = Fin d
       ∧ (-1 <= d)%Q ∧ (d <= 0)%Q.
Proof.
  apply (max_drawdown_within_minus_one_and_zero PortfolioAnalyzer.dip_series).
  - discriminate.
  - apply Forall_forall. intros x Hx. apply list_elem_of_In in Hx.
    vm_compute in Hx.
    repeat (destruct Hx as [<-|Hx]; [reflexivity|]). destruct Hx.
Defined.

(** ** Portfolios in one sector, portfolios of one holding *)

Section Concentration.

Import PortfolioAnalyzer.
Local Open Scope Q_scope.

Local Notation "'start'" := (mkLocals 0 moderate []).

Lemma single_sector_allocation_from (rest : list Holding) sector x :
  (∀ item, In item rest → sector_of (symbol item) = sector) →
  ∃ y, fold_left
         (λ (allocation : dict Q) item,
            Py.dict_set allocation (sector_of (symbol item))
              (Py.dict_get allocation (sector_of (symbol item)) 0 + value item))
         rest [(sector, x)]
       = [(sector, y)].
Proof.
  revert x. induction rest as [|item rest IH]; intros x Hs; cbn [fold_left].
  - by exists x.
  - rewrite (Hs item) by (by left). cbn [Py.dict_set Py.dict_get].
    rewrite String.eqb_refl. apply IH. intros i Hi. apply Hs. by right.
Qed.

Lemma single_sector_allocation (portfolio_data : list Holding) sector :
  portfolio_data ≠ [] →
  (∀ item, In item portfolio_data → sector_of (symbol item) = sector) →
  ∃ y, sector_allocation_of portfolio_data = [(sector, y)].
Proof.
  intros Hne Hs. destruct portfolio_data as [|item rest]; [done|].
  unfold sector_allocation_of. cbn [fold_left].
  rewrite (Hs item) by (by left). cbn [Py.dict_set Py.dict_get].
  apply single_sector_allocation_from. intros i Hi. apply Hs. by right.
Qed.

(** X11.  Holdings that all lie in one sector (a symbol the sector table does not
    list counts as Technology) are assessed with a sector weight of 1: the
    assessment lists the high sector concentration, recommends to diversify
    across sectors, and scores at least 2. *)
Theorem one_sector_portfolio_is_concentrated (portfolio_data : list Holding)
    (sector : string) (portfolio_risk : dict num)
    (correlation_matrix : list (list num)) :
  portfolio_data ≠ [] →
  (∀ item, In item portfolio_data → sector_of (symbol item) = sector) →
  ¬ list_sum (map value portfolio_data) == 0 →
  ∃ assessment,
    assess_portfolio_risk portfolio_risk (sector_allocation_of portfolio_data)
      correlation_matrix = Ok assessment
    ∧ In "High sector concentration (>50% in one sector)"%string
        (risk_factors assessment)
    ∧ In "Diversify across different sectors to reduce concentration risk"%string
        (recommendations assessment)
    ∧ (2 ≤ risk_score assessment)%nat.
Proof.
  intros Hne Hs H0.
  destruct (single_sector_allocation portfolio_data sector Hne Hs) as [y Hy].
  destruct (sector_allocation_from portfolio_data []) as (Hsum & _ & _);
    [constructor|].
  fold (sector_allocation_of portfolio_data) in Hsum. rewrite Hy in Hsum.
  unfold list_sum in Hsum at 1 2. simpl in Hsum.
  assert (Hy0 : ¬ y == 0) by (intros Hz; apply H0; lra).
  assert (Hw : max_sector_weight (sector_allocation_of portfolio_data)
               = Ok (y / (0 + y))).
  { rewrite Hy. unfold max_sector_weight, list_sum, list_max. simpl.
    destruct (Qeq_bool (0 + y) 0) eqn:E; [|done].
    apply Qeq_bool_iff in E. exfalso. apply Hy0. lra. }
  assert (Hw1 : 0.5 < y / (0 + y)).
  { assert (Hone : y / (0 + y) == 1) by (field; lra). rewrite Hone. lra. }
  destruct (assess_portfolio_risk portfolio_risk (sector_allocation_of portfolio_data)
              correlation_matrix) as [assessment|e] eqn:Ha.
  2:{ unfold assess_portfolio_risk in Ha. rewrite Hw in Ha. done. }
  exists assessment. split; [done|].
  destruct (recommendations_characterised _ _ _ _ Ha)
    as (w & Hw' & _ & _ & Hdiv & _).
  rewrite Hw in Hw'. injection Hw' as <-.
  destruct (assess_portfolio_risk_result _ _ _ _ Ha) as (w & Hw' & Hscore & Hf & _).
  rewrite Hw in Hw'. injection Hw' as <-.
  destruct (factor_checks_decomposed portfolio_risk (y / (0 + y)) correlation_matrix)
    as [Hsc Hfs].
  cbv zeta in Hsc, Hfs. rewrite Hf, Hfs, Hscore, Hsc.
  assert (Hsector : assess_sector (y / (0 + y)) start
                    = mkLocals 2 moderate
                        ["High sector concentration (>50% in one sector)"%string]).
  { unfold assess_sector.
    destruct (Qle_bool_cases (y / (0 + y)) 0.5) as [[? ->]|[? ->]]; [lra|done]. }
  rewrite Hsector. cbn [l_risk_factors l_risk_score].
  split; [|split; [by apply Hdiv|lia]].
  rewrite !in_app_iff. right. right. left. by left.
Qed.

(** X12.  With a single holding the correlation matrix has nothing above its
    diagonal: the average correlation is the mean of an empty array, NaN,
    every comparison with it is false, and the assessment lists a low
    correlation. *)
Theorem single_holding_is_rated_uncorrelated (np_sqrt : Q → Q)
    (column : list Q) (portfolio_risk : dict num) (sector_allocation : dict Q)
    (assessment : RiskAssessment) :
  assess_portfolio_risk portfolio_risk sector_allocation
    (correlation_matrix_of np_sqrt [column]) = Ok assessment →
  np_mean (upper_triangle (correlation_matrix_of np_sqrt [column])) = NaN
  ∧ nth 3 (risk_factors assessment) ""%string
    = "Low correlation between holdings (<0.5)"%string.
Proof.
  intros Ha.
  assert (Hnan : np_mean (upper_triangle (correlation_matrix_of np_sqrt [column]))
                 = NaN) by reflexivity.
  split; [exact Hnan|].
  destruct (assess_portfolio_risk_result _ _ _ _ Ha) as (w & _ & _ & -> & _).
  rewrite (proj2 (factor_checks_decomposed _ _ _)). rewrite Hnan.
  destruct (assess_volatility_effect
              (Py.dict_get portfolio_risk "volatility" (Fin 0)) start)
    as (_ & _ & _ & v & -> & _).
  destruct (assess_drawdown_effect
              (Num.abs (Py.dict_get portfolio_risk "max_drawdown" (Fin 0))) start)
    as (_ & _ & _ & d & -> & _).
  destruct (assess_sector_effect w start) as (_ & _ & _ & s & -> & _).
  reflexivity.
Qed.

End Concentration.

(** Two holdings in Technology. *)
Lemma one_sector_portfolio_is_concentrated_witness :
  ∃ assessment,
    PortfolioAnalyzer.assess_portfolio_risk PortfolioAnalyzer.volatile_risk
      (PortfolioAnalyzer.sector_allocation_of PortfolioAnalyzer.twin_holdings)
      PortfolioAnalyzer.low_correlation = Ok assessment
    ∧ In "High sector concentration (>50% in one sector)"%string
        (PortfolioAnalyzer.risk_factors assessment)
    ∧ In "Diversify across different sectors to reduce concentration risk"%string
        (PortfolioAnalyzer.recommendations assessment)
    ∧ (2 ≤ PortfolioAnalyzer.risk_score assessment)%nat.
Proof.
  apply (one_sector_portfolio_is_concentrated PortfolioAnalyzer.twin_holdings
           "Technology" PortfolioAnalyzer.volatile_risk
           PortfolioAnalyzer.low_correlation).
  - discriminate.
  - intros item [<-|[<-|[]]]; reflexivity.
  - vm_compute. discriminate.
Defined.

Lemma single_holding_is_rated_uncorrelated_witness :
  ∃ assessment,
    PortfolioAnalyzer.assess_portfolio_risk PortfolioAnalyzer.volatile_risk
      PortfolioAnalyzer.four_sectors
      (PortfolioAnalyzer.correlation_matrix_of (λ x, x)
         [PortfolioAnalyzer.twin_returns]) = Ok assessment
    ∧ nth 3 (PortfolioAnalyzer.risk_factors assessment) ""%string
      = "Low correlation between holdings (<0.5)"%string.
Proof.
  destruct (PortfolioAnalyzer.assess_portfolio_risk PortfolioAnalyzer.volatile_risk
              PortfolioAnalyzer.four_sectors
              (PortfolioAnalyzer.correlation_matrix_of (λ x, x)
                 [PortfolioAnalyzer.twin_returns]))
    as [assessment|e] eqn:E; [|vm_compute in E; discriminate E].
  exists assessment. split; [reflexivity|].
  exact (proj2 (single_holding_is_rated_uncorrelated _ _ _ _ _ E)).
Defined.

(** ** Stock recommendations for a portfolio *)

Section StockRecommendations.

Import PortfolioAnalyzer.
Local Open Scope Q_scope.
Local Open Scope string_scope.

Variable hash : string → Z.
Variable np_random : Z → nat → Q.

Local Notation "'get_stock_info''" := (get_stock_info hash np_random).
Local Notation "'get_stock_recommendations''" :=
  (get_stock_recommendations hash np_random).

Lemma fold_left_Forall {A B} (P : B → Prop) (f : list B → A → list B)
    (l : list A) (acc : list B) :
  (∀ acc a, In a l → Forall P acc → Forall P (f acc a)) →
  Forall P acc → Forall P (fold_left f l acc).
Proof.
  revert acc. induction l as [|a l IH]; intros acc Hf Hacc; cbn [fold_left]; [done|].
  apply IH.
  - intros acc' a' Ha'. apply Hf. by right.
  - apply Hf; [by left|done].
Qed.

Lemma current_symbols_spec (portfolio_data : list Holding) sym :
  sym ∈ (list_to_set (map symbol portfolio_data) : gset string)
  ↔ In sym (map symbol portfolio_data).
Proof. by rewrite elem_of_list_to_set, list_elem_of_In. Qed.

Lemma current_sectors_from (portfolio_data : list Holding) (acc : gset string) sector :
  sector ∈ fold_left
             (λ (current_sectors : gset string) item,
                match get_stock_info' (symbol item) with
                | Some info => current_sectors ∪ {[ info_sector info ]}
                | None => current_sectors
                end)
             portfolio_data acc
  ↔ sector ∈ acc
    ∨ ∃ item, In item portfolio_data ∧ sector_of (symbol item) = sector.
Proof.
  revert acc. induction portfolio_data as [|item rest IH]; intros acc; cbn [fold_left].
  - split; [by left|]. intros [?|(? & H & _)]; [done|destruct H].
  - rewrite IH. cbn [get_stock_info info_sector]. rewrite elem_of_union, elem_of_singleton.
    fold (sector_of (symbol item)). split.
    + intros [[?| ->]|(i & ? & ?)]; [by left| |].
      * right. exists item. split; [by left|done].
      * right. exists i. split; [by right|done].
    + intros [?|(i & [<-|?] & ?)]; [by left; left| |].
      * left. by right.
      * right. by exists i.
Qed.

Lemma current_sectors_spec (portfolio_data : list Holding) sector :
  sector ∈ current_sectors_of hash np_random portfolio_data
  ↔ ∃ item, In item portfolio_data ∧ sector_of (symbol item) = sector.
Proof.
  unfold current_sectors_of. rewrite current_sectors_from.
  split; [by intros [?%elem_of_empty|?]|by right].
Qed.

Lemma diversification_picks_spec (portfolio_data : list Holding) :
  Forall (diversifies portfolio_data)
    (diversification_picks hash np_random
       (list_to_set (map symbol portfolio_data))
       (current_sectors_of hash np_random portfolio_data)).
Proof.
  unfold diversification_picks.
  apply fold_left_Forall; [|constructor].
  intros acc [sector stocks] Hentry Hacc.
  destruct (bool_decide (sector ∈ _)) eqn:Esec; [done|].
  apply bool_decide_eq_false in Esec. rewrite current_sectors_spec in Esec.
  apply fold_left_Forall; [|done].
  intros acc' sym Hsym Hacc'.
  destruct (bool_decide (sym ∈ _)) eqn:Esym; [done|].
  apply bool_decide_eq_false in Esym. rewrite current_symbols_spec in Esym.
  cbn [get_stock_info]. apply Forall_app. split; [done|].
  constructor; [|constructor].
  unfold diversifies, recommend. cbn [rec_symbol rec_sector rec_reason].
  split; [done|]. split; [by exists stocks|]. split; [done|].
  intros item Hitem Heq. apply Esec. by exists item.
Qed.

Lemma defensive_picks_spec (portfolio_data : list Holding) recs :
  Forall (λ r, diversifies portfolio_data r ∨ defends portfolio_data r) recs →
  Forall (λ r, diversifies portfolio_data r ∨ defends portfolio_data r)
    (defensive_picks hash np_random (list_to_set (map symbol portfolio_data)) recs).
Proof.
  intros Hrecs. unfold defensive_picks.
  apply fold_left_Forall; [|done].
  intros acc sym Hsym Hacc.
  destruct (bool_decide (sym ∈ _)) eqn:Esym; [done|].
  apply bool_decide_eq_false in Esym. rewrite current_symbols_spec in Esym.
  cbn [negb andb]. destruct (length acc <? 10)%nat; [|done].
  cbn [get_stock_info]. apply Forall_app. split; [done|].
  constructor; [|constructor]. right.
  unfold defends, recommend. cbn [rec_symbol rec_sector rec_reason info_sector].
  done.
Qed.

Lemma get_stock_recommendations_spec (portfolio_data : list Holding) risk_tolerance :
  Forall (λ r, diversifies portfolio_data r ∨ defends portfolio_data r)
    (get_stock_recommendations' portfolio_data risk_tolerance).
Proof.
  unfold get_stock_recommendations. apply Forall_take, defensive_picks_spec.
  eapply Forall_impl; [apply diversification_picks_spec|]. intros r Hr. by left.
Qed.

(** X13.  [get_stock_recommendations] returns at most ten recommendations, and
    none of them is for a symbol the portfolio holds. *)
Theorem stock_recommendations_are_new (portfolio_data : list Holding)
    (risk_tolerance : string) :
  (length (get_stock_recommendations' portfolio_data risk_tolerance) ≤ 10)%nat
  ∧ ∀ r item,
      In r (get_stock_recommendations' portfolio_data risk_tolerance) →
      In item portfolio_data → rec_symbol r ≠ symbol item.
Proof.
  split.
  - unfold get_stock_recommendations. rewrite length_take. lia.
  - intros r item Hr Hitem Heq.
    pose proof (get_stock_recommendations_spec portfolio_data risk_tolerance) as H.
    rewrite List.Forall_forall in H.
    assert (Hheld : In (rec_symbol r) (map symbol portfolio_data)).
    { rewrite Heq. by apply in_map. }
    destruct (H r Hr) as [(Hnew & _)|(Hnew & _)]; by apply Hnew.
Qed.

(** X14.  Every recommendation is of one of two kinds.  One with the reason
    'Diversification: Add <sector> exposure' is among the first three
    stocks listed for that sector, and the portfolio holds nothing whose
    sector, by the table of [get_stock_info], is that one.  The others are
    defensive stocks with the reason 'Risk management: Defensive stock',
    filed under their own sector. *)
Theorem stock_recommendations_have_a_reason (portfolio_data : list Holding)
    (risk_tolerance : string) (r : Recommendation) :
  In r (get_stock_recommendations' portfolio_data risk_tolerance) →
  diversifies portfolio_data r ∨ defends portfolio_data r.
Proof.
  intros Hr.
  pose proof (get_stock_recommendations_spec portfolio_data risk_tolerance) as H.
  rewrite List.Forall_forall in H. by apply H.
Qed.

End StockRecommendations.

(** The holdings in six sectors: ten recommendations, from the four other
    sectors. *)
Lemma stock_recommendations_are_new_witness :
  map PortfolioAnalyzer.rec_symbol
    (PortfolioAnalyzer.get_stock_recommendations (λ _, 0%Z) (λ _ _, 0%Q)
       PortfolioAnalyzer.six_sector_holdings "moderate")
  = ["AAPL"; "MSFT"; "GOOGL"; "SPG"; "PLD"; "AMT"; "GOOGL"; "META"; "NFLX"; "LIN"]%string
  ∧ ∀ r, In r (PortfolioAnalyzer.get_stock_recommendations (λ _, 0%Z) (λ _ _, 0%Q)
                 PortfolioAnalyzer.six_sector_holdings "moderate") →
         PortfolioAnalyzer.rec_symbol r ≠ "JNJ"%string.
Proof.
  split; [vm_compute; reflexivity|].
  intros r Hr.
  apply (proj2 (stock_recommendations_are_new (λ _, 0%Z) (λ _ _, 0%Q)
                  PortfolioAnalyzer.six_sector_holdings "moderate")
           r (PortfolioAnalyzer.mkHolding "JNJ" 1000) Hr).
  by left.
Defined.

Lemma stock_recommendations_have_a_reason_witness :
  Forall (λ r, PortfolioAnalyzer.diversifies PortfolioAnalyzer.six_sector_holdings r
               ∨ PortfolioAnalyzer.defends PortfolioAnalyzer.six_sector_holdings r)
    (PortfolioAnalyzer.get_stock_recommendations (λ _, 0%Z) (λ _ _, 0%Q)
       PortfolioAnalyzer.six_sector_holdings "moderate").
Proof.
  apply List.Forall_forall. intros r Hr.
  exact (stock_recommendations_have_a_reason (λ _, 0%Z) (λ _ _, 0%Q)
           PortfolioAnalyzer.six_sector_holdings "moderate" r Hr).
Defined.

Section SingleHolding.

Import PortfolioAnalyzer.
Local Open Scope Q_scope.

Lemma single_row w r :
  fold_left (zip_with Qplus)
    (zip_with (λ w column, map (Qmult w) column) [w] [r]) (repeat 0 (length r))
  = map (λ x, 0 + w * x) r.
Proof.
  simpl. induction r as [|x r IH]; simpl; [done|]. by rewrite IH.
Qed.

Lemma single_row_eq w r :
  w == 1 → Forall2 Qeq (map (λ x, 0 + w * x) r) r.
Proof.
  intros Hw. induction r as [|x r IH]; simpl; constructor; [|done].
  rewrite Hw. ring.
Qed.

(** X15.  A portfolio of one holding (of a value that is not zero) has the
    weight 1, its returns are the returns of the holding, and its
    diversification ratio is 1: by the formula when the returns vary, by
    the guard when they do not or when there are fewer than two of
    them. *)
Theorem single_holding_has_ratio_one (sym : string) (v : Q) (r : list Q) :
  ¬ v == 0 →
  ∃ w portfolio_returns,
    weights_of [mkHolding sym v] = Ok [w]
    ∧ w == 1
    ∧ portfolio_returns_of [w] [r] = Ok portfolio_returns
    ∧ Forall2 Qeq portfolio_returns r
    ∧ (diversification_ratio_of [w] [r] portfolio_returns ≃ Fin 1)%num.
Proof.
  intros Hv.
  set (T := list_sum [v]).
  assert (HT : T == v) by (unfold T, list_sum; simpl; ring).
  assert (HT0 : ¬ T == 0) by (by rewrite HT).
  set (w := v / T).
  assert (Hw : w == 1) by (unfold w; rewrite HT; by field).
  set (pr := map (λ x, 0 + w * x) r).
  assert (Hpr : Forall2 Qeq pr r) by (by apply single_row_eq).
  assert (Hprlen : length pr = length r) by (unfold pr; by rewrite length_map).
  exists w, pr. split.
  { unfold weights_of. cbn [map value]. fold T.
    destruct (Qeq_bool T 0) eqn:E; [by apply Qeq_bool_iff in E|reflexivity]. }
  split; [exact Hw|]. split.
  { unfold portfolio_returns_of. cbn [length Nat.eqb negb hd].
    by rewrite single_row. }
  split; [exact Hpr|].
  unfold diversification_ratio_of. cbn [zip_with fold_left].
  destruct (Nat.le_gt_cases (length r) 1) as [Hshort|Hlong].
  - unfold series_var. rewrite Hprlen.
    destruct (Nat.leb_spec (length r) 1); [|lia]. simpl. reflexivity.
  - rewrite (series_var_two_or_more r) by lia.
    rewrite (series_var_two_or_more pr) by lia.
    assert (Hssd : sum_sq_dev pr == sum_sq_dev r) by (by apply sum_sq_dev_proper).
    assert (Hql : qlen pr = qlen r) by (by apply qlen_proper).
    pose proof (qlen_two_or_more r ltac:(lia)) as Hn.
    pose proof (sum_sq_dev_nonneg r) as Hnn.
    rewrite Hql.
    set (V := sum_sq_dev r / (qlen r - 1)).
    set (V' := sum_sq_dev pr / (qlen r - 1)).
    assert (HV : V' == V) by (unfold V, V'; by rewrite Hssd).
    cbn [Num.mul Num.add Num.gtb Num.ltb Num.div].
    destruct (Qle_bool_cases (V' * 252) 0) as [[Hle ->]|[Hgt ->]]; cbn [negb].
    + reflexivity.
    + unfold Num.qdiv.
      destruct (Qeq_bool (V' * 252) 0) eqn:E0.
      { apply Qeq_bool_iff in E0. lra. }
      cbn [Num.eqv]. rewrite HV in *.
      assert (Hw2 : w ^ 2 == 1) by (rewrite Hw; reflexivity).
      rewrite Hw2. field. lra.
Qed.

End SingleHolding.

Lemma single_holding_has_ratio_one_witness :
  ∃ w portfolio_returns,
    PortfolioAnalyzer.weights_of [PortfolioAnalyzer.mkHolding "AAPL" 5000] = Ok [w]
    ∧ (w == 1)%Q
    ∧ PortfolioAnalyzer.portfolio_returns_of [w] [PortfolioAnalyzer.twin_returns]
      = Ok portfolio_returns
    ∧ Forall2 Qeq portfolio_returns PortfolioAnalyzer.twin_returns
    ∧ (PortfolioAnalyzer.diversification_ratio_of [w]
         [PortfolioAnalyzer.twin_returns] portfolio_returns ≃ Fin 1)%num.
Proof.
  apply (single_holding_has_ratio_one "AAPL" 5000 PortfolioAnalyzer.twin_returns).
  vm_compute. discriminate.
Defined.

(** ** The rows of the augmented table *)

Section AugmentedRows.

Import StockPredictor.
Local Open Scope Q_scope.

Variable np_sqrt : Q → Q.

(** [dropna] removes the first 49 rows at least. *)
Lemma add_indicators_length bars :
  (length (add_indicators np_sqrt bars) ≤ length bars - 49)%nat.
Proof.
  unfold add_indicators, dropna.
  destruct (indicator_table_as_map np_sqrt bars) as (f & -> & Hlow & _).
  destruct (filter_tabulate_count (λ row, negb (has_nan row)) f (length bars)
              (Nat.min 49 (length bars))) as [Hle _]; [lia| |lia].
  intros i Hi. apply Hlow. lia.
Qed.

(** The row of position [i], with the fields this section is about. *)
Lemma indicator_table_row bars row :
  In row (indicator_table np_sqrt bars) →
  ∃ i, (i < length bars)%nat
       ∧ bar row = nth i bars empty_bar
       ∧ SMA_20 row = nth i (rolling 20 window_mean (map p_close bars)) NaN
       ∧ BB_middle row = nth i (rolling 20 window_mean (map p_close bars)) NaN
       ∧ BB_upper row
         = nth i (zip_with (λ m s, (m + s * Fin 2)%num)
                    (rolling 20 window_mean (map p_close bars))
                    (rolling 20 (window_std np_sqrt) (map p_close bars))) NaN
       ∧ BB_lower row
         = nth i (zip_with (λ m s, (m - s * Fin 2)%num)
                    (rolling 20 window_mean (map p_close bars))
                    (rolling 20 (window_std np_sqrt) (map p_close bars))) NaN.
Proof.
  unfold indicator_table. intros Hin. apply in_map_iff in Hin as (i & <- & Hi).
  apply in_seq in Hi. exists i. split; [lia|]. done.
Qed.

Lemma window_std_value xs i :
  (20 ≤ S i)%nat → (i < length xs)%nat →
  ∃ x, window_std np_sqrt (window xs i 20) = Fin (np_sqrt x).
Proof.
  intros Hw Hi. unfold window_std, series_std, series_var.
  rewrite length_window by done. cbn [Nat.leb]. unfold num_sqrt.
  destruct (Qle_bool 0 _) eqn:E; [by eexists|].
  exfalso. assert (Hq : qlen (window xs i 20) = 20).
  { unfold qlen. by rewrite length_window. }
  rewrite Hq in E.
  assert (0 <= sum_sq_dev (window xs i 20) / (20 - 1)).
  { apply Qle_shift_div_l; [lra|]. pose proof (sum_sq_dev_nonneg (window xs i 20)). lra. }
  apply Qle_bool_iff in H. congruence.
Qed.

(** X16.  In every row of the augmented table the middle Bollinger band is the
    20-day average once more, and the two outer bands lie at the same
    distance, twice the 20-day standard deviation, above and below it. *)
Theorem bollinger_bands_are_symmetric (bars : list PriceBar) (row : IndicatorRow) :
  In row (add_indicators np_sqrt bars) →
  BB_middle row = SMA_20 row
  ∧ ∃ m s, BB_middle row = Fin m
           ∧ BB_upper row = Fin (m + s * 2)
           ∧ BB_lower row = Fin (m + - (s * 2))
           ∧ ((∀ x, 0 <= np_sqrt x) → 0 <= s).
Proof.
  intros Hrow. unfold add_indicators, dropna in Hrow.
  apply filter_In in Hrow as [Hin Hkeep].
  destruct (indicator_table_row bars row Hin)
    as (i & Hi & _ & Hsma & Hmid & Hup & Hlow).
  split; [by rewrite Hmid, Hsma|].
  assert (Hnn : Num.is_nan (SMA_20 row) = false).
  { unfold has_nan in Hkeep. apply negb_true_iff in Hkeep.
    repeat (apply orb_false_elim in Hkeep as [Hkeep ?]). assumption. }
  assert (H20 : (20 ≤ S i)%nat).
  { destruct (Nat.lt_ge_cases (S i) 20) as [Hearly|]; [|done].
    rewrite Hsma, nth_rolling_early in Hnn by done. done. }
  assert (Hlen : (i < length (map p_close bars))%nat) by (by rewrite length_map).
  rewrite (nth_zip_with _ _ _ _ NaN NaN) in Hup by (by rewrite length_rolling).
  rewrite (nth_zip_with _ _ _ _ NaN NaN) in Hlow by (by rewrite length_rolling).
  rewrite (nth_rolling 20 window_mean) in Hmid, Hup, Hlow by done.
  rewrite (nth_rolling 20 (window_std np_sqrt)) in Hup, Hlow by done.
  destruct (window_std_value (map p_close bars) i H20 Hlen) as [x Hx].
  rewrite Hx in Hup, Hlow. unfold window_mean in Hmid, Hup, Hlow.
  eexists _, (np_sqrt x). split; [exact Hmid|]. split; [exact Hup|].
  split; [exact Hlow|]. intros Hsqrt. apply Hsqrt.
Qed.

Lemma filter_sublist {A} (p : A → bool) (l : list A) : sublist (List.filter p l) l.
Proof.
  induction l as [|x l IH]; simpl; [constructor|].
  destruct (p x); by constructor.
Qed.

Lemma map_nth_seq_drop {A} (l : list A) d k :
  map (λ i, nth i l d) (seq k (length l - k)) = skipn k l.
Proof.
  apply list_eq. intros j. rewrite list_lookup_fmap, lookup_drop.
  destruct (decide (j < length l - k)%nat) as [Hj|Hj].
  - rewrite lookup_seq_lt by done. cbn [fmap option_fmap option_map].
    destruct (nth_lookup_or_length l (k + j) d) as [H|H]; [by rewrite H|lia].
  - rewrite lookup_seq_ge by lia. symmetry. apply lookup_ge_None_2. lia.
Qed.

(** X17.  The augmented table keeps the bars it is given: the bars of its rows
    are, in their order and unchanged, bars of the raw series from position
    49 on. *)
Theorem augmentation_keeps_the_bars (bars : list PriceBar) :
  sublist (map bar (add_indicators np_sqrt bars)) (skipn 49 bars).
Proof.
  unfold add_indicators, dropna.
  set (n := length bars). set (k := Nat.min 49 n).
  unfold indicator_table.
  set (f := λ i, mkIndicatorRow (nth i bars empty_bar) _ _ _ _ _ _ _ _ _).
  fold n. replace n with (k + (n - k))%nat at 1 by lia.
  rewrite seq_app, map_app, List.filter_app, map_app.
  rewrite (filter_none _ (map f (seq 0 k))).
  2:{ intros row Hrow. apply in_map_iff in Hrow as (i & <- & Hi).
      apply in_seq in Hi. unfold has_nan. cbn [SMA_50 f].
      rewrite (nth_rolling_early 50) by lia. simpl. by rewrite orb_true_r. }
  cbn [map app].
  assert (Hdrop : skipn 49 bars = skipn k bars).
  { unfold k. destruct (Nat.le_gt_cases 49 n) as [H|H].
    - by rewrite Nat.min_l.
    - rewrite Nat.min_r by lia. rewrite !drop_ge; [done|lia|fold n; lia]. }
  rewrite Hdrop, <- (map_nth_seq_drop bars empty_bar k). fold n.
  replace (map (λ i, nth i bars empty_bar) (seq k (n - k)))
    with (map bar (map f (seq (0 + k) (n - k)))).
  2:{ rewrite map_map. reflexivity. }
  apply (fmap_sublist bar), filter_sublist.
Qed.

End AugmentedRows.

Lemma bollinger_bands_are_symmetric_witness :
  ∃ row, In row (StockPredictor.add_indicators (λ x, x) StockPredictor.rising_bars)
         ∧ StockPredictor.BB_middle row = StockPredictor.SMA_20 row.
Proof.
  destruct (StockPredictor.add_indicators (λ x, x) StockPredictor.rising_bars)
    as [|row rows] eqn:E; [vm_compute in E; discriminate E|].
  exists row. split; [by left|].
  apply (bollinger_bands_are_symmetric (λ x, x) StockPredictor.rising_bars row).
  rewrite E. by left.
Defined.

(** ** The stock analysis *)

Section InsightTexts.

Local Open Scope string_scope.

(** The three parts of the insights, each as a function of its tests,
    when no value is both above and below another. *)
Lemma trend_insights (u1 u2 d1 d2 : bool) (x : string) :
  (u1 = true → d1 = false) → (u2 = true → d2 = false) →
  let trend :=
    if u1 && u2 then
      ["Strong uptrend: Price above both 20-day and 50-day moving averages"]
    else if d1 && d2 then
      ["Strong downtrend: Price below both 20-day and 50-day moving averages"]
    else if u1 && d2 then
      ["Potential trend reversal: Price above 20-day MA but below 50-day MA"]
    else [] in
  (In x trend
   ↔ (x = "Strong uptrend: Price above both 20-day and 50-day moving averages"
      ∧ u1 = true ∧ u2 = true)
     ∨ (x = "Strong downtrend: Price below both 20-day and 50-day moving averages"
        ∧ d1 = true ∧ d2 = true)
     ∨ (x = "Potential trend reversal: Price above 20-day MA but below 50-day MA"
        ∧ u1 = true ∧ d2 = true))
  ∧ (length trend ≤ 1)%nat.
Proof.
  intros Hu1 Hu2.
  destruct u1, u2, d1, d2;
    try (specialize (Hu1 eq_refl); discriminate Hu1);
    try (specialize (Hu2 eq_refl); discriminate Hu2);
    cbn; (split; [|lia]); intuition (discriminate || congruence).
Qed.

Lemma pair_insights (b1 b2 : bool) (first second x : string) :
  (b1 = true → b2 = false) →
  let part := if b1 then [first] else if b2 then [second] else [] in
  (In x part ↔ (x = first ∧ b1 = true) ∨ (x = second ∧ b2 = true))
  ∧ (length part ≤ 1)%nat.
Proof.
  intros Hb.
  destruct b1, b2; try (specialize (Hb eq_refl); discriminate Hb);
    cbn; (split; [|lia]); intuition (discriminate || congruence).
Qed.

Lemma in_three_parts {A} (x : A) (l1 l2 l3 : list A) (P1 P2 P3 : Prop) :
  (In x l1 ↔ P1) → (In x l2 ↔ P2) → (In x l3 ↔ P3) →
  (In x (l1 ++ l2 ++ l3) ↔ P1 ∨ P2 ∨ P3).
Proof. intros H1 H2 H3. rewrite !in_app_iff. tauto. Qed.

Lemma insights_table (u1 u2 d1 d2 r1 r2 v1 v2 : bool) :
  (u1 = true → d1 = false) → (u2 = true → d2 = false) →
  (r1 = true → r2 = false) → (v1 = true → v2 = false) →
  let insights :=
    ((if u1 && u2 then
        ["Strong uptrend: Price above both 20-day and 50-day moving averages"]
      else if d1 && d2 then
        ["Strong downtrend: Price below both 20-day and 50-day moving averages"]
      else if u1 && d2 then
        ["Potential trend reversal: Price above 20-day MA but below 50-day MA"]
      else [])
     ++ (if r1 then ["Overbought conditions: RSI above 70"]
         else if r2 then ["Oversold conditions: RSI below 30"]
         else [])
     ++ (if v1 then ["High volume: Current volume significantly above average"]
         else if v2 then ["Low volume: Current volume significantly below average"]
         else []))%list in
  (In "Strong uptrend: Price above both 20-day and 50-day moving averages" insights
   ↔ u1 = true ∧ u2 = true)
  ∧ (In "Strong downtrend: Price below both 20-day and 50-day moving averages"
       insights
     ↔ d1 = true ∧ d2 = true)
  ∧ (In "Potential trend reversal: Price above 20-day MA but below 50-day MA"
       insights
     ↔ u1 = true ∧ d2 = true)
  ∧ (In "Overbought conditions: RSI above 70" insights ↔ r1 = true)
  ∧ (In "Oversold conditions: RSI below 30" insights ↔ r2 = true)
  ∧ (In "High volume: Current volume significantly above average" insights
     ↔ v1 = true)
  ∧ (In "Low volume: Current volume significantly below average" insights
     ↔ v2 = true)
  ∧ (length insights ≤ 3)%nat.
Proof.
  intros Hu1 Hu2 Hr Hv insights. subst insights.
  pose proof (λ x, proj1 (trend_insights u1 u2 d1 d2 x Hu1 Hu2)) as HT.
  pose proof (proj2 (trend_insights u1 u2 d1 d2 "" Hu1 Hu2)) as HTlen.
  pose proof (λ x, proj1 (pair_insights r1 r2
                            "Overbought conditions: RSI above 70"
                            "Oversold conditions: RSI below 30" x Hr)) as HR.
  pose proof (proj2 (pair_insights r1 r2
                       "Overbought conditions: RSI above 70"
                       "Oversold conditions: RSI below 30" "" Hr)) as HRlen.
  pose proof (λ x, proj1 (pair_insights v1 v2
                            "High volume: Current volume significantly above average"
                            "Low volume: Current volume significantly below average"
                            x Hv)) as HV.
  pose proof (proj2 (pair_insights v1 v2
                       "High volume: Current volume significantly above average"
                       "Low volume: Current volume significantly below average"
                       "" Hv)) as HVlen.
  cbv zeta in HT, HTlen, HR, HRlen, HV, HVlen.
  set (trend := if u1 && u2 then _ else _) in *.
  set (momentum := if r1 then _ else _) in *.
  set (volume := if v1 then _ else _) in *.
  rewrite !length_app.
  repeat lazymatch goal with
         | |- (In ?x _ ↔ _) ∧ _ =>
             split; [rewrite (in_three_parts x _ _ _ _ _ _ (HT x) (HR x) (HV x));
                     clear; intuition (discriminate || congruence)|]
         end.
  lia.
Qed.

End InsightTexts.

Section StockAnalysisFacts.

Import StockPredictor.
Local Open Scope Q_scope.
Local Open Scope string_scope.

Variable np_sqrt : Q → Q.
Variable mock_bars : string → list PriceBar.

Local Notation "'get_stock_data''" := (get_stock_data np_sqrt mock_bars).
Local Notation "'analyze_stock''" := (analyze_stock np_sqrt mock_bars).

Lemma ltb_asym (a b : num) : (a <? b)%num = true → (b <? a)%num = false.
Proof.
  destruct a as [x| | |], b as [y| | |]; simpl; try done.
  destruct (Qle_bool_cases y x) as [[? ->]|[? ->]]; [done|]. intros _.
  destruct (Qle_bool_cases x y) as [[? ->]|[? ->]]; [done|lra].
Qed.

Lemma ltb_between (a : num) (lo hi : Q) :
  (lo <= hi)%Q → (Fin hi <? a)%num = true → (a <? Fin lo)%num = false.
Proof.
  intros Hle. destruct a as [x| | |]; simpl; try done.
  destruct (Qle_bool_cases x hi) as [[? ->]|[? ->]]; [done|]. intros _.
  destruct (Qle_bool_cases lo x) as [[? ->]|[? ->]]; [done|lra].
Qed.

(** X18.  [analyze_stock] fails in one case only: the table of the symbol has
    no row, and [data['Close'].iloc[-1]] raises; this is so for every
    symbol that is not cached and has fewer than 50 raw bars.  With a row
    it reports the figures of the last row.  Either way the predictor is
    left as [get_stock_data] leaves it. *)
Theorem analysis_fails_only_without_rows (st : State) (sym : string) (now : Z) :
  (fst (get_stock_data' st sym) = [] →
     fst (analyze_stock' st sym now) = AnalysisError IndexError)
  ∧ (data_cache st !! sym = None → (length (mock_bars sym) < 50)%nat →
     fst (analyze_stock' st sym now) = AnalysisError IndexError)
  ∧ (∀ row, last (fst (get_stock_data' st sym)) = Some row →
       ∃ analysis,
         fst (analyze_stock' st sym now) = AnalysisOk analysis
         ∧ an_symbol analysis = sym
         ∧ an_current_price analysis = p_close (bar row)
         ∧ an_sma_20 analysis = SMA_20 row
         ∧ an_sma_50 analysis = SMA_50 row
         ∧ an_rsi analysis = RSI row)
  ∧ snd (analyze_stock' st sym now) = snd (get_stock_data' st sym).
Proof.
  assert (Hempty : fst (get_stock_data' st sym) = [] →
                   fst (analyze_stock' st sym now) = AnalysisError IndexError).
  { unfold analyze_stock. destruct (get_stock_data' st sym) as [data st1].
    cbn [fst]. by intros ->. }
  split; [exact Hempty|]. split.
  - intros Hmiss Hbars. apply Hempty. unfold get_stock_data. rewrite Hmiss.
    cbn [fst]. pose proof (add_indicators_length np_sqrt (mock_bars sym)) as Hlen.
    destruct (add_indicators np_sqrt (mock_bars sym)); [done|simpl in Hlen; lia].
  - unfold analyze_stock. destruct (get_stock_data' st sym) as [data st1].
    cbn [fst snd]. split; [|done]. intros row ->. by eexists.
Qed.

(** X19.  Each insight is reported exactly when the reported figures meet its
    condition: the order of the tests hides none, and there are never more
    than three. *)
Theorem insights_follow_the_figures (st : State) (sym : string) (now : Z)
    (analysis : StockAnalysis) :
  fst (analyze_stock' st sym now) = AnalysisOk analysis →
  let price := Fin (an_current_price analysis) in
  let sma_20 := an_sma_20 analysis in
  let sma_50 := an_sma_50 analysis in
  let rsi := an_rsi analysis in
  let volume_ratio := an_volume_ratio analysis in
  let insights := an_insights analysis in
  (In "Strong uptrend: Price above both 20-day and 50-day moving averages" insights
   ↔ (price >? sma_20)%num = true ∧ (sma_20 >? sma_50)%num = true)
  ∧ (In "Strong downtrend: Price below both 20-day and 50-day moving averages"
       insights
     ↔ (price <? sma_20)%num = true ∧ (sma_20 <? sma_50)%num = true)
  ∧ (In "Potential trend reversal: Price above 20-day MA but below 50-day MA"
       insights
     ↔ (price >? sma_20)%num = true ∧ (sma_20 <? sma_50)%num = true)
  ∧ (In "Overbought conditions: RSI above 70" insights
     ↔ (rsi >? Fin 70)%num = true)
  ∧ (In "Oversold conditions: RSI below 30" insights
     ↔ (rsi <? Fin 30)%num = true)
  ∧ (In "High volume: Current volume significantly above average" insights
     ↔ (volume_ratio >? Fin 1.5)%num = true)
  ∧ (In "Low volume: Current volume significantly below average" insights
     ↔ (volume_ratio <? Fin 0.5)%num = true)
  ∧ (length insights ≤ 3)%nat.
Proof.
  unfold analyze_stock. destruct (get_stock_data' st sym) as [data st1].
  cbn [fst]. destruct (last data) as [row|]; [|done].
  intros [= <-]. cbv zeta.
  cbn [an_current_price an_sma_20 an_sma_50 an_rsi an_volume_ratio an_insights].
  apply insights_table.
  - apply ltb_asym.
  - apply ltb_asym.
  - apply (ltb_between _ 30 70). lra.
  - apply (ltb_between _ 0.5 1.5). lra.
Qed.

End StockAnalysisFacts.

(** Fifty flat bars leave no row; fifty rising bars leave one, with an
    RSI of 100. *)
Lemma analysis_fails_only_without_rows_witness :
  fst (StockPredictor.analyze_stock (λ x, x) (λ _, StockPredictor.flat_bars)
         StockPredictor.sample_state "AAPL" 0)
  = StockPredictor.AnalysisError StockPredictor.IndexError.
Proof.
  apply (proj1 (analysis_fails_only_without_rows (λ x, x)
                  (λ _, StockPredictor.flat_bars) StockPredictor.sample_state
                  "AAPL" 0)).
  vm_compute. reflexivity.
Defined.

Lemma insights_follow_the_figures_witness :
  ∃ analysis,
    fst (StockPredictor.analyze_stock (λ x, x) (λ _, StockPredictor.rising_bars)
           StockPredictor.sample_state "AAPL" 0)
    = StockPredictor.AnalysisOk analysis
    ∧ In "Overbought conditions: RSI above 70"%string
        (StockPredictor.an_insights analysis).
Proof.
  destruct (fst (StockPredictor.analyze_stock (λ x, x)
                   (λ _, StockPredictor.rising_bars)
                   StockPredictor.sample_state "AAPL" 0))
    as [analysis|e] eqn:E; [|vm_compute in E; discriminate E].
  exists analysis. split; [reflexivity|].
  apply (proj1 (proj2 (proj2 (proj2
           (insights_follow_the_figures _ _ _ _ _ _ E))))).
  vm_compute in E. injection E as <-. vm_compute. reflexivity.
Defined.

(** ** Recommendations of the predictor *)

Section Suggestions.

Import StockPredictor.
Local Open Scope Q_scope.
Local Open Scope string_scope.

Variable np_sqrt : Q → Q.
Variable mock_bars : string → list PriceBar.
Variable uniform : nat → Q.

Local Notation "'get_stock_data''" := (get_stock_data np_sqrt mock_bars).
Local Notation "'recommend_from''" := (recommend_from np_sqrt mock_bars uniform).
Local Notation "'get_recommendations''" :=
  (get_recommendations np_sqrt mock_bars uniform).
Local Notation "'table'" := (λ st sym, fst (get_stock_data' st sym)).

(** [get_stock_data] changes the cache at most, and no table with it. *)
Lemma get_stock_data_frame st sym :
  scaler (snd (get_stock_data' st sym)) = scaler st
  ∧ models (snd (get_stock_data' st sym)) = models st
  ∧ disk (snd (get_stock_data' st sym)) = disk st.
Proof. unfold get_stock_data. by destruct (data_cache st !! sym). Qed.

Lemma get_stock_data_tables st sym other :
  table (snd (get_stock_data' st sym)) other = table st other.
Proof.
  unfold get_stock_data. destruct (data_cache st !! sym) as [data|] eqn:E; [done|].
  cbn [snd set_data data_cache].
  destruct (decide (sym = other)) as [<-|Hne].
  - by rewrite lookup_insert_eq, E.
  - rewrite lookup_insert_ne by done. by destruct (data_cache st !! other).
Qed.

Lemma recommend_from_frame current_symbols symbols st recommendations :
  scaler (snd (recommend_from' st current_symbols symbols recommendations))
  = scaler st
  ∧ models (snd (recommend_from' st current_symbols symbols recommendations))
    = models st
  ∧ disk (snd (recommend_from' st current_symbols symbols recommendations))
    = disk st.
Proof.
  revert st recommendations.
  induction symbols as [|sym symbols IH]; intros st recommendations;
    cbn [recommend_from].
  { done. }
  destruct (negb _ && _); [|apply IH].
  pose proof (get_stock_data_frame st sym) as (Hs & Hm & Hd).
  destruct (get_stock_data' st sym) as [data st1]. cbn [snd] in Hs, Hm, Hd.
  destruct (last data) as [row|]; [|done].
  destruct (IH st1 (recommendations
                    ++ [mkSuggestion sym (sym +:+ " Corporation") (p_close (bar row))
                          ("Add " +:+ sym +:+ " for portfolio diversification")
                          (uniform (length recommendations))])%list)
    as (-> & -> & ->).
  done.
Qed.

(** What a recommendation says of its symbol, by the tables of [st0]. *)
Local Notation "'describes' st0 r" :=
  (sg_name r = sg_symbol r +:+ " Corporation"
   ∧ sg_reason r = "Add " +:+ sg_symbol r +:+ " for portfolio diversification"
   ∧ ∃ row, last (table st0 (sg_symbol r)) = Some row
            ∧ sg_current_price r = p_close (bar row))
  (at level 10, st0 at level 9, r at level 9).

Lemma recommend_from_spec (current_symbols : gset string) symbols :
  ∀ st recommendations st0,
    (∀ sym, table st sym = table st0 sym) →
    let todo :=
      firstn (5 - length recommendations)
        (List.filter (λ sym, negb (bool_decide (sym ∈ current_symbols))) symbols) in
    match fst (recommend_from' st current_symbols symbols recommendations) with
    | Ok out =>
        ∃ new, out = (recommendations ++ new)%list
               ∧ map sg_symbol new = todo
               ∧ Forall (λ r, describes st0 r) new
    | Raise e => ∃ sym, In sym todo ∧ table st0 sym = []
    end.
Proof.
  induction symbols as [|sym symbols IH]; intros st recommendations st0 Hst todo;
    subst todo; cbn [recommend_from List.filter].
  - cbn [fst]. exists []. rewrite app_nil_r, firstn_nil. by repeat split.
  - destruct (negb (bool_decide (sym ∈ current_symbols))) eqn:Eheld; cbn [andb].
    2:{ apply IH. exact Hst. }
    destruct (Nat.ltb_spec (length recommendations) 5) as [Hlt|Hge].
    2:{ specialize (IH st recommendations st0 Hst). cbv zeta in IH.
        replace (5 - length recommendations)%nat with 0%nat in * by lia.
        exact IH. }
    pose proof (get_stock_data_tables st sym) as Htab.
    pose proof (Hst sym) as Hsym. cbv beta in Hsym.
    destruct (get_stock_data' st sym) as [data st1]. cbn [fst snd] in Htab, Hsym.
    replace (5 - length recommendations)%nat
      with (S (5 - S (length recommendations)))%nat by lia.
    cbn [firstn].
    destruct (last data) as [row|] eqn:Erow.
    + set (new := mkSuggestion sym (sym +:+ " Corporation") (p_close (bar row))
                    ("Add " +:+ sym +:+ " for portfolio diversification")
                    (uniform (length recommendations))).
      specialize (IH st1 (recommendations ++ [new])%list st0).
      cbv zeta in IH. rewrite length_app in IH. cbn [length] in IH.
      replace (length recommendations + 1)%nat
        with (S (length recommendations)) in IH by lia.
      destruct (fst (recommend_from' st1 current_symbols symbols
                       (recommendations ++ [new])%list)) as [out|e].
      * destruct IH as (rest & -> & Hrest & Hdesc).
        { intros other. rewrite <- Hst. apply Htab. }
        exists (new :: rest). split; [by rewrite <- app_assoc|].
        split; [cbn [map sg_symbol new]; by rewrite Hrest|].
        constructor; [|done]. cbn [sg_name sg_symbol sg_reason sg_current_price new].
        split; [done|]. split; [done|]. exists row. by rewrite <- Hsym.
      * destruct IH as (other & Hother & Hempty).
        { intros other. rewrite <- Hst. apply Htab. }
        exists other. split; [by right|done].
    + cbn [fst]. exists sym. split; [by left|].
      rewrite <- Hsym. by destruct data using rev_ind; [|rewrite last_snoc in Erow].
Qed.

(** X20.  [get_recommendations] goes for the first five symbols of its list that
    the portfolio does not hold.  When each of them has a table with a row,
    it recommends exactly these, in this order, each at the last close of
    its table; when one of them has an empty table, the exception empties
    the whole answer.  The registry, the scaler and the model files are not
    touched. *)
Theorem recommendations_are_all_or_nothing (st : State)
    (portfolio_data : list PortfolioAnalyzer.Holding) :
  let recommendations := fst (get_recommendations' st portfolio_data) in
  let st' := snd (get_recommendations' st portfolio_data) in
  ((∀ sym, In sym (candidates portfolio_data) → table st sym ≠ []) →
     map sg_symbol recommendations = candidates portfolio_data
     ∧ ∀ r, In r recommendations →
         sg_name r = sg_symbol r +:+ " Corporation"
         ∧ ∃ row, last (table st (sg_symbol r)) = Some row
                  ∧ sg_current_price r = p_close (bar row))
  ∧ ((∃ sym, In sym (candidates portfolio_data) ∧ table st sym = []) →
     recommendations = [])
  ∧ (length recommendations ≤ 5)%nat
  ∧ (∀ r item, In r recommendations → In item portfolio_data →
       sg_symbol r ≠ PortfolioAnalyzer.symbol item)
  ∧ scaler st' = scaler st ∧ models st' = models st ∧ disk st' = disk st.
Proof.
  intros recommendations st'. subst recommendations st'.
  unfold get_recommendations.
  set (current_symbols :=
         list_to_set (map PortfolioAnalyzer.symbol portfolio_data) : gset string).
  pose proof (recommend_from_spec current_symbols popular_stocks st [] st
                (λ _, eq_refl)) as Hspec.
  pose proof (recommend_from_frame current_symbols popular_stocks st [])
    as (Hs & Hm & Hd).
  cbv zeta in Hspec. change (5 - length [])%nat with 5%nat in Hspec.
  fold current_symbols in Hspec.
  change (firstn 5 (List.filter _ popular_stocks))
    with (candidates portfolio_data) in Hspec.
  destruct (recommend_from' st current_symbols popular_stocks [])
    as [[out|e] st1]; cbn [fst snd] in *.
  - destruct Hspec as (new & -> & Hnew & Hdesc). cbn [app] in *.
    rewrite List.Forall_forall in Hdesc.
    assert (Hlen : (length new ≤ 5)%nat).
    { rewrite <- (length_map sg_symbol), Hnew. unfold candidates.
      rewrite length_take. lia. }
    assert (Hheld : ∀ r item, In r new → In item portfolio_data →
                      sg_symbol r ≠ PortfolioAnalyzer.symbol item).
    { intros r item Hr Hitem Heq.
      assert (Hc : In (sg_symbol r) (candidates portfolio_data)).
      { rewrite <- Hnew. by apply in_map. }
      unfold candidates in Hc. apply list_elem_of_In, subseteq_take in Hc.
      apply list_elem_of_In, filter_In in Hc as [_ Hc].
      apply negb_true_iff, bool_decide_eq_false in Hc. apply Hc.
      rewrite elem_of_list_to_set, Heq.
      by apply list_elem_of_In, in_map. }
    split; [|split; [|done]].
    + intros _. split; [done|]. intros r Hr.
      destruct (Hdesc r Hr) as (? & _ & ?). done.
    + intros (sym & Hsym & Hempty). exfalso.
      rewrite <- Hnew in Hsym. apply in_map_iff in Hsym as (r & <- & Hr).
      destruct (Hdesc r Hr) as (_ & _ & row & Hrow & _).
      cbv beta in Hrow. rewrite Hempty in Hrow. done.
  - destruct Hspec as (sym & Hsym & Hempty).
    split; [|split; [done|split; [cbn; lia|split; [by intros ? ? []|done]]]].
    intros Hall. exfalso. by apply (Hall sym).
Qed.

End Suggestions.

(** With flat prices for MSFT its table is empty, and nothing at all is
    recommended; with rising prices for every symbol the first five symbols
    that are not held are. *)
Lemma recommendations_are_all_or_nothing_witness :
  fst (StockPredictor.get_recommendations (λ x, x) StockPredictor.flat_for_msft
         (λ _, 0.8%Q) StockPredictor.sample_state []) = []
  ∧ map StockPredictor.sg_symbol
      (fst (StockPredictor.get_recommendations (λ x, x)
              (λ _, StockPredictor.rising_bars) (λ _, 0.8%Q)
              StockPredictor.sample_state
              [PortfolioAnalyzer.mkHolding "AAPL" 1000]))
    = StockPredictor.candidates [PortfolioAnalyzer.mkHolding "AAPL" 1000].
Proof.
  split.
  - apply (proj1 (proj2 (recommendations_are_all_or_nothing (λ x, x)
                           StockPredictor.flat_for_msft (λ _, 0.8%Q)
                           StockPredictor.sample_state []))).
    exists "MSFT"%string. split; [vm_compute; tauto|vm_compute; reflexivity].
  - apply (proj1 (recommendations_are_all_or_nothing (λ x, x)
                    (λ _, StockPredictor.rising_bars) (λ _, 0.8%Q)
                    StockPredictor.sample_state
                    [PortfolioAnalyzer.mkHolding "AAPL" 1000])).
    intros sym Hsym. vm_compute in Hsym.
    repeat (destruct Hsym as [<-|Hsym]; [vm_compute; discriminate|]).
    destruct Hsym.
Defined.

(** ** The predictor: cache, registry and rollout *)

Section PredictorState.

Import StockPredictor.
Local Open Scope Q_scope.

Variable np_sqrt : Q → Q.
Variable mock_bars : string → list PriceBar.
Variables fit_linear fit_ensemble : list (list Q) → list Q → result Exn (list Q → Q).
Variable can_write : string → bool.

Local Notation "'get_stock_data''" := (get_stock_data np_sqrt mock_bars).
Local Notation "'fit_and_evaluate''" :=
  (fit_and_evaluate np_sqrt mock_bars fit_linear fit_ensemble).
Local Notation "'train_model''" :=
  (train_model np_sqrt mock_bars fit_linear fit_ensemble can_write).
Local Notation "'predict''" :=
  (predict np_sqrt mock_bars fit_linear fit_ensemble can_write).

(** X21.  The first call of [get_stock_data] for a symbol generates its table
    and caches it; every later call returns the cached table (an empty one
    as well) and changes nothing; the tables of other symbols stay as they
    are. *)
Theorem stock_data_is_cached (st : State) (sym : string) :
  let data := fst (get_stock_data' st sym) in
  let st1 := snd (get_stock_data' st sym) in
  data_cache st1 !! sym = Some data
  ∧ get_stock_data' st1 sym = (data, st1)
  ∧ (∀ other, other ≠ sym → data_cache st1 !! other = data_cache st !! other)
  ∧ (∀ cached, data_cache st !! sym = Some cached → data = cached ∧ st1 = st)
  ∧ (data_cache st !! sym = None →
     data = add_indicators np_sqrt (mock_bars sym)).
Proof.
  unfold get_stock_data. destruct (data_cache st !! sym) as [cached|] eqn:E;
    cbn [fst snd].
  - rewrite E. split; [done|]. split; [done|]. split; [done|].
    split; [|done]. by intros ? [= <-].
  - cbn [set_data data_cache]. rewrite lookup_insert_eq.
    split; [done|]. split; [done|]. split; [|done].
    intros other Hne. by rewrite lookup_insert_ne.
Qed.

(** X22.  [predict] trains only when neither the registry nor the models
    directory has the model: with an entry in the registry it leaves the
    registry, the scaler and the files alone; with a file only, it loads
    the file into the registry; and only without both does it do what
    [train_model] does. *)
Theorem predict_trains_only_without_a_model (st : State) (sym : string)
    (days : Z) (model_type : string) (now : Z) :
  let key := model_key sym model_type in
  let st' := snd (predict' st sym days model_type now) in
  (∀ art, models st !! key = Some art →
     models st' = models st ∧ scaler st' = scaler st ∧ disk st' = disk st)
  ∧ (∀ pk, models st !! key = None → disk st !! model_path key = Some pk →
       models st' = <[key := unpickle pk]> (models st)
       ∧ scaler st' = scaler st ∧ disk st' = disk st)
  ∧ (models st !! key = None → disk st !! model_path key = None →
     let trained := snd (train_model' st sym model_type now) in
     models st' = models trained ∧ scaler st' = scaler trained
     ∧ disk st' = disk trained).
Proof.
  intros key st'. subst st'. unfold predict. fold key.
  assert (Hframe : ∀ st1,
    let st2 := snd (match models st1 !! key with
                    | None =>
                        (PredictError sym (ValueError "Failed to load or train model"),
                         st1)
                    | Some art =>
                        let '(data, st) := get_stock_data' st1 sym in
                        match forecast art (resolve_scaler st (art_scaler art)) data
                                sym model_type days with
                        | Ok response => (PredictSuccess response, st)
                        | Raise e => (PredictError sym e, st)
                        end
                    end) in
    models st2 = models st1 ∧ scaler st2 = scaler st1 ∧ disk st2 = disk st1).
  { intros st1. cbv zeta. destruct (models st1 !! key) as [art|]; [|done].
    pose proof (get_stock_data_frame np_sqrt mock_bars st1 sym) as (Hs & Hm & Hd).
    destruct (get_stock_data' st1 sym) as [data st2]. cbn [snd] in Hs, Hm, Hd.
    by destruct (forecast _ _ _ _ _ _). }
  split; [|split].
  - intros art Hart. rewrite Hart. apply Hframe.
  - intros pk Hnone Hpk. rewrite Hnone, Hpk.
    destruct (Hframe (set_model key (unpickle pk) st)) as (-> & -> & ->). done.
  - intros Hnone Hdisk. rewrite Hnone, Hdisk. apply Hframe.
Qed.

(** X23.  The loop of [predict] on a row that is not empty: with a model fitted
    on as many features as the row has, it returns one prediction a day;
    with a model of another width it fails as soon as one day is asked for;
    for no day it returns the empty list. *)
Theorem rollout_needs_the_width_of_the_model (model : Estimator) (days : nat)
    (row : list Q) :
  row ≠ [] →
  (n_features_in_ model = length row →
     ∃ predictions, rollout model days row = Ok predictions
                    ∧ length predictions = days)
  ∧ (n_features_in_ model ≠ length row → (0 < days)%nat →
     ∃ e, rollout model days row = Raise e)
  ∧ rollout model 0 row = Ok [].
Proof.
  intros Hrow. split; [|split; [|done]].
  - revert row Hrow. induction days as [|days IH]; intros row Hrow Hw.
    + by exists [].
    + cbn [rollout estimator_predict]. rewrite Hw, Nat.eqb_refl.
      cbn [mbind Py.result_bind map hd].
      destruct (IH (tl row ++ [decision model row])) as (rest & -> & Hlen).
      * by destruct (tl row).
      * rewrite length_app. destruct row; [done|]. simpl in *. lia.
      * eexists. split; [reflexivity|]. simpl. by rewrite Hlen.
  - intros Hw Hdays. destruct days as [|days]; [lia|].
    cbn [rollout estimator_predict].
    destruct (Nat.eqb_spec (length row) (n_features_in_ model)); [congruence|].
    by eexists.
Qed.

End PredictorState.

Lemma stock_data_is_cached_witness :
  StockPredictor.get_stock_data (λ x, x) (λ _, StockPredictor.flat_bars)
    (snd (StockPredictor.get_stock_data (λ x, x) (λ _, StockPredictor.flat_bars)
            StockPredictor.sample_state "AAPL")) "AAPL"
  = ([], snd (StockPredictor.get_stock_data (λ x, x)
                (λ _, StockPredictor.flat_bars) StockPredictor.sample_state "AAPL")).
Proof.
  pose proof (stock_data_is_cached (λ x, x) (λ _, StockPredictor.flat_bars)
                StockPredictor.sample_state "AAPL") as (_ & H & _ & _ & Hgen).
  rewrite H. rewrite Hgen by reflexivity. vm_compute. reflexivity.
Defined.

Lemma predict_trains_only_without_a_model_witness :
  StockPredictor.models
    (snd (StockPredictor.predict (λ x, x) (λ _, StockPredictor.rising_bars)
            StockPredictor.constant_fit StockPredictor.constant_fit (λ _, true)
            StockPredictor.sample_state "AAPL" 7 "lstm" 0))
  = StockPredictor.models StockPredictor.sample_state.
Proof.
  refine (proj1 (proj1 (predict_trains_only_without_a_model (λ x, x)
                          (λ _, StockPredictor.rising_bars)
                          StockPredictor.constant_fit StockPredictor.constant_fit
                          (λ _, true) StockPredictor.sample_state "AAPL" 7 "lstm" 0)
                   StockPredictor.stored_artifact _)).
  vm_compute. reflexivity.
Defined.

Lemma rollout_needs_the_width_of_the_model_witness :
  ∃ predictions,
    StockPredictor.rollout (StockPredictor.mkEstimator 3 (λ _, 0.5%Q)) 7
      [0.1; 0.2; 0.3]%Q = Ok predictions
    ∧ length predictions = 7%nat.
Proof.
  refine (proj1 (rollout_needs_the_width_of_the_model
                   (StockPredictor.mkEstimator 3 (λ _, 0.5%Q)) 7
                   [0.1; 0.2; 0.3]%Q _) _).
  - discriminate.
  - reflexivity.
Defined.

(** ** Training: data, scaler, registry and files *)

Section Training.

Import StockPredictor.
Local Open Scope Q_scope.

Variable np_sqrt : Q → Q.
Variable mock_bars : string → list PriceBar.
Variables fit_linear fit_ensemble : list (list Q) → list Q → result Exn (list Q → Q).
Variable can_write : string → bool.

Local Notation "'get_stock_data''" := (get_stock_data np_sqrt mock_bars).
Local Notation "'fit_and_evaluate''" :=
  (fit_and_evaluate np_sqrt mock_bars fit_linear fit_ensemble).
Local Notation "'train_model''" :=
  (train_model np_sqrt mock_bars fit_linear fit_ensemble can_write).

(** The table [fit_transform] returns: every row times the scales, plus
    the offsets. *)
Local Notation "'scaled_by' sc" :=
  (map (λ row : list Q, zip_with Qplus (zip_with Qmult row (scale_ sc)) (min_ sc)))
  (at level 10, sc at level 9).

Lemma scaler_transform_fitted data table :
  check_array (map features_of data) = Ok table →
  scaler_transform (Some (fit_scaler table)) (map features_of data)
  = Ok (scaled_by (fit_scaler table) table).
Proof.
  intros E. unfold scaler_transform. rewrite E.
  destruct (check_array_rows _ _ E) as [Hlen Hrows].
  destruct (fit_scaler_lengths table) as [Hs Hm].
  unfold mbind, Py.result_bind. rewrite Hs, Nat.eqb_refl. cbn [negb].
  rewrite (inplace_same_width Qmult) by done.
  assert (Hw : length (hd [] table) = 14%nat).
  { destruct table as [|row table]; [by destruct data|]. by inversion Hrows. }
  assert (H1 : Forall (λ row, length row = 14%nat)
                 (map (λ row, zip_with Qmult row (scale_ (fit_scaler table))) table)).
  { apply zip_rows_width; [congruence|done]. }
  rewrite (inplace_same_width Qplus).
  2:{ rewrite Hm, Hw. destruct table as [|row table]; [by destruct data|].
      cbn [map hd] in H1 |- *. by inversion H1. }
  by rewrite map_map.
Qed.

(** [prepare_data] either fails on the table, leaving the scaler unfitted,
    or fits the scaler on it and returns the windows of the scaled table. *)
Lemma prepare_data_cases st data lookback :
  (∃ e, check_array (map features_of data) = Raise e
        ∧ prepare_data st data lookback = (Raise e, set_scaler None st))
  ∨ (∃ table, check_array (map features_of data) = Ok table
              ∧ prepare_data st data lookback
                = (Ok (windows lookback (scaled_by (fit_scaler table) table)),
                   set_scaler (Some (fit_scaler table)) st)).
Proof.
  unfold prepare_data.
  destruct (check_array (map features_of data)) as [table|e] eqn:E.
  - right. exists table. split; [done|].
    change (scaler (set_scaler (Some (fit_scaler table)) st))
      with (Some (fit_scaler table)).
    by rewrite (scaler_transform_fitted data table E).
  - left. by exists e.
Qed.

Lemma windows_lengths lookback (scaled : list (list Q)) :
  length (fst (windows lookback scaled)) = (length scaled - lookback)%nat
  ∧ length (snd (windows lookback scaled)) = (length scaled - lookback)%nat.
Proof. unfold windows. cbn [fst snd]. by rewrite !length_map, !length_seq. Qed.

(** A table of fewer than 160 rows has fewer than 100 windows. *)
Lemma fit_and_evaluate_short st sym model_type :
  (length (fst (get_stock_data' st sym)) < 160)%nat →
  ∃ e st1, fit_and_evaluate' st sym model_type = (Raise e, st1)
           ∧ (e = ValueError "Insufficient data for training"
              ∨ check_array (map features_of (fst (get_stock_data' st sym)))
                = Raise e).
Proof.
  intros Hshort. unfold fit_and_evaluate.
  destruct (get_stock_data' st sym) as [data st1]. cbn [fst] in Hshort |- *.
  destruct (prepare_data_cases st1 data 60)
    as [(e & He & ->)|(table & Ht & ->)].
  - exists e, (set_scaler None st1). split; [done|by right].
  - destruct (windows 60 _) as [X y] eqn:EX.
    pose proof (proj1 (windows_lengths 60 (scaled_by (fit_scaler table) table)))
      as HX.
    rewrite EX in HX. cbn [fst] in HX. rewrite length_map in HX.
    destruct (check_array_rows _ _ Ht) as [Hlen _]. rewrite Hlen in HX.
    cbn [mbind Py.result_bind].
    destruct (Nat.ltb_spec (length X) 100) as [_|Hge]; [|lia].
    eexists _, _. split; [reflexivity|by left].
Qed.

(** X24.  A symbol whose table is not cached and whose raw series has fewer than
    209 bars cannot be trained on: at most len - 49 rows are left, at least
    160 are needed for the 100 windows of 60 rows.  [train_model] reports
    the error and keeps the registry and the files as they are. *)
Theorem training_needs_209_bars (st : State) (sym model_type : string) (now : Z) :
  data_cache st !! sym = None →
  (length (mock_bars sym) < 209)%nat →
  ∃ e, fst (train_model' st sym model_type now) = TrainError sym model_type e
       ∧ models (snd (train_model' st sym model_type now)) = models st
       ∧ disk (snd (train_model' st sym model_type now)) = disk st.
Proof.
  intros Hmiss Hbars.
  assert (Hshort : (length (fst (get_stock_data' st sym)) < 160)%nat).
  { unfold get_stock_data. rewrite Hmiss. cbn [fst].
    pose proof (add_indicators_length np_sqrt (mock_bars sym)). lia. }
  destruct (fit_and_evaluate_short st sym model_type Hshort) as (e & st1 & He & _).
  pose proof (fit_and_evaluate_registry np_sqrt mock_bars fit_linear fit_ensemble
                st sym model_type) as [Hm Hd].
  exists e. unfold train_model. rewrite He in *. cbn [fst snd] in *. done.
Qed.

Lemma fit_and_evaluate_scaler st sym model_type :
  scaler (snd (fit_and_evaluate' st sym model_type))
  = match check_array (map features_of (fst (get_stock_data' st sym))) with
    | Ok table => Some (fit_scaler table)
    | Raise _ => None
    end.
Proof.
  unfold fit_and_evaluate.
  destruct (get_stock_data' st sym) as [data st1]. cbn [fst].
  destruct (prepare_data_cases st1 data 60)
    as [(e & -> & ->)|(table & -> & ->)]; [done|].
  by destruct (windows 60 _).
Qed.

Lemma train_model_scaler st sym model_type now :
  scaler (snd (train_model' st sym model_type now))
  = scaler (snd (fit_and_evaluate' st sym model_type)).
Proof.
  unfold train_model.
  destruct (fit_and_evaluate' st sym model_type) as [[[model metrics]|e] st1];
    [|done].
  by destruct (can_write _).
Qed.

Lemma train_model_other_keys st sym model_type now key :
  key ≠ model_key sym model_type →
  models (snd (train_model' st sym model_type now)) !! key = models st !! key.
Proof.
  intros Hkey.
  pose proof (fit_and_evaluate_registry np_sqrt mock_bars fit_linear fit_ensemble
                st sym model_type) as [Hm _].
  unfold train_model.
  destruct (fit_and_evaluate' st sym model_type) as [[[model metrics]|e] st1];
    cbn [snd] in Hm; [|by rewrite <- Hm].
  destruct (can_write _); cbn [snd set_file set_model models];
    by rewrite lookup_insert_ne, Hm.
Qed.

(** X25.  Every call of [train_model], whether it succeeds or not, leaves the
    predictor's one scaler fitted on the table of the symbol it was called
    for (or unfitted, when that table is refused).  The entries of other
    keys stay in the registry, and those that name the predictor's scaler
    now scale with the scaler of this symbol. *)
Theorem training_refits_the_shared_scaler (st : State) (sym model_type : string)
    (now : Z) :
  let st' := snd (train_model' st sym model_type now) in
  let refitted :=
    match check_array (map features_of (fst (get_stock_data' st sym))) with
    | Ok table => Some (fit_scaler table)
    | Raise _ => None
    end in
  scaler st' = refitted
  ∧ ∀ key art,
      key ≠ model_key sym model_type →
      models st !! key = Some art →
      art_scaler art = SelfScaler →
      models st' !! key = Some art
      ∧ resolve_scaler st' (art_scaler art) = refitted.
Proof.
  intros st' refitted. subst st' refitted.
  assert (Hs : scaler (snd (train_model' st sym model_type now))
               = match check_array (map features_of (fst (get_stock_data' st sym)))
                 with
                 | Ok table => Some (fit_scaler table)
                 | Raise _ => None
                 end).
  { by rewrite train_model_scaler, fit_and_evaluate_scaler. }
  split; [exact Hs|].
  intros key art Hkey Hart Hself.
  split; [by rewrite train_model_other_keys|].
  by rewrite Hself.
Qed.

(** X26.  When the fit and the evaluation succeed, the model is in the registry
    whatever becomes of the file: if the file can be written, the report is
    a success and the file holds the model, the metrics and the scaler as
    it is then; if not, the report is an error, no file is written, and
    the model stays registered. *)
Theorem model_is_registered_before_it_is_saved (st : State)
    (sym model_type : string) (now : Z) (model : Estimator) (metrics : Metrics)
    (st1 : State) :
  fit_and_evaluate' st sym model_type = (Ok (model, metrics), st1) →
  let key := model_key sym model_type in
  let st' := snd (train_model' st sym model_type now) in
  models st' !! key = Some (mkArtifact model SelfScaler metrics now)
  ∧ (can_write (model_path key) = true →
     fst (train_model' st sym model_type now)
     = TrainSuccess sym model_type metrics
     ∧ disk st' !! model_path key
       = Some (mkPickle model (scaler st') metrics now))
  ∧ (can_write (model_path key) = false →
     (∃ e, fst (train_model' st sym model_type now)
           = TrainError sym model_type e)
     ∧ disk st' = disk st).
Proof.
  intros Hfit key st'. subst st'.
  pose proof (fit_and_evaluate_registry np_sqrt mock_bars fit_linear fit_ensemble
                st sym model_type) as [_ Hd].
  unfold train_model. rewrite Hfit in *. cbn [snd] in Hd. fold key.
  destruct (can_write (model_path key)); cbn [fst snd set_file set_model models disk].
  - rewrite !lookup_insert_eq. split; [done|]. split; [|done]. intros _. done.
  - rewrite lookup_insert_eq. split; [done|]. split; [done|]. intros _.
    split; [by eexists|done].
Qed.

End Training.

(** Fifty bars. *)
Lemma training_needs_209_bars_witness :
  ∃ e, fst (StockPredictor.train_model (λ x, x) (λ _, StockPredictor.rising_bars)
              StockPredictor.constant_fit StockPredictor.constant_fit (λ _, true)
              StockPredictor.sample_state "AAPL" "linear" 0)
       = StockPredictor.TrainError "AAPL" "linear" e.
Proof.
  destruct (training_needs_209_bars (λ x, x) (λ _, StockPredictor.rising_bars)
              StockPredictor.constant_fit StockPredictor.constant_fit (λ _, true)
              StockPredictor.sample_state "AAPL" "linear" 0)
    as (e & He & _).
  - reflexivity.
  - vm_compute. lia.
  - by exists e.
Defined.

(** AAPL is trained on its cached table; a training attempt for MSFT, whose
    table is empty, then leaves the entry of AAPL with an unfitted scaler. *)
Lemma training_refits_the_shared_scaler_witness :
  let st1 :=
    snd (StockPredictor.train_model (λ x, x) (λ _, StockPredictor.flat_bars)
           StockPredictor.constant_fit StockPredictor.constant_fit (λ _, true)
           StockPredictor.cached_state "AAPL" "linear" 0) in
  let st2 :=
    snd (StockPredictor.train_model (λ x, x) (λ _, StockPredictor.flat_bars)
           StockPredictor.constant_fit StockPredictor.constant_fit (λ _, true)
           st1 "MSFT" "linear" 1) in
  ∃ art,
    StockPredictor.models st1 !! "AAPL_linear" = Some art
    ∧ (∃ sc, StockPredictor.resolve_scaler st1 (StockPredictor.art_scaler art)
             = Some sc)
    ∧ StockPredictor.models st2 !! "AAPL_linear" = Some art
    ∧ StockPredictor.resolve_scaler st2 (StockPredictor.art_scaler art) = None.
Proof.
  intros st1 st2.
  destruct (StockPredictor.models st1 !! "AAPL_linear") as [art|] eqn:E;
    [|vm_compute in E; discriminate E].
  assert (Hself : StockPredictor.art_scaler art = StockPredictor.SelfScaler).
  { vm_compute in E. by injection E as <-. }
  exists art. split; [reflexivity|]. split.
  { rewrite Hself. vm_compute. by eexists. }
  destruct (proj2 (training_refits_the_shared_scaler (λ x, x)
                     (λ _, StockPredictor.flat_bars)
                     StockPredictor.constant_fit StockPredictor.constant_fit
                     (λ _, true) st1 "MSFT" "linear" 1)
              "AAPL_linear" art) as [Hkept Hscaler]; [discriminate|exact E|exact Hself|].
  split; [exact Hkept|]. unfold st2. rewrite Hscaler. vm_compute. reflexivity.
Defined.

(** The 160 cached rows give 100 windows: the training goes through. *)
Lemma model_is_registered_before_it_is_saved_witness :
  (∃ metrics,
     fst (StockPredictor.train_model (λ x, x) (λ _, [])
            StockPredictor.constant_fit StockPredictor.constant_fit (λ _, true)
            StockPredictor.cached_state "AAPL" "linear" 0)
     = StockPredictor.TrainSuccess "AAPL" "linear" metrics)
  ∧ (∃ art,
       StockPredictor.models
         (snd (StockPredictor.train_model (λ x, x) (λ _, [])
                 StockPredictor.constant_fit StockPredictor.constant_fit
                 (λ _, false) StockPredictor.cached_state "AAPL" "linear" 0))
       !! "AAPL_linear" = Some art).
Proof.
  destruct (StockPredictor.fit_and_evaluate (λ x, x) (λ _, [])
              StockPredictor.constant_fit StockPredictor.constant_fit
              StockPredictor.cached_state "AAPL" "linear")
    as [[[model metrics]|e] st1] eqn:E; [|vm_compute in E; discriminate E].
  split.
  - exists metrics.
    apply (proj1 (proj2 (model_is_registered_before_it_is_saved (λ x, x) (λ _, [])
             StockPredictor.constant_fit StockPredictor.constant_fit (λ _, true)
             StockPredictor.cached_state "AAPL" "linear" 0 model metrics st1 E))).
    reflexivity.
  - eexists.
    apply (proj1 (model_is_registered_before_it_is_saved (λ x, x) (λ _, [])
             StockPredictor.constant_fit StockPredictor.constant_fit (λ _, false)
             StockPredictor.cached_state "AAPL" "linear" 0 model metrics st1 E)).
Defined.

(** ** The prepared data lie in the unit interval *)

Section Scaling.

Import StockPredictor.
Local Open Scope Q_scope.








Local Notation "'scaled_by' sc" :=
  (map (λ row : list Q, zip_with Qplus (zip_with Qmult row (scale_ sc)) (min_ sc)))
  (at level 10, sc at level 9).



End Scaling.

